(** * Weather forecast dashboard: the retrieval and presentation pipeline

    A shallow embedding of [app.py]: the five warehouse queries (their SQL
    read as functions over lists of rows), the pandas frames the queries
    come back as, the Streamlit script [main] as a program in a small
    state-and-exception monad that records what is rendered and which
    query functions are called, and the [st.cache_data(ttl=600)] wrapper
    with an explicit clock.

    Conventions.
    - Instants are seconds since the Unix epoch, as [Z].
    - A [float64] cell is a primitive binary64 float; NaN is pandas'
      missing value.
    - Text is kept as the source has it (UTF-8 bytes in [string]). *)

From Stdlib Require Import ZArith List String Bool Floats Lia Sorted Permutation.
Import ListNotations.
Open Scope string_scope.
Open Scope list_scope.
Open Scope Z_scope.

(** ** Configuration *)

Module Config.

(** [VIETNAM_TZ = "Asia/Ho_Chi_Minh"] *)
Definition VIETNAM_TZ : string := "Asia/Ho_Chi_Minh".

(** [CITIES]: display name to the location key of the warehouse. A
    Python dict keeps insertion order, so [list(CITIES.keys())] is the
    list of first components. *)
Definition CITIES : list (string * string) :=
  [ ("Hà Nội", "Ha Noi City");
    ("Hồ Chí Minh", "Ho Chi Minh City");
    ("Đà Nẵng", "Da Nang City") ].

Definition keys {V : Type} (d : list (string * V)) : list string :=
  map fst d.

(** [d.get(k, default)] *)
Fixpoint get {V : Type} (d : list (string * V)) (k : string) (default : V) : V :=
  match d with
  | [] => default
  | (k', v) :: d' => if String.eqb k' k then v else get d' k default
  end.

End Config.

(** ** The queries, as relational operators on lists of rows *)

Module Sql.

(** *** Window ranking

    [row_number() OVER (PARTITION BY key ORDER BY ord DESC)]: the rank
    of a row inside its partition once the partition is sorted on [ord],
    largest first. SQL leaves the order of rows of equal [ord] to the
    engine; here they keep the scan order. A row is presented with the
    rows scanned before it and the rows scanned after it. *)
Section Window.
Context {R K : Type}.
Variable key : R -> K.
Variable key_eqb : K -> K -> bool.
Variable ord : R -> Z.

Definition same_partition (r r' : R) : bool := key_eqb (key r') (key r).

(** Rows of the partition sorted in front of [r]: earlier rows whose
    [ord] is at least that of [r], later rows whose [ord] is larger. *)
Definition ahead_before (r r' : R) : bool :=
  same_partition r r' && (ord r <=? ord r').
Definition ahead_after (r r' : R) : bool :=
  same_partition r r' && (ord r <? ord r').

(** The rows of partition [k]. *)
Definition in_partition (k : K) (r : R) : bool := key_eqb (key r) k.

Definition row_number (before : list R) (r : R) (after : list R) : nat :=
  S (List.length (filter (ahead_before r) before)
     + List.length (filter (ahead_after r) after)).

(** [QUALIFY row_number() OVER (...) = 1] (and the equivalent
    [SELECT *, ROW_NUMBER() ... AS rn ... WHERE rn = 1]). *)
Fixpoint qualify_from (before rest : list R) : list R :=
  match rest with
  | [] => []
  | r :: after =>
      if Nat.eqb (row_number before r after) 1
      then r :: qualify_from (before ++ [r]) after
      else qualify_from (before ++ [r]) after
  end.

Definition qualify_first (rows : list R) : list R := qualify_from [] rows.
End Window.

(** *** ORDER BY: a stable insertion sort on an integer key *)
Section OrderBy.
Context {R : Type}.
Variable k : R -> Z.

Fixpoint insert_asc (r : R) (l : list R) : list R :=
  match l with
  | [] => [r]
  | x :: l' => if k x <=? k r then x :: insert_asc r l' else r :: x :: l'
  end.

Definition order_by_asc (l : list R) : list R :=
  fold_left (fun acc r => insert_asc r acc) l [].

Fixpoint insert_desc (r : R) (l : list R) : list R :=
  match l with
  | [] => [r]
  | x :: l' => if k r <=? k x then x :: insert_desc r l' else r :: x :: l'
  end.

Definition order_by_desc (l : list R) : list R :=
  fold_left (fun acc r => insert_desc r acc) l [].
End OrderBy.

(** [LIMIT n] *)
Definition limit {R : Type} (n : Z) (l : list R) : list R :=
  firstn (Z.to_nat n) l.

(** *** Tables (the columns the queries name; cells are taken to be
non-null) *)

(** [hcmut.gold.lstm_weather_24h] *)
Record lstm_weather_24h := {
  dt_forecast_time : Z;
  nr_predicted_temperature : float;
  w_ds_location : string;
  w_dt_model_run_time : Z
}.

(** [hcmut.gold.lstm_rain_daily] *)
Record lstm_rain_daily := {
  dt_forecast_date : Z;
  prediction_probability : float;
  prediction_label : Z;
  r_ds_location : string;
  r_dt_model_run_time : Z
}.

(** [hcmut.gold.fact_vn_weather_hourly] *)
Record fact_vn_weather_hourly := {
  dt_date_record : Z;
  nr_temperature_2m : float;
  h_ds_location : string
}.

(** The value of [CURRENT_TIMESTAMP()] and the day number of
    [CURRENT_DATE()] when the statement runs. *)
Record clock := { current_timestamp : Z; current_date : Z }.

(** The partition key of both rankings: (forecast instant, location). *)
Definition pair_eqb (a b : Z * string) : bool :=
  (fst a =? fst b) && String.eqb (snd a) (snd b).

Definition weather_key (r : lstm_weather_24h) : Z * string :=
  (dt_forecast_time r, w_ds_location r).
Definition rain_key (r : lstm_rain_daily) : Z * string :=
  (dt_forecast_date r, r_ds_location r).

(** *** get_temperature_forecast_24h *)

(** [WITH latest_forecast AS (SELECT * FROM lstm_weather_24h
     WHERE ds_location = :city QUALIFY row_number() OVER (PARTITION BY
     dt_forecast_time, ds_location ORDER BY dt_model_run_time DESC) = 1)] *)
Definition latest_forecast (tbl : list lstm_weather_24h) (city : string)
  : list lstm_weather_24h :=
  qualify_first weather_key pair_eqb w_dt_model_run_time
    (filter (fun r => String.eqb (w_ds_location r) city) tbl).

Record forecast_out := {
  forecast_time : Z;
  predicted_temperature : float;
  fo_location : string;
  fo_model_run_time : Z
}.

Definition select_forecast (r : lstm_weather_24h) : forecast_out :=
  {| forecast_time := dt_forecast_time r;
     predicted_temperature := nr_predicted_temperature r;
     fo_location := w_ds_location r;
     fo_model_run_time := w_dt_model_run_time r |}.

Definition temperature_forecast_24h
    (tbl : list lstm_weather_24h) (clk : clock) (city : string)
  : list forecast_out :=
  map select_forecast
    (limit 24
       (order_by_asc dt_forecast_time
          (filter (fun r => current_timestamp clk <=? dt_forecast_time r)
             (latest_forecast tbl city)))).

(** *** get_rain_probability_today *)

(** [DATE(from_utc_timestamp(ts, 'Asia/Ho_Chi_Minh'))]: the day number of
    the wall clock seven hours ahead of UTC. *)
Definition vn_date (ts : Z) : Z := (ts + 7 * 3600) / 86400.

(** The inner [SELECT *, ROW_NUMBER() OVER (...) AS rn FROM lstm_rain_daily
    WHERE ds_location = :city AND DATE(...) >= CURRENT_DATE()] kept to
    [rn = 1]. *)
Definition rain_candidate (clk : clock) (city : string) (r : lstm_rain_daily) : bool :=
  String.eqb (r_ds_location r) city
  && (current_date clk <=? vn_date (dt_forecast_date r)).

Definition latest_rain (tbl : list lstm_rain_daily) (clk : clock) (city : string)
  : list lstm_rain_daily :=
  qualify_first rain_key pair_eqb r_dt_model_run_time
    (filter (rain_candidate clk city) tbl).

Record rain_out := {
  forecast_date : Z;
  rain_probability : float;
  rain_label : Z;
  ro_location : string;
  ro_model_run_time : Z
}.

Definition select_rain (r : lstm_rain_daily) : rain_out :=
  {| forecast_date := dt_forecast_date r;
     rain_probability := prediction_probability r;
     rain_label := prediction_label r;
     ro_location := r_ds_location r;
     ro_model_run_time := r_dt_model_run_time r |}.

Definition rain_probability_today
    (tbl : list lstm_rain_daily) (clk : clock) (city : string)
  : list rain_out :=
  map select_rain
    (limit 5 (order_by_asc dt_forecast_date (latest_rain tbl clk city))).

(** *** get_temperature_comparison *)

(** [latest_lstm] is the same common table expression as
    [latest_forecast]. *)
Definition latest_lstm := latest_forecast.

Record comparison_out := {
  date : Z;
  co_predicted_temperature : float;
  actual_temperature : float;
  co_location : string
}.

(** [FROM latest_lstm INNER JOIN fact_vn_weather_hourly w ON
    latest_lstm.dt_forecast_time = w.dt_date_record AND
    latest_lstm.ds_location = w.ds_location WHERE w.ds_location = :city] *)
Definition join_hourly (city : string)
    (l : list lstm_weather_24h) (w : list fact_vn_weather_hourly)
  : list comparison_out :=
  flat_map
    (fun f =>
       map (fun o =>
              {| date := dt_forecast_time f;
                 co_predicted_temperature := nr_predicted_temperature f;
                 actual_temperature := nr_temperature_2m o;
                 co_location := h_ds_location o |})
         (filter (fun o =>
                    (dt_forecast_time f =? dt_date_record o)
                    && String.eqb (w_ds_location f) (h_ds_location o)
                    && String.eqb (h_ds_location o) city)
            w))
    l.

Definition temperature_comparison
    (tbl : list lstm_weather_24h) (hourly : list fact_vn_weather_hourly)
    (city : string) (lim : Z)
  : list comparison_out :=
  limit lim (order_by_desc date (join_hourly city (latest_lstm tbl city) hourly)).

(** The stage of each forecast-derived query that ranks and keeps rank 1,
    as (forecast instant, location, model run time) triples. *)
Inductive forecast_query := Forecast24h | RainToday | Comparison.

Record warehouse := {
  t_lstm_weather_24h : list lstm_weather_24h;
  t_lstm_rain_daily : list lstm_rain_daily;
  t_fact_vn_weather_hourly : list fact_vn_weather_hourly
}.

Definition run_triple {R : Type} (key : R -> Z * string) (run : R -> Z) (r : R)
  : Z * string * Z := (key r, run r).

Definition run_triple_w (r : lstm_weather_24h) : Z * string * Z :=
  (dt_forecast_time r, w_ds_location r, w_dt_model_run_time r).
Definition run_triple_r (r : lstm_rain_daily) : Z * string * Z :=
  (dt_forecast_date r, r_ds_location r, r_dt_model_run_time r).

(** Rows of the table the query reads. *)
Definition underlying (q : forecast_query) (wh : warehouse) : list (Z * string * Z) :=
  match q with
  | Forecast24h | Comparison => map run_triple_w (t_lstm_weather_24h wh)
  | RainToday => map run_triple_r (t_lstm_rain_daily wh)
  end.

(** Rows that reach the ranking: those the [WHERE] in its scope keeps. *)
Definition candidates (q : forecast_query) (wh : warehouse) (clk : clock) (city : string)
  : list (Z * string * Z) :=
  match q with
  | Forecast24h | Comparison =>
      map run_triple_w
        (filter (fun r => String.eqb (w_ds_location r) city) (t_lstm_weather_24h wh))
  | RainToday =>
      map run_triple_r (filter (rain_candidate clk city) (t_lstm_rain_daily wh))
  end.

(** Rows that leave the ranking with rank 1. *)
Definition deduplicated (q : forecast_query) (wh : warehouse) (clk : clock) (city : string)
  : list (Z * string * Z) :=
  match q with
  | Forecast24h => map run_triple_w (latest_forecast (t_lstm_weather_24h wh) city)
  | Comparison => map run_triple_w (latest_lstm (t_lstm_weather_24h wh) city)
  | RainToday => map run_triple_r (latest_rain (t_lstm_rain_daily wh) clk city)
  end.

Definition has_pair (p : Z * string) (t : Z * string * Z) : bool :=
  pair_eqb (fst t) p.

(** *** get_daily_weather, get_hourly_weather *)

Section Recent.
Context {R : Type}.
Variable date : R -> Z.
Variable location : R -> string.

(** [SELECT * FROM t WHERE ds_location = :city
     ORDER BY dt_date_record DESC LIMIT n] *)
Definition recent (tbl : list R) (city : string) (n : Z) : list R :=
  limit n (order_by_desc date (filter (fun r => String.eqb (location r) city) tbl)).
End Recent.

(** [hcmut.gold.fact_vn_weather_daily]: the two columns the statement
    names; the measures come along with [SELECT *]. *)
Record fact_vn_weather_daily := {
  d_dt_date_record : Z;
  d_ds_location : string;
  d_measures : list (string * float)
}.

(** The statement of [get_daily_weather]: [LIMIT 30]. *)
Definition daily_weather (tbl : list fact_vn_weather_daily) (city : string)
  : list fact_vn_weather_daily :=
  recent d_dt_date_record d_ds_location tbl city 30.

(** The statement of [get_hourly_weather]: [LIMIT :limit]. *)
Definition hourly_weather (tbl : list fact_vn_weather_hourly) (city : string) (lim : Z)
  : list fact_vn_weather_hourly :=
  recent dt_date_record h_ds_location tbl city lim.

End Sql.

(** ** Python values, exceptions and formatted text *)

Module Py.

Inductive exn :=
| KeyError (key : string)
| TypeError (msg : string)
| ValueError (msg : string)
| AttributeError (msg : string)
| DatabaseError (msg : string).

(** The result of evaluating an expression that may raise. *)
Inductive outcome (A : Type) :=
| Ok (a : A)
| Raise (e : exn).
Arguments Ok {A} a.
Arguments Raise {A} e.

Definition obind {A B : Type} (o : outcome A) (k : A -> outcome B) : outcome B :=
  match o with
  | Ok a => k a
  | Raise e => Raise e
  end.

(** Objects held in an [object] column, and the pieces of an f-string.
    How Python prints a float is not computed: a piece records the
    number and the format applied to it. *)
Inductive pyobject :=
| PyNone
| PyStr (s : string)
| PyDate (days : Z)                 (* datetime.date, days since 1970-01-01 *)
| PyFormatted (ps : list piece)     (* a str built by formatting *)
with piece :=
| Lit (s : string)
| Fixed (digits : nat) (x : float)      (* f"{x:.<digits>f}" *)
| StrRound (digits : nat) (x : float)   (* str(round(x, digits)) *)
| StrObj (o : pyobject)                 (* f"{o}" *)
| StrFloat (x : float)                  (* f"{x}" *)
| StrInt (z : Z)                        (* f"{z}" *)
| StrTime (offset : option Z) (t : option Z)   (* f"{ts}", a Timestamp *)
| StrExn (e : exn).                     (* f"{e}" *)

Definition text := list piece.

End Py.
Import Py.

(** ** Calendar arithmetic on instants *)

Module Calendar.

(** Broken-down wall clock time. *)
Record datetime := {
  year : Z; month : Z; day : Z; hour : Z; minute : Z; second : Z
}.

(** Days since 1970-01-01 of a proleptic Gregorian date. *)
Definition days_from_civil (y m d : Z) : Z :=
  let y' := if m <=? 2 then y - 1 else y in
  let era := y' / 400 in
  let yoe := y' - era * 400 in
  let mp := (m + 9) mod 12 in
  let doy := (153 * mp + 2) / 5 + d - 1 in
  let doe := yoe * 365 + yoe / 4 - yoe / 100 + doy in
  era * 146097 + doe - 719468.

Definition civil_from_days (z : Z) : Z * Z * Z :=
  let z := z + 719468 in
  let era := z / 146097 in
  let doe := z - era * 146097 in
  let yoe := (doe - doe / 1460 + doe / 36524 - doe / 146096) / 365 in
  let doy := doe - (365 * yoe + yoe / 4 - yoe / 100) in
  let mp := (5 * doy + 2) / 153 in
  let d := doy - (153 * mp + 2) / 5 + 1 in
  let m := if mp <? 10 then mp + 3 else mp - 9 in
  let y := yoe + era * 400 in
  (if m <=? 2 then y + 1 else y, m, d).

(** Seconds since the epoch of a wall clock reading taken as UTC. *)
Definition timegm (t : datetime) : Z :=
  days_from_civil (year t) (month t) (day t) * 86400
  + hour t * 3600 + minute t * 60 + second t.

(** The wall clock reading, [offset] seconds east of UTC, of an instant. *)
Definition wall_clock (offset : Z) (instant : Z) : datetime :=
  let local := instant + offset in
  let '(y, m, d) := civil_from_days (local / 86400) in
  let s := local mod 86400 in
  {| year := y; month := m; day := d;
     hour := s / 3600; minute := (s mod 3600) / 60; second := s mod 60 |}.

Definition digit (n : Z) : string :=
  String (Ascii.ascii_of_nat (48 + Z.to_nat (n mod 10))) EmptyString.
Definition pad2 (n : Z) : string := String.append (digit (n / 10)) (digit n).
Definition pad4 (n : Z) : string := String.append (pad2 (n / 100)) (pad2 n).

Definition concat_all (l : list string) : string :=
  fold_right String.append EmptyString l.

(** [strftime('%d-%m-%Y %H:%M')] *)
Definition strftime_dmY_HM (t : datetime) : string :=
  concat_all [pad2 (day t); "-"; pad2 (month t); "-"; pad4 (year t); " ";
              pad2 (hour t); ":"; pad2 (minute t)].

(** [strftime('%d-%m-%Y %H:%M:%S')] *)
Definition strftime_dmY_HMS (t : datetime) : string :=
  concat_all [strftime_dmY_HM t; ":"; pad2 (second t)].

(** ISO rendering, minutes resolution: [YYYY-MM-DD HH:MM]. *)
Definition isoformat_minutes (t : datetime) : string :=
  concat_all [pad4 (year t); "-"; pad2 (month t); "-"; pad2 (day t); " ";
              pad2 (hour t); ":"; pad2 (minute t)].

End Calendar.

(** ** Frames

    The part of pandas the script uses. Time columns are [datetime64]
    (naive or zone-aware) or [object] columns of dates and text, numeric
    columns are [float64] or [int64]: what Arrow's [to_pandas] yields for
    TIMESTAMP, DATE, STRING, DOUBLE and BIGINT. *)

Module Pandas.

Inductive tzinfo := UTC | Asia_Ho_Chi_Minh | FixedOffset (seconds : Z).

(** Modelled from the spec: the offset of a zone from UTC. The rule for
    [Asia/Ho_Chi_Minh] lives in the tz database, outside the repository;
    the spec fixes the display zone at UTC+7, the database's offset for
    every instant since June 1975. *)
Definition utcoffset (tz : tzinfo) : Z :=
  match tz with
  | UTC => 0
  | Asia_Ho_Chi_Minh => 7 * 3600
  | FixedOffset s => s
  end.

(** Zone lookup by name; an unknown name raises (a [KeyError] subclass). *)
Definition timezone (name : string) : outcome tzinfo :=
  if String.eqb name "UTC" then Ok UTC
  else if String.eqb name "Asia/Ho_Chi_Minh" then Ok Asia_Ho_Chi_Minh
  else Raise (KeyError name).

(** A column. A naive [datetime64] value is a wall clock reading, stored
    as the seconds it would have if read as UTC; an aware one is an
    instant. [None] is NaT. *)
Inductive series :=
| Float64 (xs : list float)
| Int64 (zs : list Z)
| Datetime64 (tz : option tzinfo) (ts : list (option Z))
| Object (vs : list pyobject).

Record DataFrame := {
  index : nat;                        (* len(df) *)
  data : list (string * series)
}.

Definition columns (df : DataFrame) : list string := map fst (data df).

(** [df.empty]: no row or no column. *)
Definition empty (df : DataFrame) : bool :=
  Nat.eqb (index df) 0 || Nat.eqb (List.length (data df)) 0.

(** [c in df.columns] *)
Definition contains (c : string) (df : DataFrame) : bool :=
  existsb (String.eqb c) (columns df).

Fixpoint lookup (c : string) (d : list (string * series)) : option series :=
  match d with
  | [] => None
  | (c', s) :: d' => if String.eqb c' c then Some s else lookup c d'
  end.

(** [df[c]] *)
Definition getitem (df : DataFrame) (c : string) : outcome series :=
  match lookup c (data df) with
  | Some s => Ok s
  | None => Raise (KeyError c)
  end.

Fixpoint assign (c : string) (s : series) (d : list (string * series))
  : list (string * series) :=
  match d with
  | [] => [(c, s)]
  | (c', s') :: d' =>
      if String.eqb c' c then (c', s) :: d' else (c', s') :: assign c s d'
  end.

(** [df[c] = s]: replaces the column, or appends a new one. *)
Definition setitem (df : DataFrame) (c : string) (s : series) : DataFrame :=
  {| index := index df; data := assign c s (data df) |}.

(** [df.copy()]: frames are values here, so the caller's frame is never
    touched by what is done to the copy. *)
Definition copy (df : DataFrame) : DataFrame := df.

(** *** Time columns *)

(** [pd.api.types.is_datetime64_any_dtype] *)
Definition is_datetime64_any_dtype (s : series) : bool :=
  match s with
  | Datetime64 _ _ => true
  | _ => false
  end.

Fixpoint parse_all (strptime : string -> option Z) (coerce : bool)
    (vs : list pyobject) : outcome (list (option Z)) :=
  match vs with
  | [] => Ok []
  | v :: vs' =>
      obind
        (match v with
         | PyNone => Ok None
         | PyDate d => Ok (Some (d * 86400))
         | PyStr s =>
             match strptime s with
             | Some t => Ok (Some t)
             | None => if coerce then Ok None else Raise (ValueError s)
             end
         | PyFormatted _ =>
             if coerce then Ok None else Raise (ValueError "Unknown datetime string format")
         end)
        (fun t => obind (parse_all strptime coerce vs') (fun ts => Ok (t :: ts)))
  end.

(** A number in a time position is read as nanoseconds since the epoch,
    pandas' default unit. Instants are kept to the second here, as
    everywhere; the smallest [int64] stands for NaT. *)
Definition of_epoch_ns (ns : Z) : option Z :=
  if (- 2 ^ 63 <? ns) && (ns <? 2 ^ 63) then Some (ns / 1000000000) else None.

(** The whole part of a binary64 value, as the cast to [int64] takes it;
    nothing for NaN and the infinities. *)
Definition float_trunc (x : float) : option Z :=
  match Prim2SF x with
  | S754_zero _ => Some 0
  | S754_finite s m e =>
      let v := if 0 <=? e then Z.pos m * 2 ^ e else Z.pos m / 2 ^ (- e) in
      Some (if s then - v else v)
  | S754_infinity _ | S754_nan => None
  end.

(** NaN, and a value outside the range of [int64], come out as NaT. *)
Definition float_epoch_ns (x : float) : option Z :=
  match float_trunc x with
  | Some ns => of_epoch_ns ns
  | None => None
  end.

(** [pd.to_datetime(s, utc=True)], with [errors="coerce"] when [coerce].
    [strptime] is pandas' reading of a text as an instant (text without
    an offset is read as UTC); naive readings are taken as UTC; numbers
    are nanoseconds since the epoch. *)
Definition to_datetime (strptime : string -> option Z) (coerce : bool)
    (s : series) : outcome series :=
  match s with
  | Datetime64 _ ts => Ok (Datetime64 (Some UTC) ts)
  | Object vs =>
      obind (parse_all strptime coerce vs) (fun ts => Ok (Datetime64 (Some UTC) ts))
  | Float64 xs => Ok (Datetime64 (Some UTC) (map float_epoch_ns xs))
  | Int64 zs => Ok (Datetime64 (Some UTC) (map of_epoch_ns zs))
  end.

Definition not_datetimelike : exn :=
  AttributeError "Can only use .dt accessor with datetimelike values".

(** [s.dt.tz] *)
Definition dt_tz (s : series) : outcome (option tzinfo) :=
  match s with
  | Datetime64 tz _ => Ok tz
  | _ => Raise not_datetimelike
  end.

(** [s.dt.tz_localize(tz)]: the wall clock readings are declared to be
    readings in [tz]. *)
Definition tz_localize (tz : tzinfo) (s : series) : outcome series :=
  match s with
  | Datetime64 None ts =>
      Ok (Datetime64 (Some tz) (map (option_map (fun w => w - utcoffset tz)) ts))
  | Datetime64 (Some _) _ => Raise (TypeError "Already tz-aware, use tz_convert to convert.")
  | _ => Raise not_datetimelike
  end.

(** [s.dt.tz_convert(tz)]: same instants, shown in another zone. *)
Definition tz_convert (tz : tzinfo) (s : series) : outcome series :=
  match s with
  | Datetime64 (Some _) ts => Ok (Datetime64 (Some tz) ts)
  | Datetime64 None _ =>
      Raise (TypeError "Cannot convert tz-naive timestamps, use tz_localize to localize")
  | _ => Raise not_datetimelike
  end.

(** What a cell of a [datetime64] column shows. *)
Definition shown (tz : option tzinfo) (t : Z) : Calendar.datetime :=
  Calendar.wall_clock (match tz with Some z => utcoffset z | None => 0 end) t.

(** [s.dt.strftime(fmt)]; NaT gives a missing value. *)
Definition dt_strftime (fmt : Calendar.datetime -> string) (s : series) : outcome series :=
  match s with
  | Datetime64 tz ts =>
      Ok (Object (map (fun t => match t with
                                | Some i => PyStr (fmt (shown tz i))
                                | None => PyNone
                                end) ts))
  | _ => Raise not_datetimelike
  end.

(** *** Numeric columns *)

Definition float_of_nat (n : nat) : float :=
  PrimFloat.of_uint63 (Uint63.of_Z (Z.of_nat n)).

Definition float_of_Z (z : Z) : float :=
  if z <? 0 then PrimFloat.opp (PrimFloat.of_uint63 (Uint63.of_Z (- z)))
  else PrimFloat.of_uint63 (Uint63.of_Z z).

Definition values (s : series) : outcome (list float) :=
  match s with
  | Float64 xs => Ok xs
  | Int64 zs => Ok (map float_of_Z zs)
  | Datetime64 _ _ => Raise (TypeError "datetime64 column in a numeric position")
  | Object _ => Raise (TypeError "object column in a numeric position")
  end.

Definition notna (x : float) : bool := negb (PrimFloat.is_nan x).

(** Reductions skip NaN ([skipna=True]). The sum is taken left to
    right. *)
Definition nansum (xs : list float) : float :=
  fold_left PrimFloat.add (filter notna xs) 0%float.

Definition count (xs : list float) : nat := List.length (filter notna xs).

(** [Series.mean()]: sum of the valid values over their number; NaN when
    there is none. *)
Definition nanmean (xs : list float) : float :=
  PrimFloat.div (nansum xs) (float_of_nat (count xs)).

Definition nanmax (xs : list float) : float :=
  match filter notna xs with
  | [] => nan
  | x :: r => fold_left (fun a b => if PrimFloat.ltb a b then b else a) r x
  end.

Definition nanmin (xs : list float) : float :=
  match filter notna xs with
  | [] => nan
  | x :: r => fold_left (fun a b => if PrimFloat.ltb b a then b else a) r x
  end.

Definition mean (s : series) : outcome float := obind (values s) (fun xs => Ok (nanmean xs)).
Definition max (s : series) : outcome float := obind (values s) (fun xs => Ok (nanmax xs)).
Definition min (s : series) : outcome float := obind (values s) (fun xs => Ok (nanmin xs)).
Definition sum (s : series) : outcome float := obind (values s) (fun xs => Ok (nansum xs)).

Fixpoint map2 (f : float -> float -> float) (xs ys : list float) : list float :=
  match xs, ys with
  | x :: xs', y :: ys' => f x y :: map2 f xs' ys'
  | _, _ => []
  end.

(** [a - b] on two columns of one frame (same index). *)
Definition sub (a b : series) : outcome series :=
  obind (values a) (fun xs =>
  obind (values b) (fun ys => Ok (Float64 (map2 PrimFloat.sub xs ys)))).

(** [abs(s)], [s ** 2] and [s * k], element by element. *)
Definition abs (s : series) : outcome series :=
  obind (values s) (fun xs => Ok (Float64 (map PrimFloat.abs xs))).
Definition square (s : series) : outcome series :=
  obind (values s) (fun xs => Ok (Float64 (map (fun x => PrimFloat.mul x x) xs))).

(** [x ** 0.5] on a [float64] scalar. *)
Definition pow_half (x : float) : float := PrimFloat.sqrt x.

(** *** Rows *)

Inductive scalar :=
| SFloat (x : float)
| SInt (z : Z)
| STimestamp (tz : option tzinfo) (t : option Z)
| SObject (o : pyobject).

Definition out_of_bounds : exn := ValueError "single positional indexer is out-of-bounds".

(** [s.iloc[0]] *)
Definition iloc0 (s : series) : outcome scalar :=
  match s with
  | Float64 (x :: _) => Ok (SFloat x)
  | Int64 (z :: _) => Ok (SInt z)
  | Datetime64 tz (t :: _) => Ok (STimestamp tz t)
  | Object (o :: _) => Ok (SObject o)
  | _ => Raise out_of_bounds
  end.

(** A scalar used as a number. *)
Definition as_float (v : scalar) : outcome float :=
  match v with
  | SFloat x => Ok x
  | SInt z => Ok (float_of_Z z)
  | STimestamp _ _ => Raise (TypeError "Timestamp in a numeric position")
  | SObject _ => Raise (TypeError "object in a numeric position")
  end.

(** [pd.to_datetime(v, utc=True)] on one value; the result is an instant
    or NaT. *)
Definition scalar_to_datetime (strptime : string -> option Z) (v : scalar)
  : outcome (option Z) :=
  match v with
  | STimestamp _ t => Ok t
  | SObject o => obind (parse_all strptime false [o]) (fun ts => Ok (hd None ts))
  | SFloat x => Ok (float_epoch_ns x)
  | SInt z => Ok (of_epoch_ns z)
  end.

Definition series_head (n : nat) (s : series) : series :=
  match s with
  | Float64 xs => Float64 (firstn n xs)
  | Int64 zs => Int64 (firstn n zs)
  | Datetime64 tz ts => Datetime64 tz (firstn n ts)
  | Object vs => Object (firstn n vs)
  end.

(** [df.head(n)] *)
Definition head (n : nat) (df : DataFrame) : DataFrame :=
  {| index := Nat.min n (index df);
     data := map (fun cs => (fst cs, series_head n (snd cs))) (data df) |}.

(** Order of two cells when sorting ascending, NaT last. *)
Definition cell_le (a b : option Z) : bool :=
  match a, b with
  | Some x, Some y => x <=? y
  | _, None => true
  | None, Some _ => false
  end.

Fixpoint insert_position (ts : list (option Z)) (i : nat) (l : list nat) : list nat :=
  match l with
  | [] => [i]
  | j :: l' =>
      if cell_le (nth j ts None) (nth i ts None)
      then j :: insert_position ts i l'
      else i :: j :: l'
  end.

(** Row positions in ascending order of the cells; equal cells keep
    their order. *)
Definition argsort (ts : list (option Z)) : list nat :=
  fold_left (fun acc i => insert_position ts i acc) (seq 0 (List.length ts)) [].

Definition take (idx : list nat) (s : series) : series :=
  match s with
  | Float64 xs => Float64 (map (fun i => nth i xs nan) idx)
  | Int64 zs => Int64 (map (fun i => nth i zs 0) idx)
  | Datetime64 tz ts => Datetime64 tz (map (fun i => nth i ts None) idx)
  | Object vs => Object (map (fun i => nth i vs PyNone) idx)
  end.

(** [df.sort_values(c)] on a [datetime64] column, the only kind the
    script sorts on. *)
Definition sort_values (df : DataFrame) (c : string) : outcome DataFrame :=
  obind (getitem df c) (fun s =>
    match s with
    | Datetime64 _ ts =>
        let idx := argsort ts in
        Ok {| index := index df;
              data := map (fun cs => (fst cs, take idx (snd cs))) (data df) |}
    | _ => Raise (TypeError "sort_values on a column that is not datetime64")
    end).

(** [df[[c1; ...; cn]]] *)
Fixpoint select (df : DataFrame) (cs : list string) : outcome (list (string * series)) :=
  match cs with
  | [] => Ok []
  | c :: cs' =>
      obind (getitem df c) (fun s =>
      obind (select df cs') (fun d => Ok ((c, s) :: d)))
  end.

(** [df.columns = names] *)
Definition set_columns (names : list string) (df : DataFrame) : outcome DataFrame :=
  if Nat.eqb (List.length names) (List.length (data df))
  then Ok {| index := index df; data := combine names (map snd (data df)) |}
  else Raise (ValueError "Length mismatch")
  .

End Pandas.

(** ** Streamlit: what a script run renders *)

Module Streamlit.
Import Pandas.

(** A trace of a Plotly figure: the data on each axis and the legend
    name; colours and sizes are presentation only and are left out. *)
Record scatter := {
  sc_x : series;
  sc_y : series;
  sc_name : string
}.

Inductive figure :=
| ScatterFigure (title xaxis_title yaxis_title : string) (traces : list scatter)
| IndicatorFigure (value : float) (title : text) (bar_color : string)
| LineFigure (frame : DataFrame) (x y : string) (title : string).

Inductive metric_value :=
| MText (t : text)
| MCount (n : nat).

(** One call of the Streamlit API. Layout containers ([st.sidebar],
    [with cols[i]]) only place what is rendered and are not recorded;
    [st.columns(n)] is recorded as [n] equal weights. *)
Inductive widget :=
| title (s : string)
| markdown (s : string)
| header (s : string)
| subheader (s : string)
| info (s : string)
| warning (s : string)
| error (t : text)
| exception (e : exn)
| write (t : text)
| metric (label : string) (value : metric_value)
    (delta : option text) (delta_color : option string)
| plotly_chart (fig : figure)
| dataframe (df : DataFrame)
| selectbox (label : string) (options : list string) (index : nat)
| radio (label : string) (options : list string)
| slider (label : string) (min_value max_value value : Z)
| columns (spec : list Z)
| spinner (s : string).

(** *** Rendering code: output and exceptions

    A computation yields a value or raises, and in both cases leaves
    the widgets rendered up to that point. *)
Definition R (A : Type) : Type := outcome A * list widget.

Definition ret {A : Type} (a : A) : R A := (Ok a, []).

Definition bind {A B : Type} (m : R A) (k : A -> R B) : R B :=
  match m with
  | (Ok a, w) => let (o, w') := k a in (o, w ++ w')
  | (Raise e, w) => (Raise e, w)
  end.

(** [st.<widget>(...)] *)
Definition st (w : widget) : R unit := (Ok tt, [w]).

(** An expression that may raise, evaluated inside rendering code. *)
Definition eval {A : Type} (o : outcome A) : R A := (o, []).

(** [try: body except Exception as e: handler(e)] *)
Definition try_except {A : Type} (body : R A) (handler : exn -> R A) : R A :=
  match body with
  | (Ok a, w) => (Ok a, w)
  | (Raise e, w) => let (o, w') := handler e in (o, w ++ w')
  end.

End Streamlit.

(** ** The application *)

Module App.
Import Config Pandas Streamlit.

Notation "'let?' x ':=' e 'in' k" := (obind e (fun x => k))
  (at level 10, x name, e at level 100, k at level 200).
Declare Scope render_scope.
Delimit Scope render_scope with render.
Notation "x <- m ;; k" := (bind m (fun x => k))
  (at level 61, m at next level, right associativity) : render_scope.
Notation "m ;; k" := (bind m (fun _ => k))
  (at level 61, right associativity) : render_scope.

Section Visualization.
Local Open Scope render_scope.
(** pandas' reading of a text as an instant (see [Pandas.to_datetime]). *)
Variable strptime : string -> option Z.

(** The conversion every chart applies to its time column [c]:

    [if not pd.api.types.is_datetime64_any_dtype(df[c]):
         df[c] = pd.to_datetime(df[c], utc=True, errors="coerce")
     if df[c].dt.tz is None:
         df[c] = df[c].dt.tz_localize("UTC")
     df[c_vn] = df[c].dt.tz_convert(VIETNAM_TZ)] *)
Definition to_vietnam_time (df : DataFrame) (c c_vn : string) : outcome DataFrame :=
  let? s := getitem df c in
  let? df1 :=
    if negb (is_datetime64_any_dtype s)
    then let? s' := to_datetime strptime true s in Ok (setitem df c s')
    else Ok df in
  let? s1 := getitem df1 c in
  let? tz := dt_tz s1 in
  let? df2 :=
    match tz with
    | None =>
        let? utc := timezone "UTC" in
        let? s' := tz_localize utc s1 in Ok (setitem df1 c s')
    | Some _ => Ok df1
    end in
  let? s2 := getitem df2 c in
  let? vn := timezone VIETNAM_TZ in
  let? s3 := tz_convert vn s2 in
  Ok (setitem df2 c_vn s3).

(** [create_temperature_forecast_chart(df)] *)
Definition create_temperature_forecast_chart (df : DataFrame) : R unit :=
  if empty df then st (warning "Không có dữ liệu dự đoán.")
  else
    dx <- (if contains "forecast_time" df
           then df' <- eval (to_vietnam_time (copy df) "forecast_time" "forecast_time_vn") ;;
                ret (df', "forecast_time_vn")
           else ret (df, "forecast_time")) ;;
    let '(df, x_col) := dx in
    x <- eval (getitem df x_col) ;;
    y <- eval (getitem df "predicted_temperature") ;;
    st (plotly_chart
          (ScatterFigure "🌡️ Dự Đoán Nhiệt Độ 24 Giờ Tiếp Theo"
             "Thời Gian (UTC+7)" "Nhiệt Độ (°C)"
             [ {| sc_x := x; sc_y := y; sc_name := "Nhiệt Độ Dự Đoán" |} ])).

(** The band of a rain probability on the 0-100 scale, as the gauge
    computes it: the colour of the bar and the label under the title. *)
Definition gauge_band (rain_prob : float) : string * string :=
  if PrimFloat.ltb rain_prob 30 then ("#4ECDC4", "Ít Khả Năng Mưa")
  else if PrimFloat.ltb rain_prob 50 then ("#FFD93D", "Có Thể Mưa")
  else if PrimFloat.ltb rain_prob 70 then ("#FFA07A", "Khả Năng Mưa Cao")
  else ("#FF6B6B", "Rất Có Khả Năng Mưa").

(** [ts.tz_convert(VIETNAM_TZ).strftime(fmt)] on one timestamp; NaT does
    not support [strftime]. *)
Definition strftime_vn (fmt : Calendar.datetime -> string) (t : option Z)
  : outcome string :=
  let? vn := timezone VIETNAM_TZ in
  match t with
  | Some i => Ok (fmt (Calendar.wall_clock (utcoffset vn) i))
  | None => Raise (ValueError "NaTType does not support strftime")
  end.

(** The percentage column of the detail table:
    [(s * 100).round(2).astype(str) + '%'] *)
Definition percent_text (s : series) : outcome series :=
  let? xs := values s in
  Ok (Object (map (fun x =>
                     PyFormatted [StrRound 2 (PrimFloat.mul x 100); Lit "%"]) xs)).

(** [create_rain_probability_gauge(df)] *)
Definition create_rain_probability_gauge (df : DataFrame) : R unit :=
  if empty df then st (warning "Không có dữ liệu xác suất mưa.")
  else
    (* row = df.iloc[0] *)
    rain_prob_raw <- eval (let? s := getitem df "rain_probability" in
                           let? v := iloc0 s in as_float v) ;;
    let rain_prob := PrimFloat.mul rain_prob_raw 100 in
    forecast_date_vn <- eval (let? s := getitem df "forecast_date" in
                              let? v := iloc0 s in
                              let? t := scalar_to_datetime strptime v in
                              strftime_vn Calendar.strftime_dmY_HM t) ;;
    let '(color, label) := gauge_band rain_prob in
    st (plotly_chart
          (IndicatorFigure rain_prob
             [Lit "🌧️ Xác Suất Mưa ("; Lit forecast_date_vn;
              Lit ")<br><span style='font-size:0.8em;color:gray'>";
              Lit label; Lit "</span>"]
             color)) ;;
    if Nat.ltb 1 (index df) then
      st (subheader "📋 Chi Tiết Dự Đoán Mưa") ;;
      display_df <- eval (
        let display_df := copy df in
        let? s := getitem display_df "forecast_date" in
        let? s := to_datetime strptime false s in
        let display_df := setitem display_df "forecast_date" s in
        let? vn := timezone VIETNAM_TZ in
        let? s_vn := tz_convert vn s in
        let? s_vn := dt_strftime Calendar.strftime_dmY_HM s_vn in
        let display_df := setitem display_df "forecast_date_vn" s_vn in
        let? p := getitem display_df "rain_probability" in
        let? p := percent_text p in
        let display_df := setitem display_df "rain_probability" p in
        let? d := select display_df
                    ["forecast_date_vn"; "rain_probability"; "rain_label"; "location"] in
        set_columns ["Thời Gian Dự Đoán"; "Xác Suất Mưa"; "Nhãn"; "Địa Điểm"]
          {| index := index display_df; data := d |}) ;;
      st (dataframe display_df)
    else ret tt.

(** [create_comparison_chart(df)]. Without a [date] column the x axis
    is [df[df.index]], a column selection by row labels. *)
Definition create_comparison_chart (df : DataFrame) : R unit :=
  if empty df || negb (contains "predicted_temperature" df)
  then st (warning "Không có dữ liệu để so sánh.")
  else
    dx <- (if contains "date" df
           then df' <- eval (to_vietnam_time (copy df) "date" "date_vn") ;;
                x <- eval (getitem df' "date_vn") ;;
                ret (df', x)
           else x <- eval (Raise (KeyError "None of [RangeIndex] are in the [columns]")) ;;
                ret (df, x)) ;;
    let '(df, x) := dx in
    y <- eval (getitem df "predicted_temperature") ;;
    let predicted := {| sc_x := x; sc_y := y; sc_name := "Nhiệt Độ Dự Đoán" |} in
    traces <- (if contains "actual_temperature" df
               then y' <- eval (getitem df "actual_temperature") ;;
                    ret [predicted;
                         {| sc_x := x; sc_y := y'; sc_name := "Nhiệt Độ Thực Tế" |}]
               else ret [predicted]) ;;
    st (plotly_chart
          (ScatterFigure "📊 So Sánh Nhiệt Độ Dự Đoán vs Thực Tế"
             "Thời Gian" "Nhiệt Độ (°C)" traces)).

(** [for c in aliases: if c in df.columns: col = c; break], starting
    from [col = None]. *)
Fixpoint first_in_columns (aliases : list string) (df : DataFrame) : option string :=
  match aliases with
  | [] => None
  | c :: rest => if contains c df then Some c else first_in_columns rest df
  end.

(** The column choices of the daily cards. *)
Definition temp_mean_col (df : DataFrame) : option string :=
  first_in_columns ["nr_temperature_2m_mean"; "nr_temperature_2m"] df.
Definition temp_max_col (df : DataFrame) : option string :=
  if contains "nr_temperature_2m_max" df then Some "nr_temperature_2m_max"
  else temp_mean_col df.
Definition temp_min_col (df : DataFrame) : option string :=
  if contains "nr_temperature_2m_min" df then Some "nr_temperature_2m_min"
  else temp_mean_col df.
Definition rain_col (df : DataFrame) : option string :=
  first_in_columns ["nr_rain_sum"; "nr_precipitation_sum"] df.
Definition humidity_col (df : DataFrame) : option string :=
  if contains "nr_relative_humidity_2m_mean" df
  then Some "nr_relative_humidity_2m_mean" else None.

(** [st.metric(label, f"{x:.<digits>f}<unit>")] *)
Definition metric_fixed (label : string) (digits : nat) (x : float) (suffix : string)
  : R unit :=
  st (metric label (MText [Fixed digits x; Lit suffix]) None None).

Definition metric_na (label : string) : R unit :=
  st (metric label (MText [Lit "N/A"]) None None).

(** [create_weather_metrics_cards(df, data_type)] *)
Definition create_weather_metrics_cards (df : DataFrame) (data_type : string) : R unit :=
  if empty df then ret tt
  else if String.eqb data_type "daily" then
    st (columns [1; 1; 1; 1]) ;;
    match temp_mean_col df with
    | Some c =>
        avg_temp <- eval (let? s := getitem df c in mean s) ;;
        metric_fixed "🌡️ Nhiệt độ trung bình" 1 avg_temp "°C"
    | None => metric_na "🌡️ Nhiệt độ trung bình"
    end ;;
    match temp_max_col df with
    | Some c =>
        max_temp <- eval (let? s := getitem df c in max s) ;;
        metric_fixed "🔥 Nhiệt độ cao nhất" 1 max_temp "°C"
    | None => metric_na "🔥 Nhiệt độ cao nhất"
    end ;;
    match rain_col df with
    | Some c =>
        total_rain <- eval (let? s := getitem df c in sum s) ;;
        metric_fixed "🌧️ Tổng lượng mưa" 1 total_rain " mm"
    | None => metric_na "🌧️ Tổng lượng mưa"
    end ;;
    match humidity_col df with
    | Some c =>
        avg_humidity <- eval (let? s := getitem df c in mean s) ;;
        metric_fixed "💧 Độ ẩm trung bình" 0 avg_humidity "%"
    | None => st (metric "📊 Số ngày" (MCount (index df)) None None)
    end
  else if String.eqb data_type "hourly" then
    st (columns [1; 1; 1; 1]) ;;
    (if contains "nr_temperature_2m" df
     then avg_temp <- eval (let? s := getitem df "nr_temperature_2m" in mean s) ;;
          metric_fixed "🌡️ Nhiệt Độ TB" 1 avg_temp "°C"
     else ret tt) ;;
    (if contains "nr_humidity" df
     then avg_humidity <- eval (let? s := getitem df "nr_humidity" in mean s) ;;
          metric_fixed "💧 Độ Ẩm TB" 1 avg_humidity "%"
     else ret tt) ;;
    (if contains "nr_wind_speed" df
     then avg_wind <- eval (let? s := getitem df "nr_wind_speed" in mean s) ;;
          metric_fixed "💨 Tốc Độ Gió TB" 1 avg_wind " km/h"
     else ret tt) ;;
    st (metric "⏰ Số Giờ" (MCount (index df)) None None)
  else ret tt.

End Visualization.

(** *** Data fetching *)

Inductive query :=
| DailyWeather
| HourlyWeather
| TemperatureForecast24h
| RainProbabilityToday
| TemperatureComparison.

(** A call of one of the five fetching functions, with its arguments:
    the key under which Streamlit memoizes the result. *)
Record call := { fn : query; city : string; days : option Z }.

(** [cursor.execute(query, parameters=...)]: the statement and the
    values bound to [:city] and [:limit]. *)
Record statement := { sql : query; p_city : string; p_limit : option Z }.

(** The warehouse round trip of one statement (connect, execute, fetch,
    [to_pandas], close): a frame, or the exception it raises. *)
Definition warehouse : Type := statement -> outcome DataFrame.

Record entry := { cached_call : call; cached_value : DataFrame; cached_at : Z }.
Definition cache : Type := list entry.

Definition query_eqb (a b : query) : bool :=
  match a, b with
  | DailyWeather, DailyWeather
  | HourlyWeather, HourlyWeather
  | TemperatureForecast24h, TemperatureForecast24h
  | RainProbabilityToday, RainProbabilityToday
  | TemperatureComparison, TemperatureComparison => true
  | _, _ => false
  end.

Definition days_eqb (a b : option Z) : bool :=
  match a, b with
  | Some x, Some y => x =? y
  | None, None => true
  | _, _ => false
  end.

Definition call_eqb (a b : call) : bool :=
  query_eqb (fn a) (fn b) && String.eqb (city a) (city b) && days_eqb (days a) (days b).

Fixpoint find_entry (c : call) (store : cache) : option entry :=
  match store with
  | [] => None
  | e :: store' => if call_eqb (cached_call e) c then Some e else find_entry c store'
  end.

Definition replace_entry (e : entry) (store : cache) : cache :=
  e :: filter (fun e' => negb (call_eqb (cached_call e') (cached_call e))) store.

(** What a script run does, in order. *)
Inductive event :=
| Rendered (w : widget)
| Called (c : call)
| Executed (s : statement).

(** *** The script monad: memo store, exceptions, trace *)
Definition M (A : Type) : Type := cache -> outcome A * cache * list event.

Definition mret {A : Type} (a : A) : M A := fun store => (Ok a, store, []).

Definition mbind {A B : Type} (m : M A) (k : A -> M B) : M B :=
  fun store =>
    match m store with
    | (Ok a, store', tr) =>
        let '(o, store'', tr') := k a store' in (o, store'', tr ++ tr')
    | (Raise e, store', tr) => (Raise e, store', tr)
    end.

(** Rendering code run inside the script. *)
Definition render {A : Type} (r : R A) : M A :=
  fun store => (fst r, store, map Rendered (snd r)).

Definition mtry_except {A : Type} (body : M A) (handler : exn -> M A) : M A :=
  fun store =>
    match body store with
    | (Ok a, store', tr) => (Ok a, store', tr)
    | (Raise e, store', tr) =>
        let '(o, store'', tr') := handler e store' in (o, store'', tr ++ tr')
    end.

(** The statement goes to the warehouse. *)
Definition execute (wh : warehouse) (s : statement) : M DataFrame :=
  fun store => (wh s, store, [Executed s]).

(** Modelled from the spec: [st.cache_data(ttl=...)], Streamlit's memo
    decorator, which is not part of the repository. Following the result
    cache contract of the spec: a stored result whose age does not exceed
    the freshness window is returned with no external call; on a miss or
    expiry the function body runs, and its result replaces the entry
    with a fresh timestamp. A body that raises stores nothing. *)
Definition cache_data (ttl : Z) (now : Z) (c : call) (body : M DataFrame) : M DataFrame :=
  fun store =>
    let refetch :=
      match body store with
      | (Ok df, store', tr) =>
          (Ok df,
           replace_entry {| cached_call := c; cached_value := df; cached_at := now |} store',
           Called c :: tr)
      | (Raise e, store', tr) => (Raise e, store', Called c :: tr)
      end in
    match find_entry c store with
    | Some e =>
        if now - cached_at e <=? ttl
        then (Ok (cached_value e), store, [Called c])
        else refetch
    | None => refetch
    end.

Section Fetching.
Variable wh : warehouse.
(** The time at which the script runs. *)
Variable now : Z.

(** [@st.cache_data(ttl=600) def get_daily_weather(city)] *)
Definition get_daily_weather (city : string) : M DataFrame :=
  cache_data 600 now {| fn := DailyWeather; city := city; days := None |}
    (execute wh {| sql := DailyWeather; p_city := city; p_limit := None |}).

(** [@st.cache_data(ttl=600) def get_hourly_weather(city, days=7)] *)
Definition get_hourly_weather (city : string) (days : Z) : M DataFrame :=
  cache_data 600 now {| fn := HourlyWeather; city := city; days := Some days |}
    (let limit := days * 24 in
     execute wh {| sql := HourlyWeather; p_city := city; p_limit := Some limit |}).

(** [@st.cache_data(ttl=600) def get_temperature_forecast_24h(city)] *)
Definition get_temperature_forecast_24h (city : string) : M DataFrame :=
  cache_data 600 now {| fn := TemperatureForecast24h; city := city; days := None |}
    (execute wh {| sql := TemperatureForecast24h; p_city := city; p_limit := None |}).

(** [@st.cache_data(ttl=600) def get_rain_probability_today(city)] *)
Definition get_rain_probability_today (city : string) : M DataFrame :=
  cache_data 600 now {| fn := RainProbabilityToday; city := city; days := None |}
    (execute wh {| sql := RainProbabilityToday; p_city := city; p_limit := None |}).

(** [@st.cache_data(ttl=600) def get_temperature_comparison(city, days=7)] *)
Definition get_temperature_comparison (city : string) (days : Z) : M DataFrame :=
  cache_data 600 now {| fn := TemperatureComparison; city := city; days := Some days |}
    (let limit := days * 24 in
     execute wh {| sql := TemperatureComparison; p_city := city; p_limit := Some limit |}).
End Fetching.

(** *** The script *)

Declare Scope script_scope.
Delimit Scope script_scope with script.
Notation "x <- m ;; k" := (mbind m (fun x => k))
  (at level 61, m at next level, right associativity) : script_scope.
Notation "m ;; k" := (mbind m (fun _ => k))
  (at level 61, right associativity) : script_scope.

(** What the user has chosen in the sidebar when the script runs: the
    value [st.selectbox], [st.radio] and [st.slider] return. *)
Record inputs := {
  selected_city : string;
  data_type : string;
  slider_days : Z
}.

Definition HOME : string := "🏠 Trang Chủ".
Definition DAILY : string := "📅 Thời Tiết Hàng Ngày".
Definition HOURLY : string := "⏰ Thời Tiết Hàng Giờ".
Definition FORECAST : string := "🌡️ Dự Đoán Nhiệt Độ 24h".
Definition RAIN : string := "🌧️ Xác Suất Mưa".
Definition COMPARISON : string := "📊 So Sánh Dự Đoán".

(** The options of the radio button. *)
Definition data_types : list string :=
  [HOME; DAILY; HOURLY; FORECAST; RAIN; COMPARISON].

(** [x in l] on a list of strings *)
Definition is_in (x : string) (l : list string) : bool := existsb (String.eqb x) l.

(** The band of a rain probability on the 0-100 scale, as the rain view
    computes it: the colour of the delta and the message under the
    metric. *)
Definition view_band (rain_prob : float) : string * widget :=
  if PrimFloat.ltb rain_prob 30
  then ("inverse", info "☀️ Ít khả năng mưa - Thời tiết khô ráo")
  else if PrimFloat.ltb rain_prob 50
  then ("off", warning "⛅ Có thể mưa - Nên mang theo ô")
  else if PrimFloat.ltb rain_prob 70
  then ("normal", warning "🌦️ Khả năng mưa cao - Nên mang theo ô")
  else ("normal", error [Lit "🌧️ Rất có khả năng mưa - Nhớ mang theo ô!"]).

Definition scalar_piece (v : scalar) : piece :=
  match v with
  | SFloat x => StrFloat x
  | SInt z => StrInt z
  | STimestamp tz t => StrTime (option_map utcoffset tz) t
  | SObject o => StrObj o
  end.

(** [v == 1] *)
Definition equals_one (v : scalar) : bool :=
  match v with
  | SInt z => z =? 1
  | SFloat x => PrimFloat.eqb x 1
  | _ => false
  end.

(** [mae = abs(df['predicted_temperature'] - df['actual_temperature']).mean()] *)
Definition mae (df : DataFrame) : outcome float :=
  let? p := getitem df "predicted_temperature" in
  let? a := getitem df "actual_temperature" in
  let? d := sub p a in
  let? d := abs d in
  mean d.

(** [rmse = ((df['predicted_temperature'] - df['actual_temperature'])**2).mean()**0.5] *)
Definition rmse (df : DataFrame) : outcome float :=
  let? p := getitem df "predicted_temperature" in
  let? a := getitem df "actual_temperature" in
  let? d := sub p a in
  let? d := square d in
  let? m := mean d in
  Ok (pow_half m).

Section Main.
Variable strptime : string -> option Z.
Variable wh : warehouse.
Variable now : Z.

Local Open Scope render_scope.

(** The body of [if not df.empty:] in the daily view. *)
Definition daily_body (df : DataFrame) : R unit :=
  create_weather_metrics_cards df "daily" ;;
  st (markdown "---") ;;
  df <- match first_in_columns
                ["nr_temperature_2m_mean"; "nr_temperature_2m";
                 "nr_temperature_2m_max"; "nr_temperature_2m_min"] df with
        | Some temp_col =>
            df <- eval (to_vietnam_time strptime (copy df)
                          "dt_date_record" "dt_date_record_vn") ;;
            sorted <- eval (sort_values df "dt_date_record_vn") ;;
            st (plotly_chart
                  (LineFigure sorted "dt_date_record_vn" temp_col
                     "🌡️ Nhiệt Độ Hàng Ngày")) ;;
            ret df
        | None =>
            st (warning "Không tìm thấy cột nhiệt độ phù hợp trong dữ liệu hàng ngày.") ;;
            ret df
        end ;;
  st (markdown "---") ;;
  st (subheader "📋 Bảng Dữ Liệu") ;;
  st (dataframe df).

(** The body of [if not df.empty:] in the hourly view. *)
Definition hourly_body (df : DataFrame) : R unit :=
  create_weather_metrics_cards df "hourly" ;;
  st (markdown "---") ;;
  df <- (if contains "nr_temperature_2m" df && contains "dt_date_record" df
         then
           df <- eval (to_vietnam_time strptime (copy df)
                         "dt_date_record" "dt_date_record_vn") ;;
           sorted <- eval (sort_values df "dt_date_record_vn") ;;
           st (plotly_chart
                 (LineFigure (head 168 sorted) "dt_date_record_vn" "nr_temperature_2m"
                    "🌡️ Nhiệt Độ Theo Giờ (UTC+7, 7 Ngày Gần Nhất)")) ;;
           ret df
         else ret df) ;;
  st (markdown "---") ;;
  st (subheader "📋 Bảng Dữ Liệu") ;;
  st (dataframe (head 100 df)).

(** The body of [if not df.empty:] in the 24h forecast view. *)
Definition forecast_body (df : DataFrame) : R unit :=
  st (columns [1; 1; 1]) ;;
  m <- eval (let? s := getitem df "predicted_temperature" in mean s) ;;
  metric_fixed "🌡️ Nhiệt Độ TB" 1 m "°C" ;;
  m <- eval (let? s := getitem df "predicted_temperature" in max s) ;;
  metric_fixed "🔥 Cao Nhất" 1 m "°C" ;;
  m <- eval (let? s := getitem df "predicted_temperature" in min s) ;;
  metric_fixed "❄️ Thấp Nhất" 1 m "°C" ;;
  st (markdown "---") ;;
  create_temperature_forecast_chart strptime df ;;
  st (markdown "---") ;;
  st (subheader "📋 Chi Tiết Dự Đoán") ;;
  st (dataframe df).

(** The [try:] block of the rain view's detail section. *)
Definition rain_detail (df : DataFrame) (rain_prob : float) : R unit :=
  forecast_date_vn <- eval (let? s := getitem df "forecast_date" in
                            let? v := iloc0 s in
                            let? t := scalar_to_datetime strptime v in
                            strftime_vn Calendar.strftime_dmY_HM t) ;;
  model_run_time_vn <- eval (let? s := getitem df "model_run_time" in
                             let? v := iloc0 s in
                             let? t := scalar_to_datetime strptime v in
                             strftime_vn Calendar.strftime_dmY_HMS t) ;;
  st (columns [1; 1]) ;;
  st (write [Lit "**Ngày dự đoán:** "; Lit forecast_date_vn]) ;;
  location <- eval (let? s := getitem df "location" in iloc0 s) ;;
  st (write [Lit "**Thành phố:** "; scalar_piece location]) ;;
  st (write [Lit "**Xác suất mưa:** "; Fixed 2 rain_prob; Lit "%"]) ;;
  st (write [Lit "**Thời gian model chạy:** "; Lit model_run_time_vn]) ;;
  if contains "rain_label" df
  then
    rain_label <- eval (let? s := getitem df "rain_label" in iloc0 s) ;;
    st (write [Lit "**Nhãn dự đoán:** ";
               Lit (if equals_one rain_label then "Có mưa" else "Không mưa")])
  else ret tt.

(** The body of [if not df.empty:] in the rain view. *)
Definition rain_body (df : DataFrame) : R unit :=
  rain_prob_raw <- eval (let? s := getitem df "rain_probability" in
                         let? v := iloc0 s in as_float v) ;;
  let rain_prob := PrimFloat.mul rain_prob_raw 100 in
  st (columns [1; 2; 1]) ;;
  let '(delta_color, message) := view_band rain_prob in
  st (metric "🌧️ Xác Suất Mưa" (MText [Fixed 1 rain_prob; Lit "%"])
        (Some [Fixed 1 (PrimFloat.sub rain_prob 50); Lit "% so với ngưỡng 50%"])
        (Some delta_color)) ;;
  st message ;;
  st (markdown "---") ;;
  create_rain_probability_gauge strptime df ;;
  st (markdown "---") ;;
  st (subheader "📋 Chi Tiết") ;;
  try_except (rain_detail df rain_prob)
    (fun e => st (error [Lit "Lỗi xử lý dữ liệu chi tiết: "; StrExn e])).

(** The body of [if not df.empty:] in the comparison view. *)
Definition comparison_body (df : DataFrame) : R unit :=
  (if contains "predicted_temperature" df && contains "actual_temperature" df
   then
     mae <- eval (mae df) ;;
     rmse <- eval (rmse df) ;;
     st (columns [1; 1; 1]) ;;
     st (metric "📊 Số Điểm Dữ Liệu" (MCount (index df)) None None) ;;
     metric_fixed "📉 MAE (Sai Số Trung Bình)" 2 mae "°C" ;;
     metric_fixed "📈 RMSE" 2 rmse "°C"
   else ret tt) ;;
  st (markdown "---") ;;
  create_comparison_chart strptime df ;;
  st (markdown "---") ;;
  st (subheader "📋 Bảng Dữ Liệu So Sánh") ;;
  st (dataframe df).

Local Close Scope render_scope.
Local Open Scope script_scope.

(** The branch of [main] for one view, inside its [try:]. *)
Definition view (selected_city db_city data_type : string) (days : Z) : M unit :=
  if String.eqb data_type HOME then
    render (st (header (String.append "🏠 Trang Chủ - " selected_city))) ;;
    render (st (columns [1; 1])) ;;
    render (st (subheader "🌡️ Dự Đoán Nhiệt Độ 24h")) ;;
    temp_forecast <- get_temperature_forecast_24h wh now db_city ;;
    render (if negb (empty temp_forecast)
            then create_temperature_forecast_chart strptime temp_forecast
            else st (info "Đang tải dữ liệu dự đoán...")) ;;
    render (st (subheader "🌧️ Xác Suất Mưa Hôm Nay")) ;;
    rain_prob <- get_rain_probability_today wh now db_city ;;
    render (if negb (empty rain_prob)
            then create_rain_probability_gauge strptime rain_prob
            else st (info "Đang tải dữ liệu xác suất mưa...")) ;;
    render (st (markdown "---")) ;;
    render (st (subheader "📊 Thông Tin Tổng Quan")) ;;
    daily_data <- get_daily_weather wh now db_city ;;
    render (if negb (empty daily_data)
            then create_weather_metrics_cards daily_data "daily"
            else ret tt) ;;
    render (st (markdown "---")) ;;
    render (st (subheader "📊 So Sánh Dự Đoán vs Thực Tế")) ;;
    comparison_data <- get_temperature_comparison wh now db_city 3 ;;
    render (if negb (empty comparison_data)
            then create_comparison_chart strptime comparison_data
            else ret tt)
  else if String.eqb data_type DAILY then
    render (st (header (String.append "📅 Thời Tiết Hàng Ngày - " selected_city))) ;;
    render (st (spinner "Đang tải dữ liệu...")) ;;
    df <- get_daily_weather wh now db_city ;;
    render (if negb (empty df)
            then daily_body df
            else st (warning "Không có dữ liệu cho thành phố này."))
  else if String.eqb data_type HOURLY then
    render (st (header (String.append "⏰ Thời Tiết Hàng Giờ - " selected_city))) ;;
    render (st (spinner "Đang tải dữ liệu...")) ;;
    df <- get_hourly_weather wh now db_city days ;;
    render (if negb (empty df)
            then hourly_body df
            else st (warning "Không có dữ liệu cho thành phố này."))
  else if String.eqb data_type FORECAST then
    render (st (header (String.append "🌡️ Dự Đoán Nhiệt Độ 24 Giờ - " selected_city))) ;;
    render (st (spinner "Đang tải dữ liệu dự đoán...")) ;;
    df <- get_temperature_forecast_24h wh now db_city ;;
    render (if negb (empty df)
            then forecast_body df
            else st (warning "Không có dữ liệu dự đoán cho thành phố này."))
  else if String.eqb data_type RAIN then
    render (st (header (String.append "🌧️ Xác Suất Mưa - " selected_city))) ;;
    render (st (spinner "Đang tải dữ liệu xác suất mưa...")) ;;
    df <- get_rain_probability_today wh now db_city ;;
    render (if negb (empty df)
            then rain_body df
            else st (warning "Không có dữ liệu xác suất mưa cho ngày hôm nay."))
  else if String.eqb data_type COMPARISON then
    render (st (header (String.append "📊 So Sánh Dự Đoán vs Thực Tế - " selected_city))) ;;
    render (st (spinner "Đang tải dữ liệu so sánh...")) ;;
    df <- get_temperature_comparison wh now db_city days ;;
    render (if negb (empty df)
            then comparison_body df
            else st (warning "Không có dữ liệu để so sánh cho thành phố này."))
  else mret tt.

(** [main()] *)
Definition main (inp : inputs) : M unit :=
  render (st (title "🌤️ Weather Forecast Dashboard - Việt Nam")) ;;
  render (st (markdown
                "Dashboard theo dõi và dự đoán thời tiết cho các thành phố lớn tại Việt Nam")) ;;
  render (st (markdown "---")) ;;
  render (st (header "⚙️ Cài Đặt")) ;;
  render (st (selectbox "📍 Chọn thành phố:" (keys CITIES) 0)) ;;
  let selected_city := selected_city inp in
  let db_city := get CITIES selected_city selected_city in
  render (st (markdown "---")) ;;
  render (st (header "📑 Loại Dữ Liệu")) ;;
  render (st (radio "Chọn loại dữ liệu:" data_types)) ;;
  let data_type := data_type inp in
  render (st (markdown "---")) ;;
  render (st (header "🔧 Tùy Chọn")) ;;
  days <- (if is_in data_type [DAILY; HOURLY; COMPARISON]
           then render (st (slider "Số ngày hiển thị:" 1 30 7)) ;;
                mret (slider_days inp)
           else mret 7) ;;
  mtry_except (view selected_city db_city data_type days)
    (fun e =>
       render (st (error [Lit "❌ Có lỗi xảy ra: "; StrExn e])) ;;
       render (st (exception e))).

End Main.

(** Projections of a run. *)
Definition rendered (tr : list event) : list widget :=
  flat_map (fun ev => match ev with Rendered w => [w] | _ => [] end) tr.
Definition calls (tr : list event) : list call :=
  flat_map (fun ev => match ev with Called c => [c] | _ => [] end) tr.
Definition executed (tr : list event) : list statement :=
  flat_map (fun ev => match ev with Executed s => [s] | _ => [] end) tr.

Definition result {A : Type} (r : outcome A * cache * list event) : outcome A := fst (fst r).
Definition store_of {A : Type} (r : outcome A * cache * list event) : cache := snd (fst r).
Definition trace {A : Type} (r : outcome A * cache * list event) : list event := snd r.

End App.

(** ** Reasoning about script runs *)

Module Run.
Import App.

(** Whatever the store and the outcome, every call of a query function
made by the computation satisfies [P], and so does every statement sent
to the warehouse satisfy [S]. *)
Definition fetches {A : Type} (P : call -> Prop) (S : statement -> Prop) (m : M A) : Prop :=
  forall store,
    Forall P (calls (trace (m store))) /\ Forall S (executed (trace (m store))).

End Run.

(** ** Properties named by the specification *)

Module Spec.

(** Latest-run deduplication, in the words of the specification: for
    every (forecast instant, location) pair present in [rows], exactly
    one row of [stage] carries the pair, and its model run time is the
    largest among the rows of [rows] sharing the pair. Rows are
    (instant, location, run time) triples. *)
Definition latest_run_deduplicated (rows stage : list (Z * string * Z)) : Prop :=
  forall p : Z * string,
    (exists t, In t rows /\ fst t = p) ->
    List.length (filter (Sql.has_pair p) stage) = 1%nat /\
    forall t, In t stage -> fst t = p ->
    forall t', In t' rows -> fst t' = p -> snd t' <= snd t.

(** The four rain-probability bands. *)
Inductive band := Low | Possible | High | VeryHigh.

(** The banding of the specification, on the 0-100 scale: below 30 is
low, [30, 50) possible, [50, 70) high, 70 and above very high. *)
Definition in_band (b : band) (p : float) : bool :=
  match b with
  | Low => PrimFloat.ltb p 30
  | Possible => PrimFloat.leb 30 p && PrimFloat.ltb p 50
  | High => PrimFloat.leb 50 p && PrimFloat.ltb p 70
  | VeryHigh => PrimFloat.leb 70 p
  end.

(** What the gauge shows for a band: bar colour and label. *)
Definition gauge_shows (b : band) : string * string :=
  match b with
  | Low => ("#4ECDC4", "Ít Khả Năng Mưa")
  | Possible => ("#FFD93D", "Có Thể Mưa")
  | High => ("#FFA07A", "Khả Năng Mưa Cao")
  | VeryHigh => ("#FF6B6B", "Rất Có Khả Năng Mưa")
  end.

(** What the rain view shows for a band: delta colour and message. *)
Definition view_shows (b : band) : string * Streamlit.widget :=
  match b with
  | Low => ("inverse", Streamlit.info "☀️ Ít khả năng mưa - Thời tiết khô ráo")
  | Possible => ("off", Streamlit.warning "⛅ Có thể mưa - Nên mang theo ô")
  | High => ("normal", Streamlit.warning "🌦️ Khả năng mưa cao - Nên mang theo ô")
  | VeryHigh =>
      ("normal", Streamlit.error [Py.Lit "🌧️ Rất có khả năng mưa - Nhớ mang theo ô!"])
  end.

(** [rain_prob = rain_prob_raw * 100], as both places compute it. *)
Definition scaled (fraction : float) : float := PrimFloat.mul fraction 100.

(** The binary64 values of the decimal fractions 0.25, 0.30, 0.45, 0.50,
0.65, 0.70 and 0.85. *)
Definition f025 : float := 0x1p-2%float.
Definition f030 : float := 0x1.3333333333333p-2%float.
Definition f045 : float := 0x1.ccccccccccccdp-2%float.
Definition f050 : float := 0x1p-1%float.
Definition f065 : float := 0x1.4cccccccccccdp-1%float.
Definition f070 : float := 0x1.6666666666666p-1%float.
Definition f085 : float := 0x1.b333333333333p-1%float.

(** The gauge of a probability [p] on the 0-100 scale in band [b], for a
forecast date shown as [date]: the value, the title with the band's label
under it, and the bar in the band's colour. *)
Definition gauge_figure (p : float) (date : string) (b : band) : Streamlit.widget :=
  Streamlit.plotly_chart
    (Streamlit.IndicatorFigure p
       [ Py.Lit "🌧️ Xác Suất Mưa ("; Py.Lit date;
         Py.Lit ")<br><span style='font-size:0.8em;color:gray'>";
         Py.Lit (snd (gauge_shows b)); Py.Lit "</span>" ]
       (fst (gauge_shows b))).

(** The head of the rain view for a probability [p] on the 0-100 scale in
band [b]: the metric with the band's delta colour, then the band's
message. *)
Definition view_cards (p : float) (b : band) : list Streamlit.widget :=
  [ Streamlit.columns [1; 2; 1];
    Streamlit.metric "🌧️ Xác Suất Mưa" (Streamlit.MText [Py.Fixed 1 p; Py.Lit "%"])
      (Some [Py.Fixed 1 (PrimFloat.sub p 50); Py.Lit "% so với ngưỡng 50%"])
      (Some (fst (view_shows b)));
    snd (view_shows b) ].

(** The arithmetic mean of the values that are present (NaN marks a
missing value): their sum over their number. *)
Definition present (xs : list float) : list float :=
  filter (fun x => negb (PrimFloat.is_nan x)) xs.

Definition mean (xs : list float) : float :=
  PrimFloat.div (fold_left PrimFloat.add (present xs) 0%float)
    (Pandas.float_of_nat (List.length (present xs))).

(** [MAE = mean(|predicted - actual|)] over (predicted, actual) pairs. *)
Definition MAE (pairs : list (float * float)) : float :=
  mean (map (fun pa => PrimFloat.abs (PrimFloat.sub (fst pa) (snd pa))) pairs).

(** [RMSE = sqrt(mean((predicted - actual)^2))] *)
Definition RMSE (pairs : list (float * float)) : float :=
  PrimFloat.sqrt
    (mean (map (fun pa => let d := PrimFloat.sub (fst pa) (snd pa) in PrimFloat.mul d d)
             pairs)).

(** What a cell of a column that is not a time column yet is read as, with
row-level tolerance: a text is read by [strptime] as an instant (text
without an offset as UTC), a date is its midnight in UTC, and a missing or
unreadable cell is the missing marker. *)
Definition coerced (strptime : string -> option Z) (v : Py.pyobject) : option Z :=
  match v with
  | Py.PyStr s => strptime s
  | Py.PyDate d => Some (d * 86400)
  | Py.PyNone | Py.PyFormatted _ => None
  end.

(** [fetch(queryId, params)]: one of the five query functions applied to
its arguments. *)
Inductive request :=
| Daily (city : string)
| Hourly (city : string) (days : Z)
| Forecast (city : string)
| Rain (city : string)
| Compare (city : string) (days : Z).

Definition fetch (wh : App.warehouse) (now : Z) (r : request) : App.M Pandas.DataFrame :=
  match r with
  | Daily c => App.get_daily_weather wh now c
  | Hourly c d => App.get_hourly_weather wh now c d
  | Forecast c => App.get_temperature_forecast_24h wh now c
  | Rain c => App.get_rain_probability_today wh now c
  | Compare c d => App.get_temperature_comparison wh now c d
  end.

(** The memo key of a request, and the statement it sends on a miss. *)
Definition key_of (r : request) : App.call :=
  match r with
  | Daily c => {| App.fn := App.DailyWeather; App.city := c; App.days := None |}
  | Hourly c d => {| App.fn := App.HourlyWeather; App.city := c; App.days := Some d |}
  | Forecast c =>
      {| App.fn := App.TemperatureForecast24h; App.city := c; App.days := None |}
  | Rain c => {| App.fn := App.RainProbabilityToday; App.city := c; App.days := None |}
  | Compare c d =>
      {| App.fn := App.TemperatureComparison; App.city := c; App.days := Some d |}
  end.

Definition statement_of (r : request) : App.statement :=
  match r with
  | Daily c => {| App.sql := App.DailyWeather; App.p_city := c; App.p_limit := None |}
  | Hourly c d =>
      {| App.sql := App.HourlyWeather; App.p_city := c; App.p_limit := Some (d * 24) |}
  | Forecast c =>
      {| App.sql := App.TemperatureForecast24h; App.p_city := c; App.p_limit := None |}
  | Rain c =>
      {| App.sql := App.RainProbabilityToday; App.p_city := c; App.p_limit := None |}
  | Compare c d =>
      {| App.sql := App.TemperatureComparison; App.p_city := c;
         App.p_limit := Some (d * 24) |}
  end.

(** No entry of the store can serve the request at time [now]: there is
none under its key, or the one there is older than the window. *)
Definition stale (window : Z) (now : Z) (r : request) (store : App.cache) : Prop :=
  match App.find_entry (key_of r) store with
  | None => True
  | Some e => window < now - App.cached_at e
  end.

(** Column-alias resolution: the first alias, in priority order, that is
a column of the result set; [None] when no alias is. *)
Definition resolve (aliases columns : list string) : option string :=
  find (fun a => existsb (String.eqb a) columns) aliases.

(** The priority order of each quantity of a daily result set. *)
Definition temperature_mean_aliases : list string :=
  ["nr_temperature_2m_mean"; "nr_temperature_2m"].
Definition temperature_max_aliases : list string :=
  ["nr_temperature_2m_max"; "nr_temperature_2m_mean"; "nr_temperature_2m"].
Definition temperature_min_aliases : list string :=
  ["nr_temperature_2m_min"; "nr_temperature_2m_mean"; "nr_temperature_2m"].
Definition rain_sum_aliases : list string := ["nr_rain_sum"; "nr_precipitation_sum"].
Definition humidity_aliases : list string := ["nr_relative_humidity_2m_mean"].
Definition daily_chart_aliases : list string :=
  ["nr_temperature_2m_mean"; "nr_temperature_2m";
   "nr_temperature_2m_max"; "nr_temperature_2m_min"].

(** The aggregate cards of each kind of result set: label and the aliases
of the column the aggregate is taken over. *)
Definition metric_cards (data_type : string) : list (string * list string) :=
  if String.eqb data_type "daily" then
    [ ("🌡️ Nhiệt độ trung bình", temperature_mean_aliases);
      ("🔥 Nhiệt độ cao nhất", temperature_max_aliases);
      ("🌧️ Tổng lượng mưa", rain_sum_aliases);
      ("💧 Độ ẩm trung bình", humidity_aliases) ]
  else if String.eqb data_type "hourly" then
    [ ("🌡️ Nhiệt Độ TB", ["nr_temperature_2m"]);
      ("💧 Độ Ẩm TB", ["nr_humidity"]);
      ("💨 Tốc Độ Gió TB", ["nr_wind_speed"]) ]
  else [].

(** The card that says a metric is not available. *)
Definition na_card (label : string) : Streamlit.widget :=
  Streamlit.metric label (Streamlit.MText [Py.Lit "N/A"]) None None.

(** A card showing a number. *)
Definition value_card (label : string) (digits : nat) (x : float) (suffix : string)
  : Streamlit.widget :=
  Streamlit.metric label (Streamlit.MText [Py.Fixed digits x; Py.Lit suffix]) None None.

(** A card showing the number of rows. *)
Definition count_card (label : string) (n : nat) : Streamlit.widget :=
  Streamlit.metric label (Streamlit.MCount n) None None.

(** The label of a metric card; nothing for any other widget. *)
Definition card_label (w : Streamlit.widget) : option string :=
  match w with
  | Streamlit.metric label _ _ _ => Some label
  | _ => None
  end.

(** Every aggregate whose column is absent is reported by its
"not available" card. *)
Definition reports_unavailable (data_type : string) (df : Pandas.DataFrame) : Prop :=
  forall label aliases,
    In (label, aliases) (metric_cards data_type) ->
    resolve aliases (Pandas.columns df) = None ->
    In (na_card label) (snd (App.create_weather_metrics_cards df data_type)).

(** A card shown only when its column is present. *)
Definition optional_card (present : bool) (label suffix : string)
    (card : list Streamlit.widget) : Prop :=
  if present then exists x, card = [value_card label 1 x suffix] else card = [].

(** A message that stands for missing data: a warning or an info box. *)
Definition is_notice (w : Streamlit.widget) : bool :=
  match w with
  | Streamlit.warning _ | Streamlit.info _ => true
  | _ => false
  end.

(** Every result fetched during the run has a notice of its own. *)
Definition each_empty_result_noticed (tr : list App.event) : Prop :=
  (List.length (App.calls tr)
   <= List.length (filter is_notice (App.rendered tr)))%nat.

(** What [main] renders before the view: title and sidebar. *)
Definition preamble (data_type : string) : list Streamlit.widget :=
  [ Streamlit.title "🌤️ Weather Forecast Dashboard - Việt Nam";
    Streamlit.markdown
      "Dashboard theo dõi và dự đoán thời tiết cho các thành phố lớn tại Việt Nam";
    Streamlit.markdown "---";
    Streamlit.header "⚙️ Cài Đặt";
    Streamlit.selectbox "📍 Chọn thành phố:" (Config.keys Config.CITIES) 0;
    Streamlit.markdown "---";
    Streamlit.header "📑 Loại Dữ Liệu";
    Streamlit.radio "Chọn loại dữ liệu:" App.data_types;
    Streamlit.markdown "---";
    Streamlit.header "🔧 Tùy Chọn" ]
  ++ (if App.is_in data_type [App.DAILY; App.HOURLY; App.COMPARISON]
      then [Streamlit.slider "Số ngày hiển thị:" 1 30 7]
      else []).

(** What each view renders when its queries come back empty. *)
Definition empty_presentation (data_type selected_city : string)
  : list Streamlit.widget :=
  if String.eqb data_type App.HOME then
    [ Streamlit.header (String.append "🏠 Trang Chủ - " selected_city);
      Streamlit.columns [1; 1];
      Streamlit.subheader "🌡️ Dự Đoán Nhiệt Độ 24h";
      Streamlit.info "Đang tải dữ liệu dự đoán...";
      Streamlit.subheader "🌧️ Xác Suất Mưa Hôm Nay";
      Streamlit.info "Đang tải dữ liệu xác suất mưa...";
      Streamlit.markdown "---";
      Streamlit.subheader "📊 Thông Tin Tổng Quan";
      Streamlit.markdown "---";
      Streamlit.subheader "📊 So Sánh Dự Đoán vs Thực Tế" ]
  else if String.eqb data_type App.DAILY then
    [ Streamlit.header (String.append "📅 Thời Tiết Hàng Ngày - " selected_city);
      Streamlit.spinner "Đang tải dữ liệu...";
      Streamlit.warning "Không có dữ liệu cho thành phố này." ]
  else if String.eqb data_type App.HOURLY then
    [ Streamlit.header (String.append "⏰ Thời Tiết Hàng Giờ - " selected_city);
      Streamlit.spinner "Đang tải dữ liệu...";
      Streamlit.warning "Không có dữ liệu cho thành phố này." ]
  else if String.eqb data_type App.FORECAST then
    [ Streamlit.header (String.append "🌡️ Dự Đoán Nhiệt Độ 24 Giờ - " selected_city);
      Streamlit.spinner "Đang tải dữ liệu dự đoán...";
      Streamlit.warning "Không có dữ liệu dự đoán cho thành phố này." ]
  else if String.eqb data_type App.RAIN then
    [ Streamlit.header (String.append "🌧️ Xác Suất Mưa - " selected_city);
      Streamlit.spinner "Đang tải dữ liệu xác suất mưa...";
      Streamlit.warning "Không có dữ liệu xác suất mưa cho ngày hôm nay." ]
  else if String.eqb data_type App.COMPARISON then
    [ Streamlit.header (String.append "📊 So Sánh Dự Đoán vs Thực Tế - " selected_city);
      Streamlit.spinner "Đang tải dữ liệu so sánh...";
      Streamlit.warning "Không có dữ liệu để so sánh cho thành phố này." ]
  else [].

(** The query a dedicated view fetches; the home view fetches four. *)
Definition view_request (data_type db_city : string) (days : Z) : option request :=
  if String.eqb data_type App.DAILY then Some (Daily db_city)
  else if String.eqb data_type App.HOURLY then Some (Hourly db_city days)
  else if String.eqb data_type App.FORECAST then Some (Forecast db_city)
  else if String.eqb data_type App.RAIN then Some (Rain db_city)
  else if String.eqb data_type App.COMPARISON then Some (Compare db_city days)
  else None.

(** The home view, section by section: what stands under each of its four
headings. *)
Definition home_presentation (selected_city : string)
    (forecast rain overview comparison : list Streamlit.widget)
  : list Streamlit.widget :=
  [ Streamlit.header (String.append "🏠 Trang Chủ - " selected_city);
    Streamlit.columns [1; 1];
    Streamlit.subheader "🌡️ Dự Đoán Nhiệt Độ 24h" ]
  ++ forecast
  ++ [ Streamlit.subheader "🌧️ Xác Suất Mưa Hôm Nay" ]
  ++ rain
  ++ [ Streamlit.markdown "---";
       Streamlit.subheader "📊 Thông Tin Tổng Quan" ]
  ++ overview
  ++ [ Streamlit.markdown "---";
       Streamlit.subheader "📊 So Sánh Dự Đoán vs Thực Tế" ]
  ++ comparison.

(** The day window chosen on the slider makes a difference to what the
script does on a view: two settings exist on which the runs differ. *)
Definition day_window_affects (data_type : string) : Prop :=
  exists strptime wh now city d1 d2 store,
    App.main strptime wh now
      {| App.selected_city := city; App.data_type := data_type; App.slider_days := d1 |}
      store
    <> App.main strptime wh now
         {| App.selected_city := city; App.data_type := data_type; App.slider_days := d2 |}
         store.

End Spec.

(** ** Sample data *)

Module Sample.

(** A warehouse holding two runs for one Ha Noi instant, one Da Nang
    forecast, and a rain forecast dated before the current date. *)
Definition warehouse : Sql.warehouse :=
  {| Sql.t_lstm_weather_24h :=
       [ {| Sql.dt_forecast_time := 3600; Sql.nr_predicted_temperature := 25%float;
            Sql.w_ds_location := "Ha Noi City"; Sql.w_dt_model_run_time := 10 |};
         {| Sql.dt_forecast_time := 3600; Sql.nr_predicted_temperature := 26%float;
            Sql.w_ds_location := "Ha Noi City"; Sql.w_dt_model_run_time := 20 |};
         {| Sql.dt_forecast_time := 3600; Sql.nr_predicted_temperature := 29%float;
            Sql.w_ds_location := "Da Nang City"; Sql.w_dt_model_run_time := 20 |} ];
     Sql.t_lstm_rain_daily :=
       [ {| Sql.dt_forecast_date := 0; Sql.prediction_probability := 0.5%float;
            Sql.prediction_label := 1;
            Sql.r_ds_location := "Ha Noi City"; Sql.r_dt_model_run_time := 5 |} ];
     Sql.t_fact_vn_weather_hourly := [] |}.

Definition clock : Sql.clock :=
  {| Sql.current_timestamp := 86400 * 3; Sql.current_date := 3 |}.

(** The comparison series [(20, 22), (25, 24)] as a frame. *)
Definition comparison_frame : Pandas.DataFrame :=
  {| Pandas.index := 2;
     Pandas.data :=
       [ ("date", Pandas.Datetime64 (Some Pandas.UTC) [Some 3600; Some 0]);
         ("predicted_temperature", Pandas.Float64 [20%float; 25%float]);
         ("actual_temperature", Pandas.Float64 [22%float; 24%float]);
         ("location", Pandas.Object [Py.PyStr "Ha Noi City"; Py.PyStr "Ha Noi City"]) ] |}.

(** A result set with the columns of the comparison query and no row. *)
Definition empty_comparison_frame : Pandas.DataFrame :=
  {| Pandas.index := 0;
     Pandas.data :=
       [ ("date", Pandas.Datetime64 (Some Pandas.UTC) []);
         ("predicted_temperature", Pandas.Float64 []);
         ("actual_temperature", Pandas.Float64 []);
         ("location", Pandas.Object []) ] |}.

(** 2024-01-01T00:00:00Z *)
Definition new_year_2024 : Calendar.datetime :=
  {| Calendar.year := 2024; Calendar.month := 1; Calendar.day := 1;
     Calendar.hour := 0; Calendar.minute := 0; Calendar.second := 0 |}.

(** A forecast result whose time column came back without a zone. *)
Definition naive_forecast_frame : Pandas.DataFrame :=
  {| Pandas.index := 1;
     Pandas.data :=
       [ ("forecast_time", Pandas.Datetime64 None [Some (Calendar.timegm new_year_2024)]);
         ("predicted_temperature", Pandas.Float64 [21.5%float]);
         ("location", Pandas.Object [Py.PyStr "Ha Noi City"]);
         ("model_run_time", Pandas.Datetime64 None [Some 1704060000]) ] |}.

(** A daily result set whose only temperature column is the daily mean. *)
Definition daily_mean_only : Pandas.DataFrame :=
  {| Pandas.index := 2;
     Pandas.data :=
       [ ("dt_date_record", Pandas.Object [Py.PyDate 19723; Py.PyDate 19722]);
         ("ds_location", Pandas.Object [Py.PyStr "Ha Noi City"; Py.PyStr "Ha Noi City"]);
         ("nr_temperature_2m_mean", Pandas.Float64 [20%float; 25%float]) ] |}.

(** A daily result set with none of the columns the cards look for. *)
Definition daily_no_metric : Pandas.DataFrame :=
  {| Pandas.index := 2;
     Pandas.data :=
       [ ("dt_date_record", Pandas.Object [Py.PyDate 19723; Py.PyDate 19722]);
         ("ds_location", Pandas.Object [Py.PyStr "Ha Noi City"; Py.PyStr "Ha Noi City"]) ] |}.

(** An hourly result set with none of the columns the cards look for. *)
Definition hourly_no_metric : Pandas.DataFrame :=
  {| Pandas.index := 3;
     Pandas.data :=
       [ ("dt_date_record",
          Pandas.Datetime64 (Some Pandas.UTC) [Some 7200; Some 3600; Some 0]);
         ("ds_location",
          Pandas.Object [Py.PyStr "Ha Noi City"; Py.PyStr "Ha Noi City";
                         Py.PyStr "Ha Noi City"]) ] |}.

(** A warehouse in which every statement comes back with no row. *)
Definition empty_warehouse : App.warehouse :=
  fun _ => Py.Ok empty_comparison_frame.

(** No text is read as an instant. *)
Definition no_strptime : string -> option Z := fun _ => None.

(** Ha Noi on the home view, the slider left at 7. *)
Definition home_inputs : App.inputs :=
  {| App.selected_city := "Hà Nội"; App.data_type := App.HOME; App.slider_days := 7 |}.

(** A comparison result that came back without its [date] column. *)
Definition undated_comparison_frame : Pandas.DataFrame :=
  {| Pandas.index := 2;
     Pandas.data :=
       [ ("predicted_temperature", Pandas.Float64 [20%float; 25%float]);
         ("actual_temperature", Pandas.Float64 [22%float; 24%float]) ] |}.

(** A warehouse that cannot be reached: every statement raises. *)
Definition failing_warehouse : App.warehouse :=
  fun _ => Py.Raise (Py.DatabaseError "connection refused").

(** A rain result of one row that came back without [model_run_time]. *)
Definition rain_frame_without_run_time : Pandas.DataFrame :=
  {| Pandas.index := 1;
     Pandas.data :=
       [ ("forecast_date", Pandas.Datetime64 None [Some 1704067200]);
         ("rain_probability", Pandas.Float64 [0.75%float]);
         ("rain_label", Pandas.Int64 [1]);
         ("location", Pandas.Object [Py.PyStr "Ha Noi City"]) ] |}.

(** A rain result of two rows. *)
Definition rain_frame : Pandas.DataFrame :=
  {| Pandas.index := 2;
     Pandas.data :=
       [ ("forecast_date", Pandas.Datetime64 None [Some 1704067200; Some 1704153600]);
         ("rain_probability", Pandas.Float64 [0.75%float; 0.5%float]);
         ("rain_label", Pandas.Int64 [1; 1]);
         ("location", Pandas.Object [Py.PyStr "Ha Noi City"; Py.PyStr "Ha Noi City"]);
         ("model_run_time", Pandas.Datetime64 None [Some 1704063600; Some 1704063600]) ] |}.

(** 2024-01-01T00:00:00Z, day 19723: when the statements below run. *)
Definition midnight : Z := 1704067200.

Definition live_clock : Sql.clock :=
  {| Sql.current_timestamp := midnight; Sql.current_date := 19723 |}.

Definition forecast_row (t : Z) (x : float) (city : string) (run : Z)
  : Sql.lstm_weather_24h :=
  {| Sql.dt_forecast_time := t; Sql.nr_predicted_temperature := x;
     Sql.w_ds_location := city; Sql.w_dt_model_run_time := run |}.

(** Ha Noi forecasts for the hour past and the next two hours, the next
    hour from two model runs; one Da Nang forecast. *)
Definition forecasts : list Sql.lstm_weather_24h :=
  [ forecast_row (midnight + 7200) 23 "Ha Noi City" (midnight - 3600);
    forecast_row (midnight + 3600) 21 "Ha Noi City" (midnight - 7200);
    forecast_row (midnight + 3600) 22 "Ha Noi City" (midnight - 3600);
    forecast_row (midnight - 3600) 20 "Ha Noi City" (midnight - 7200);
    forecast_row (midnight + 3600) 29 "Da Nang City" (midnight - 3600) ].

Definition rain_row (t : Z) (p : float) (label : Z) (city : string) (run : Z)
  : Sql.lstm_rain_daily :=
  {| Sql.dt_forecast_date := t; Sql.prediction_probability := p;
     Sql.prediction_label := label; Sql.r_ds_location := city;
     Sql.r_dt_model_run_time := run |}.

(** Ha Noi rain forecasts for tomorrow, for today (two runs) and for
    yesterday. *)
Definition rain_forecasts : list Sql.lstm_rain_daily :=
  [ rain_row (midnight + 86400) 0.5 1 "Ha Noi City" (midnight - 3600);
    rain_row midnight 0.25 0 "Ha Noi City" (midnight - 7200);
    rain_row midnight 0.75 1 "Ha Noi City" (midnight - 3600);
    rain_row (midnight - 86400) 1 1 "Ha Noi City" (midnight - 90000) ].

Definition observation (t : Z) (x : float) (city : string) : Sql.fact_vn_weather_hourly :=
  {| Sql.dt_date_record := t; Sql.nr_temperature_2m := x; Sql.h_ds_location := city |}.

(** Observations of the two hours past in Ha Noi and of the last one in
    Da Nang. *)
Definition observations : list Sql.fact_vn_weather_hourly :=
  [ observation (midnight - 7200) 19 "Ha Noi City";
    observation (midnight - 3600) 19.5 "Ha Noi City";
    observation (midnight - 3600) 27 "Da Nang City" ].

(** A warehouse that has forecasts and nothing else. *)
Definition forecast_only_warehouse : App.warehouse :=
  fun s =>
    match App.sql s with
    | App.TemperatureForecast24h => Py.Ok naive_forecast_frame
    | _ => Py.Ok empty_comparison_frame
    end.

(** Ha Noi on the daily view, the slider left at 7. *)
Definition daily_inputs : App.inputs :=
  {| App.selected_city := "Hà Nội"; App.data_type := App.DAILY; App.slider_days := 7 |}.

(** A memo store holding a fresh daily result of another city. *)
Definition da_nang_store : App.cache :=
  [ {| App.cached_call :=
         {| App.fn := App.DailyWeather; App.city := "Da Nang City"; App.days := None |};
       App.cached_value := daily_mean_only;
       App.cached_at := 0 |} ].

(** Ha Noi on a view, with the slider at a value. *)
Definition ha_noi (data_type : string) (slider : Z) : App.inputs :=
  {| App.selected_city := "Hà Nội"; App.data_type := data_type;
     App.slider_days := slider |}.

(** A warehouse with daily and hourly observations and no forecast. *)
Definition observed_warehouse : App.warehouse :=
  fun s =>
    match App.sql s with
    | App.DailyWeather => Py.Ok daily_mean_only
    | App.HourlyWeather => Py.Ok hourly_no_metric
    | _ => Py.Ok empty_comparison_frame
    end.

(** A reading of texts that knows one of them, 2024-01-01T00:00:00Z. *)
Definition strptime_new_year : string -> option Z :=
  fun s => if String.eqb s "2024-01-01 00:00:00" then Some midnight else None.

(** A forecast result whose time column came back as text, one cell of it
    unreadable. *)
Definition text_forecast_frame : Pandas.DataFrame :=
  {| Pandas.index := 2;
     Pandas.data :=
       [ ("forecast_time", Pandas.Object [Py.PyStr "2024-01-01 00:00:00"; Py.PyStr "n/a"]);
         ("predicted_temperature", Pandas.Float64 [21.5%float; 22%float]);
         ("location", Pandas.Object [Py.PyStr "Ha Noi City"; Py.PyStr "Ha Noi City"]) ] |}.

(** A rain result of one row, with the given probability. *)
Definition rain_reading (p : float) : Pandas.DataFrame :=
  {| Pandas.index := 1;
     Pandas.data :=
       [ ("forecast_date", Pandas.Datetime64 None [Some midnight]);
         ("rain_probability", Pandas.Float64 [p]);
         ("rain_label", Pandas.Int64 [1]);
         ("location", Pandas.Object [Py.PyStr "Ha Noi City"]);
         ("model_run_time", Pandas.Datetime64 None [Some (midnight - 3600)]) ] |}.

End Sample.


(** * Properties *)

(** ** Latest-run deduplication *)

Lemma filter_length_0 {A} (f : A -> bool) (l : list A) :
  List.length (filter f l) = 0%nat -> forall x, In x l -> f x = false.
Proof.
  intros H x Hx. destruct (f x) eqn:E; [|reflexivity].
  assert (In x (filter f l)) as Hin by (apply filter_In; auto).
  destruct (filter f l); [contradiction | discriminate].
Qed.

Lemma filter_all_false {A} (f : A -> bool) (l : list A) :
  (forall x, In x l -> f x = false) -> filter f l = [].
Proof.
  induction l as [|a l IH]; intros H; simpl; [reflexivity|].
  rewrite (H a (or_introl eq_refl)). apply IH. intros x Hx. apply H. now right.
Qed.

Section WindowFacts.
Context {R K : Type}.
Variable key : R -> K.
Variable key_eqb : K -> K -> bool.
Variable ord : R -> Z.
Hypothesis key_eqb_eq : forall a b, key_eqb a b = true <-> a = b.

Local Abbreviation rn := (Sql.row_number key key_eqb ord).
Local Abbreviation qf := (Sql.qualify_from key key_eqb ord).
Local Abbreviation sel := (Sql.in_partition key key_eqb).

Lemma row_number_first b r a :
  Nat.eqb (rn b r a) 1 = true ->
  (forall r', In r' b -> key r' = key r -> ord r' < ord r) /\
  (forall r', In r' a -> key r' = key r -> ord r' <= ord r).
Proof.
  unfold Sql.row_number. intros H. apply Nat.eqb_eq in H.
  assert (List.length (filter (Sql.ahead_before key key_eqb ord r) b) = 0%nat) as Hb by lia.
  assert (List.length (filter (Sql.ahead_after key key_eqb ord r) a) = 0%nat) as Ha by lia.
  split; intros r' Hin Hk.
  - pose proof (filter_length_0 _ _ Hb r' Hin) as E.
    unfold Sql.ahead_before, Sql.same_partition in E.
    rewrite (proj2 (key_eqb_eq _ _) Hk) in E. simpl in E.
    apply Z.leb_gt in E. exact E.
  - pose proof (filter_length_0 _ _ Ha r' Hin) as E.
    unfold Sql.ahead_after, Sql.same_partition in E.
    rewrite (proj2 (key_eqb_eq _ _) Hk) in E. simpl in E.
    apply Z.ltb_ge in E. exact E.
Qed.

Lemma row_number_not_first b r a :
  Nat.eqb (rn b r a) 1 = false ->
  (exists r', In r' b /\ key r' = key r /\ ord r <= ord r') \/
  (exists r', In r' a /\ key r' = key r /\ ord r < ord r').
Proof.
  unfold Sql.row_number. intros H. apply Nat.eqb_neq in H.
  destruct (filter (Sql.ahead_before key key_eqb ord r) b) as [|x l] eqn:Eb.
  - destruct (filter (Sql.ahead_after key key_eqb ord r) a) as [|y l'] eqn:Ea.
    + simpl in H. congruence.
    + right. exists y.
      assert (In y (filter (Sql.ahead_after key key_eqb ord r) a)) as Hy
        by (rewrite Ea; now left).
      apply filter_In in Hy. destruct Hy as [Hy E].
      unfold Sql.ahead_after, Sql.same_partition in E.
      apply andb_true_iff in E. destruct E as [E1 E2].
      apply key_eqb_eq in E1. apply Z.ltb_lt in E2. auto.
  - left. exists x.
    assert (In x (filter (Sql.ahead_before key key_eqb ord r) b)) as Hx
      by (rewrite Eb; now left).
    apply filter_In in Hx. destruct Hx as [Hx E].
    unfold Sql.ahead_before, Sql.same_partition in E.
    apply andb_true_iff in E. destruct E as [E1 E2].
    apply key_eqb_eq in E1. apply Z.leb_le in E2. auto.
Qed.

Lemma qualify_from_In b rest r : In r (qf b rest) -> In r rest.
Proof.
  revert b. induction rest as [|x rest IH]; intros b H; cbn [Sql.qualify_from] in *; [exact H|].
  destruct (Nat.eqb (rn b x rest) 1).
  - destruct H as [H|H]; [now left | right; eauto].
  - right; eauto.
Qed.

(** A row of rank 1 carries the largest [ord] of its partition. *)
Lemma qualify_from_max b rest r :
  In r (qf b rest) ->
  forall r', In r' (b ++ rest) -> key r' = key r -> ord r' <= ord r.
Proof.
  revert b. induction rest as [|x rest IH]; intros b H r' Hin Hk; cbn [Sql.qualify_from] in *; [contradiction|].
  assert (In r (qf (b ++ [x]) rest) -> ord r' <= ord r) as Htail.
  { intros Hq. apply (IH (b ++ [x])); auto.
    rewrite <- app_assoc. exact Hin. }
  destruct (Nat.eqb (rn b x rest) 1) eqn:E; [|auto].
  destruct H as [->|H]; [|auto].
  destruct (row_number_first _ _ _ E) as [Hb Ha].
  apply in_app_or in Hin. destruct Hin as [Hin|[->|Hin]].
  - apply Z.lt_le_incl. auto.
  - lia.
  - auto.
Qed.

(** Once an earlier row of the partition is at least as large as every
    row still to come, no later row of the partition has rank 1. *)
Lemma qualify_from_dominated k b rest :
  (exists r0, In r0 b /\ key r0 = k /\
              forall r', In r' rest -> key r' = k -> ord r' <= ord r0) ->
  filter (sel k) (qf b rest) = [].
Proof.
  revert b. induction rest as [|x rest IH]; intros b (r0 & Hin & Hk & Hdom); cbn [Sql.qualify_from]; [reflexivity|].
  assert (filter (sel k) (qf (b ++ [x]) rest) = []) as Htail.
  { apply IH. exists r0. repeat split; auto.
    - apply in_or_app. now left.
    - intros r' Hr'. apply Hdom. now right. }
  destruct (Nat.eqb (rn b x rest) 1) eqn:E; [|exact Htail].
  cbn [filter]. destruct (sel k x) eqn:Ex; [|exact Htail].
  exfalso. unfold Sql.in_partition in Ex. apply key_eqb_eq in Ex.
  destruct (row_number_first _ _ _ E) as [Hb _].
  specialize (Hb r0 Hin (eq_trans Hk (eq_sym Ex))).
  specialize (Hdom x (or_introl eq_refl) Ex). lia.
Qed.

(** Exactly one row of a partition that is still to be scanned has
    rank 1, provided every row already scanned is smaller than some
    row to come. *)
Lemma qualify_from_one k b rest :
  (exists r, In r rest /\ key r = k) ->
  (forall r', In r' b -> key r' = k ->
              exists r'', In r'' rest /\ key r'' = k /\ ord r' < ord r'') ->
  List.length (filter (sel k) (qf b rest)) = 1%nat.
Proof.
  revert b. induction rest as [|x rest IH]; intros b (r & Hr & Hk) Hb; [contradiction|].
  cbn [Sql.qualify_from]. destruct (sel k x) eqn:Ex.
  - unfold Sql.in_partition in Ex. pose proof (proj1 (key_eqb_eq _ _) Ex) as Kx.
    destruct (Nat.eqb (rn b x rest) 1) eqn:E.
    + cbn [filter]. unfold Sql.in_partition at 1. rewrite Ex. cbn [List.length]. f_equal.
      rewrite qualify_from_dominated; [reflexivity|].
      destruct (row_number_first _ _ _ E) as [_ Ha].
      exists x. repeat split; auto.
      * apply in_or_app. right. now left.
      * intros r' Hr' Hk'. apply Ha; congruence.
    + assert (exists y, In y rest /\ key y = k /\ ord x < ord y) as (y & Hy & Ky & Lt).
      { destruct (row_number_not_first _ _ _ E) as [(r' & Hin & Hk' & Hle)|(r' & Hin & Hk' & Hlt)].
        - destruct (Hb r' Hin (eq_trans Hk' Kx)) as (r'' & [<-|Hin''] & Hk'' & Hlt); [lia|].
          exists r''. repeat split; auto. lia.
        - exists r'. repeat split; auto. congruence. }
      apply IH.
      * exists y. auto.
      * intros r' Hr' Hk'. apply in_app_or in Hr'. destruct Hr' as [Hr'|[<-|[]]].
        -- destruct (Hb r' Hr' Hk') as (r'' & [<-|Hin''] & Hk'' & Hlt).
           ++ exists y. repeat split; auto. lia.
           ++ exists r''. auto.
        -- exists y. auto.
  - assert (key x <> k) as Nx.
    { intros Hx. apply key_eqb_eq in Hx. unfold Sql.in_partition in Ex. congruence. }
    assert (List.length (filter (sel k) (qf (b ++ [x]) rest)) = 1%nat) as Htail.
    { apply IH.
      - destruct Hr as [<-|Hr]; [contradiction|]. exists r. auto.
      - intros r' Hr' Hk'. apply in_app_or in Hr'. destruct Hr' as [Hr'|[<-|[]]]; [|contradiction].
        destruct (Hb r' Hr' Hk') as (r'' & [<-|Hin''] & Hk'' & Hlt); [contradiction|].
        exists r''. auto. }
    destruct (Nat.eqb (rn b x rest) 1); [|exact Htail].
    cbn [filter]. rewrite Ex. exact Htail.
Qed.

Lemma qualify_first_one k rows :
  (exists r, In r rows /\ key r = k) ->
  List.length (filter (sel k) (Sql.qualify_first key key_eqb ord rows)) = 1%nat.
Proof.
  intros H. unfold Sql.qualify_first. apply qualify_from_one; [exact H|].
  intros r' [].
Qed.

Lemma qualify_first_max rows r :
  In r (Sql.qualify_first key key_eqb ord rows) ->
  In r rows /\ forall r', In r' rows -> key r' = key r -> ord r' <= ord r.
Proof.
  intros H. split.
  - eapply qualify_from_In; exact H.
  - intros r' Hr'. eapply (qualify_from_max [] rows r H). exact Hr'.
Qed.

Lemma qualify_first_none k rows :
  (forall r, In r rows -> key r <> k) ->
  filter (sel k) (Sql.qualify_first key key_eqb ord rows) = [].
Proof.
  intros H. apply filter_all_false. intros x Hx.
  apply qualify_first_max in Hx. destruct Hx as [Hx _].
  unfold Sql.in_partition. destruct (key_eqb (key x) k) eqn:E; [|reflexivity].
  apply key_eqb_eq in E. exfalso. exact (H x Hx E).
Qed.
End WindowFacts.

Lemma pair_eqb_eq (a b : Z * string) : Sql.pair_eqb a b = true <-> a = b.
Proof.
  destruct a as [a1 a2], b as [b1 b2]. unfold Sql.pair_eqb. simpl.
  rewrite andb_true_iff, Z.eqb_eq, String.eqb_eq. split.
  - intros [-> ->]. reflexivity.
  - intros E. inversion E. auto.
Qed.

Lemma filter_map_length {A B} (f : A -> B) (g : B -> bool) (l : list A) :
  List.length (filter g (map f l)) = List.length (filter (fun a => g (f a)) l).
Proof.
  induction l as [|a l IH]; simpl; [reflexivity|].
  destruct (g (f a)); simpl; congruence.
Qed.

Section Dedup.
Context {R : Type}.
Variable key : R -> Z * string.
Variable run : R -> Z.
Variable keep : R -> bool.
Local Abbreviation triple := (Sql.run_triple key run).
(** The [WHERE] of the ranking's scope looks at the partition key only. *)
Hypothesis keep_key : forall r r', key r = key r' -> keep r = keep r'.

Lemma dedup_stage (tbl : list R) (p : Z * string) :
  (exists t, In t (map triple (filter keep tbl)) /\ fst t = p) ->
  List.length
    (filter (Sql.has_pair p)
       (map triple (Sql.qualify_first key Sql.pair_eqb run (filter keep tbl)))) = 1%nat
  /\ forall t,
      In t (map triple (Sql.qualify_first key Sql.pair_eqb run (filter keep tbl))) ->
      fst t = p ->
      In t (map triple tbl)
      /\ forall t', In t' (map triple tbl) -> fst t' = p -> snd t' <= snd t.
Proof.
  intros (t & Ht & Hp). apply in_map_iff in Ht. destruct Ht as (r & <- & Hr).
  simpl in Hp. split.
  - rewrite filter_map_length.
    apply (qualify_first_one key Sql.pair_eqb run pair_eqb_eq p).
    exists r. auto.
  - intros t Ht Hk.
    apply in_map_iff in Ht. destruct Ht as (s & <- & Hs).
    apply (qualify_first_max key Sql.pair_eqb run pair_eqb_eq) in Hs.
    destruct Hs as [Hin Hmax]. split.
    { apply in_map. apply filter_In in Hin. tauto. }
    intros t' Ht' Hk'.
    apply in_map_iff in Ht'. destruct Ht' as (s' & <- & Hs').
    simpl in *.
    apply Hmax; [|congruence].
    apply filter_In. split; [exact Hs'|].
    apply filter_In in Hin. destruct Hin as [_ Hkeep].
    rewrite <- Hkeep. apply keep_key. congruence.
Qed.
End Dedup.

(** C1 (amended). For each of the three forecast-derived queries and
    every (forecast instant, location) pair carried by a row that reaches
    the ranking (a row of the requested city and, for the rain query, of a
    forecast date on or after the current date), exactly one row leaves
    the latest-run deduplication with that pair; that row is a row of the
    underlying table, and its model run time is the largest among all rows
    of the underlying table sharing the pair: it equals their maximum. *)
Theorem latest_run_per_candidate_pair
    (q : Sql.forecast_query) (wh : Sql.warehouse) (clk : Sql.clock)
    (city : string) (p : Z * string) :
  (exists t, In t (Sql.candidates q wh clk city) /\ fst t = p) ->
  List.length (filter (Sql.has_pair p) (Sql.deduplicated q wh clk city)) = 1%nat
  /\ forall t, In t (Sql.deduplicated q wh clk city) -> fst t = p ->
     In t (Sql.underlying q wh)
     /\ forall t', In t' (Sql.underlying q wh) -> fst t' = p -> snd t' <= snd t.
Proof.
  destruct q; cbn [Sql.candidates Sql.deduplicated Sql.underlying];
    unfold Sql.latest_lstm, Sql.latest_forecast, Sql.latest_rain.
  - apply (dedup_stage Sql.weather_key Sql.w_dt_model_run_time).
    intros r r' E. unfold Sql.weather_key in E. inversion E. congruence.
  - apply (dedup_stage Sql.rain_key Sql.r_dt_model_run_time).
    intros r r' E. unfold Sql.rain_key in E. inversion E.
    unfold Sql.rain_candidate. congruence.
  - apply (dedup_stage Sql.weather_key Sql.w_dt_model_run_time).
    intros r r' E. unfold Sql.weather_key in E. inversion E. congruence.
Qed.

(** C1 as stated fails: the Da Nang pair is present in the forecast table,
    and no row of it leaves the deduplication of the Ha Noi query; the
    rain pair of the requested city is present in the rain table, and no
    row of it leaves the deduplication, its date being past. *)
Lemma latest_run_not_for_every_pair_of_the_table :
  not (Spec.latest_run_deduplicated
         (Sql.underlying Sql.Forecast24h Sample.warehouse)
         (Sql.deduplicated Sql.Forecast24h Sample.warehouse Sample.clock "Ha Noi City"))
  /\
  not (Spec.latest_run_deduplicated
         (Sql.underlying Sql.RainToday Sample.warehouse)
         (Sql.deduplicated Sql.RainToday Sample.warehouse Sample.clock "Ha Noi City")).
Proof.
  split; intros H.
  - destruct (H (3600, "Da Nang City")) as [Hlen _].
    + exists (3600, "Da Nang City", 20). split; [simpl; auto | reflexivity].
    + vm_compute in Hlen. discriminate.
  - destruct (H (0, "Ha Noi City")) as [Hlen _].
    + exists (0, "Ha Noi City", 5). split; [simpl; auto | reflexivity].
    + vm_compute in Hlen. discriminate.
Qed.

Lemma latest_run_per_candidate_pair_witness :
  List.length
    (filter (Sql.has_pair (3600, "Ha Noi City"))
       (Sql.deduplicated Sql.Forecast24h Sample.warehouse Sample.clock "Ha Noi City")) = 1%nat
  /\ forall t,
      In t (Sql.deduplicated Sql.Forecast24h Sample.warehouse Sample.clock "Ha Noi City") ->
      fst t = (3600, "Ha Noi City") ->
      In t (Sql.underlying Sql.Forecast24h Sample.warehouse)
      /\ forall t', In t' (Sql.underlying Sql.Forecast24h Sample.warehouse) ->
                    fst t' = (3600, "Ha Noi City") -> snd t' <= snd t.
Proof.
  apply (latest_run_per_candidate_pair Sql.Forecast24h Sample.warehouse Sample.clock
           "Ha Noi City" (3600, "Ha Noi City")).
  exists (3600, "Ha Noi City", 10). split; [simpl; auto | reflexivity].
Defined.

(** ** The result sets of the forecast queries *)

Section OrderByFacts.
Context {R : Type}.
Variable k : R -> Z.

Lemma In_insert_asc (r x : R) (l : list R) :
  In x (Sql.insert_asc k r l) <-> x = r \/ In x l.
Proof.
  induction l as [|y l IH]; cbn.
  - intuition.
  - destruct (k y <=? k r); cbn; rewrite ?IH; intuition.
Qed.

Lemma In_insert_desc (r x : R) (l : list R) :
  In x (Sql.insert_desc k r l) <-> x = r \/ In x l.
Proof.
  induction l as [|y l IH]; cbn.
  - intuition.
  - destruct (k r <=? k y); cbn; rewrite ?IH; intuition.
Qed.

Lemma In_order_by_asc (x : R) (l : list R) :
  In x (Sql.order_by_asc k l) <-> In x l.
Proof.
  unfold Sql.order_by_asc.
  assert (forall acc, In x (fold_left (fun acc r => Sql.insert_asc k r acc) l acc)
                      <-> In x acc \/ In x l) as H.
  { induction l as [|y l IH]; intros acc; cbn; [intuition|].
    rewrite IH, In_insert_asc. intuition. }
  rewrite H. cbn. intuition.
Qed.

Lemma In_order_by_desc (x : R) (l : list R) :
  In x (Sql.order_by_desc k l) <-> In x l.
Proof.
  unfold Sql.order_by_desc.
  assert (forall acc, In x (fold_left (fun acc r => Sql.insert_desc k r acc) l acc)
                      <-> In x acc \/ In x l) as H.
  { induction l as [|y l IH]; intros acc; cbn; [intuition|].
    rewrite IH, In_insert_desc. intuition. }
  rewrite H. cbn. intuition.
Qed.

Lemma In_limit (n : Z) (x : R) (l : list R) : In x (Sql.limit n l) -> In x l.
Proof.
  unfold Sql.limit. intros H. rewrite <- (firstn_skipn (Z.to_nat n) l).
  apply in_or_app. now left.
Qed.

Lemma length_limit (n : Z) (l : list R) :
  (List.length (Sql.limit n l) <= Z.to_nat n)%nat.
Proof. unfold Sql.limit. rewrite length_firstn. apply Nat.le_min_l. Qed.
End OrderByFacts.

(** Every row of the 24h forecast result set is a row that left the
    deduplication: it lies at or after the current timestamp and carries
    the latest model run of its (instant, location) pair; there are at
    most 24 rows. *)
Lemma forecast_result_rows (tbl : list Sql.lstm_weather_24h) (clk : Sql.clock)
    (city : string) (out : Sql.forecast_out) :
  In out (Sql.temperature_forecast_24h tbl clk city) ->
  exists r,
    In r (Sql.latest_forecast tbl city)
    /\ out = Sql.select_forecast r
    /\ Sql.current_timestamp clk <= Sql.forecast_time out
    /\ Sql.fo_location out = city
    /\ forall r', In r' tbl -> Sql.weather_key r' = Sql.weather_key r ->
                  Sql.w_dt_model_run_time r' <= Sql.fo_model_run_time out.
Proof.
  unfold Sql.temperature_forecast_24h. intros H.
  apply in_map_iff in H. destruct H as (r & <- & H).
  apply In_limit, In_order_by_asc, filter_In in H. destruct H as [Hr Hts].
  exists r. split; [exact Hr|]. split; [reflexivity|].
  unfold Sql.latest_forecast in Hr.
  apply (qualify_first_max Sql.weather_key Sql.pair_eqb Sql.w_dt_model_run_time pair_eqb_eq)
    in Hr.
  destruct Hr as [Hin Hmax]. apply filter_In in Hin. destruct Hin as [Hin Hcity].
  apply String.eqb_eq in Hcity. apply Z.leb_le in Hts. cbn.
  repeat split; auto.
  intros r' Hr' Hk. apply Hmax; [|exact Hk].
  apply filter_In. split; [exact Hr'|].
  unfold Sql.weather_key in Hk. inversion Hk as [[Ht Hl]]. rewrite Hl.
  now apply String.eqb_eq.
Qed.

Lemma forecast_result_size (tbl : list Sql.lstm_weather_24h) (clk : Sql.clock)
    (city : string) :
  (List.length (Sql.temperature_forecast_24h tbl clk city) <= 24)%nat.
Proof.
  unfold Sql.temperature_forecast_24h. rewrite length_map.
  apply (length_limit 24).
Qed.

(** The same for the rain-probability result set, of at most 5 rows. *)
Lemma rain_result_rows (tbl : list Sql.lstm_rain_daily) (clk : Sql.clock)
    (city : string) (out : Sql.rain_out) :
  In out (Sql.rain_probability_today tbl clk city) ->
  exists r,
    In r (Sql.latest_rain tbl clk city)
    /\ out = Sql.select_rain r
    /\ Sql.ro_location out = city
    /\ forall r', In r' tbl -> Sql.rain_key r' = Sql.rain_key r ->
                  Sql.r_dt_model_run_time r' <= Sql.ro_model_run_time out.
Proof.
  unfold Sql.rain_probability_today. intros H.
  apply in_map_iff in H. destruct H as (r & <- & H).
  apply In_limit, In_order_by_asc in H.
  exists r. split; [exact H|]. split; [reflexivity|].
  unfold Sql.latest_rain in H.
  apply (qualify_first_max Sql.rain_key Sql.pair_eqb Sql.r_dt_model_run_time pair_eqb_eq)
    in H.
  destruct H as [Hin Hmax]. apply filter_In in Hin. destruct Hin as [Hin Hcand].
  pose proof Hcand as Hcand'. unfold Sql.rain_candidate in Hcand'.
  apply andb_true_iff in Hcand'. destruct Hcand' as [Hcity _].
  apply String.eqb_eq in Hcity. cbn. split; [exact Hcity|].
  intros r' Hr' Hk. apply Hmax; [|exact Hk].
  apply filter_In. split; [exact Hr'|].
  unfold Sql.rain_key in Hk. inversion Hk as [[Ht Hl]].
  unfold Sql.rain_candidate in *. now rewrite Ht, Hl.
Qed.

Lemma rain_result_size (tbl : list Sql.lstm_rain_daily) (clk : Sql.clock) (city : string) :
  (List.length (Sql.rain_probability_today tbl clk city) <= 5)%nat.
Proof.
  unfold Sql.rain_probability_today. rewrite length_map. apply (length_limit 5).
Qed.

(** Every row of the comparison result set pairs a prediction that left
    the deduplication with an observation of the same instant and city. *)
Lemma comparison_result_rows (tbl : list Sql.lstm_weather_24h)
    (hourly : list Sql.fact_vn_weather_hourly) (city : string) (lim : Z)
    (out : Sql.comparison_out) :
  In out (Sql.temperature_comparison tbl hourly city lim) ->
  exists f o,
    In f (Sql.latest_lstm tbl city) /\ In o hourly
    /\ Sql.date out = Sql.dt_forecast_time f
    /\ Sql.date out = Sql.dt_date_record o
    /\ Sql.co_predicted_temperature out = Sql.nr_predicted_temperature f
    /\ Sql.actual_temperature out = Sql.nr_temperature_2m o
    /\ Sql.co_location out = city
    /\ forall r', In r' tbl -> Sql.weather_key r' = Sql.weather_key f ->
                  Sql.w_dt_model_run_time r' <= Sql.w_dt_model_run_time f.
Proof.
  unfold Sql.temperature_comparison, Sql.join_hourly. intros H.
  apply In_limit, In_order_by_desc, in_flat_map in H. destruct H as (f & Hf & H).
  apply in_map_iff in H. destruct H as (o & <- & Ho).
  apply filter_In in Ho. destruct Ho as [Ho Hon].
  apply andb_true_iff in Hon. destruct Hon as [Hon Hcity].
  apply andb_true_iff in Hon. destruct Hon as [Ht Hloc].
  apply Z.eqb_eq in Ht. apply String.eqb_eq in Hcity.
  exists f, o. cbn. repeat split; auto.
  unfold Sql.latest_lstm, Sql.latest_forecast in Hf.
  apply (qualify_first_max Sql.weather_key Sql.pair_eqb Sql.w_dt_model_run_time pair_eqb_eq)
    in Hf.
  destruct Hf as [Hin Hmax]. apply filter_In in Hin. destruct Hin as [Hin Hc].
  intros r' Hr' Hk. apply Hmax; [|exact Hk].
  apply filter_In. split; [exact Hr'|].
  unfold Sql.weather_key in Hk. inversion Hk as [[Ht' Hl]]. now rewrite Hl.
Qed.

(** ** Rain-probability banding *)

Ltac order_cases :=
  repeat match goal with
    | H : context [Z.compare ?a ?b] |- _ => destruct (Z.compare_spec a b)
    | |- context [Z.compare ?a ?b] => destruct (Z.compare_spec a b)
    | H : context [Pos.compare ?a ?b] |- _ => destruct (Pos.compare_spec a b)
    | |- context [Pos.compare ?a ?b] => destruct (Pos.compare_spec a b)
    end.

(** The order of binary64 values is transitive. *)
Lemma SFcompare_lt_trans x y z :
  SFcompare x y = Some Lt -> SFcompare y z = Some Lt -> SFcompare x z = Some Lt.
Proof.
  destruct x as [sx|sx| |sx mx ex], y as [sy|sy| |sy my ey], z as [sz|sz| |sz mz ez];
    cbn [SFcompare]; try discriminate;
    repeat match goal with s : bool |- _ => destruct s end;
    try discriminate; try reflexivity;
    change PosDef.Pos.compare_cont with Pos.compare_cont;
    fold (Pos.compare mx my); fold (Pos.compare my mz); fold (Pos.compare mx mz);
    intros H1 H2; order_cases; cbn [CompOpp] in *;
    try discriminate; try reflexivity; try lia.
Qed.

Lemma SFleb_not_SFltb x y : SFleb y x = true -> SFltb x y = false.
Proof.
  unfold SFleb, SFltb.
  destruct x as [sx|sx| |sx mx ex], y as [sy|sy| |sy my ey];
    cbn [SFcompare]; try discriminate; try reflexivity;
    repeat match goal with s : bool |- _ => destruct s end;
    try discriminate; try reflexivity;
    change PosDef.Pos.compare_cont with Pos.compare_cont;
    fold (Pos.compare mx my); fold (Pos.compare my mx);
    intros H1; order_cases; cbn [CompOpp] in *;
    try discriminate; try reflexivity; try lia.
Qed.

Lemma ltb_trans (x y z : float) :
  PrimFloat.ltb x y = true -> PrimFloat.ltb y z = true -> PrimFloat.ltb x z = true.
Proof.
  rewrite !ltb_spec. unfold SFltb. intros H1 H2.
  destruct (SFcompare (Prim2SF x) (Prim2SF y)) as [[| |]|] eqn:E1; try discriminate.
  destruct (SFcompare (Prim2SF y) (Prim2SF z)) as [[| |]|] eqn:E2; try discriminate.
  now rewrite (SFcompare_lt_trans _ _ _ E1 E2).
Qed.

Lemma leb_not_ltb (x y : float) :
  PrimFloat.leb y x = true -> PrimFloat.ltb x y = false.
Proof. rewrite leb_spec, ltb_spec. apply SFleb_not_SFltb. Qed.

(** At or above a threshold, a value is not below a smaller one. *)
Lemma not_below_smaller (p lo hi : float) :
  PrimFloat.ltb lo hi = true -> PrimFloat.leb hi p = true -> PrimFloat.ltb p lo = false.
Proof.
  intros Hlt Hle. destruct (PrimFloat.ltb p lo) eqn:E; [|reflexivity].
  pose proof (ltb_trans _ _ _ E Hlt) as H.
  rewrite (leb_not_ltb _ _ Hle) in H. discriminate.
Qed.

Lemma band_of_code (p : float) (b : Spec.band) :
  Spec.in_band b p = true ->
  App.gauge_band p = Spec.gauge_shows b /\ App.view_band p = Spec.view_shows b.
Proof.
  unfold App.gauge_band, App.view_band.
  destruct b; cbn [Spec.in_band Spec.gauge_shows Spec.view_shows]; intros H.
  - rewrite H. auto.
  - apply andb_true_iff in H. destruct H as [H30 H50].
    rewrite (leb_not_ltb _ _ H30), H50. auto.
  - apply andb_true_iff in H. destruct H as [H50 H70].
    rewrite (not_below_smaller p 30 50 eq_refl H50), (leb_not_ltb _ _ H50), H70. auto.
  - rewrite (not_below_smaller p 30 70 eq_refl H), (not_below_smaller p 50 70 eq_refl H),
      (leb_not_ltb _ _ H). auto.
Qed.

(** The gauge of a frame whose first row reads [raw] and whose forecast
    date is shown as [date]: its figure carries the band of [raw * 100]. *)
Lemma gauge_of_band strptime (df : Pandas.DataFrame) (raw : float) (date : string)
    (b : Spec.band) :
  Pandas.empty df = false ->
  obind (Pandas.getitem df "rain_probability")
    (fun s => obind (Pandas.iloc0 s) (fun v => Pandas.as_float v)) = Ok raw ->
  obind (Pandas.getitem df "forecast_date")
    (fun s => obind (Pandas.iloc0 s)
       (fun v => obind (Pandas.scalar_to_datetime strptime v)
          (fun t => App.strftime_vn Calendar.strftime_dmY_HM t))) = Ok date ->
  App.gauge_band (PrimFloat.mul raw 100) = Spec.gauge_shows b ->
  exists rest,
    snd (App.create_rain_probability_gauge strptime df)
    = Spec.gauge_figure (PrimFloat.mul raw 100) date b :: rest.
Proof.
  intros He Hraw Hdate Hb. unfold App.create_rain_probability_gauge, Spec.gauge_figure.
  rewrite He, Hraw. cbn [Streamlit.eval Streamlit.bind]. rewrite Hdate.
  cbn [Streamlit.eval Streamlit.bind]. rewrite Hb.
  destruct (Spec.gauge_shows b) as [color label]. cbn [fst snd Streamlit.st Streamlit.bind].
  match goal with
  | |- context [if Nat.ltb 1 (Pandas.index df) then ?x else ?y] =>
      destruct (if Nat.ltb 1 (Pandas.index df) then x else y) as [o ws]
  end.
  cbn [snd app]. eexists. reflexivity.
Qed.

(** The rain view of a frame whose first row reads [raw]: its metric and
    message carry the band of [raw * 100], and the gauge comes next. *)
Lemma view_of_band strptime (df : Pandas.DataFrame) (raw : float) (b : Spec.band) :
  obind (Pandas.getitem df "rain_probability")
    (fun s => obind (Pandas.iloc0 s) (fun v => Pandas.as_float v)) = Ok raw ->
  App.view_band (PrimFloat.mul raw 100) = Spec.view_shows b ->
  exists rest,
    snd (App.rain_body strptime df)
    = Spec.view_cards (PrimFloat.mul raw 100) b
      ++ Streamlit.markdown "---"
      :: snd (App.create_rain_probability_gauge strptime df) ++ rest.
Proof.
  intros Hraw Hb. unfold App.rain_body, Spec.view_cards.
  rewrite Hraw. cbn [Streamlit.eval Streamlit.bind]. rewrite Hb.
  destruct (Spec.view_shows b) as [delta_color message].
  cbn [fst snd Streamlit.st Streamlit.bind app].
  destruct (App.create_rain_probability_gauge strptime df) as [[[]|e] wg];
    cbn [fst snd Streamlit.st Streamlit.bind app].
  - match goal with
    | |- context [Streamlit.try_except ?x ?h] =>
        destruct (Streamlit.try_except x h) as [o ws]
    end.
    cbn [snd]. eexists. reflexivity.
  - exists []. now rewrite app_nil_r.
Qed.

Lemma band_of_every_value (p : float) :
  exists b, App.gauge_band p = Spec.gauge_shows b /\ App.view_band p = Spec.view_shows b.
Proof.
  unfold App.gauge_band, App.view_band.
  destruct (PrimFloat.ltb p 30); [exists Spec.Low; auto|].
  destruct (PrimFloat.ltb p 50); [exists Spec.Possible; auto|].
  destruct (PrimFloat.ltb p 70); [exists Spec.High; auto|].
  exists Spec.VeryHigh; auto.
Qed.

(** C2. The band is a function of the scaled probability alone, with the
    half-open boundaries of the specification: a value in a band gets that
    band's colour, label and message in the gauge and in the rain view;
    every value, whatever it is, gets one band, the same in both places;
    and the fractions 0.25, 0.30, 0.45, 0.50, 0.65, 0.70 and 0.85, scaled
    by 100 in binary64, fall in low, possible, possible, high, high, very
    high and very high. On the code that draws: the gauge of a result
    whose first row reads the fraction [raw] shows the value [raw * 100]
    with the label and the colour of the band of [raw * 100]; the rain
    view of that result opens with the metric in that band's delta colour
    and that band's message, and goes on with the gauge; for every
    reading the two places show one and the same band; and the gauges and
    rain views of one-row results reading 0.30, 0.50 and 0.70 show
    possible, high and very high. *)
Theorem rain_banding :
  (forall (p : float) (b : Spec.band),
      Spec.in_band b p = true ->
      App.gauge_band p = Spec.gauge_shows b /\ App.view_band p = Spec.view_shows b)
  /\ (forall p : float,
        exists b, App.gauge_band p = Spec.gauge_shows b
                  /\ App.view_band p = Spec.view_shows b)
  /\ Spec.in_band Spec.Low (Spec.scaled Spec.f025) = true
  /\ Spec.in_band Spec.Possible (Spec.scaled Spec.f030) = true
  /\ Spec.in_band Spec.Possible (Spec.scaled Spec.f045) = true
  /\ Spec.in_band Spec.High (Spec.scaled Spec.f050) = true
  /\ Spec.in_band Spec.High (Spec.scaled Spec.f065) = true
  /\ Spec.in_band Spec.VeryHigh (Spec.scaled Spec.f070) = true
  /\ Spec.in_band Spec.VeryHigh (Spec.scaled Spec.f085) = true
  /\ App.gauge_band (Spec.scaled Spec.f030) = Spec.gauge_shows Spec.Possible
  /\ App.gauge_band (Spec.scaled Spec.f050) = Spec.gauge_shows Spec.High
  /\ App.gauge_band (Spec.scaled Spec.f070) = Spec.gauge_shows Spec.VeryHigh
  /\ (forall strptime (df : Pandas.DataFrame) (raw : float) (date : string)
             (b : Spec.band),
        Pandas.empty df = false ->
        obind (Pandas.getitem df "rain_probability")
          (fun s => obind (Pandas.iloc0 s) (fun v => Pandas.as_float v)) = Ok raw ->
        obind (Pandas.getitem df "forecast_date")
          (fun s => obind (Pandas.iloc0 s)
             (fun v => obind (Pandas.scalar_to_datetime strptime v)
                (fun t => App.strftime_vn Calendar.strftime_dmY_HM t))) = Ok date ->
        Spec.in_band b (Spec.scaled raw) = true ->
        exists rest,
          snd (App.create_rain_probability_gauge strptime df)
          = Spec.gauge_figure (Spec.scaled raw) date b :: rest)
  /\ (forall strptime (df : Pandas.DataFrame) (raw : float) (b : Spec.band),
        obind (Pandas.getitem df "rain_probability")
          (fun s => obind (Pandas.iloc0 s) (fun v => Pandas.as_float v)) = Ok raw ->
        Spec.in_band b (Spec.scaled raw) = true ->
        exists rest,
          snd (App.rain_body strptime df)
          = Spec.view_cards (Spec.scaled raw) b
            ++ Streamlit.markdown "---"
            :: snd (App.create_rain_probability_gauge strptime df) ++ rest)
  /\ (forall strptime (df : Pandas.DataFrame) (raw : float),
        obind (Pandas.getitem df "rain_probability")
          (fun s => obind (Pandas.iloc0 s) (fun v => Pandas.as_float v)) = Ok raw ->
        exists b,
          (exists rest,
              snd (App.rain_body strptime df)
              = Spec.view_cards (Spec.scaled raw) b
                ++ Streamlit.markdown "---"
                :: snd (App.create_rain_probability_gauge strptime df) ++ rest)
          /\ forall date,
               Pandas.empty df = false ->
               obind (Pandas.getitem df "forecast_date")
                 (fun s => obind (Pandas.iloc0 s)
                    (fun v => obind (Pandas.scalar_to_datetime strptime v)
                       (fun t => App.strftime_vn Calendar.strftime_dmY_HM t))) = Ok date ->
               exists rest,
                 snd (App.create_rain_probability_gauge strptime df)
                 = Spec.gauge_figure (Spec.scaled raw) date b :: rest)
  /\ (forall strptime,
        App.create_rain_probability_gauge strptime (Sample.rain_reading Spec.f030)
        = (Ok tt, [Spec.gauge_figure (Spec.scaled Spec.f030) "01-01-2024 07:00"
                     Spec.Possible])
        /\ App.create_rain_probability_gauge strptime (Sample.rain_reading Spec.f050)
           = (Ok tt, [Spec.gauge_figure (Spec.scaled Spec.f050) "01-01-2024 07:00"
                        Spec.High])
        /\ App.create_rain_probability_gauge strptime (Sample.rain_reading Spec.f070)
           = (Ok tt, [Spec.gauge_figure (Spec.scaled Spec.f070) "01-01-2024 07:00"
                        Spec.VeryHigh])
        /\ firstn 3 (snd (App.rain_body strptime (Sample.rain_reading Spec.f030)))
           = Spec.view_cards (Spec.scaled Spec.f030) Spec.Possible
        /\ firstn 3 (snd (App.rain_body strptime (Sample.rain_reading Spec.f050)))
           = Spec.view_cards (Spec.scaled Spec.f050) Spec.High
        /\ firstn 3 (snd (App.rain_body strptime (Sample.rain_reading Spec.f070)))
           = Spec.view_cards (Spec.scaled Spec.f070) Spec.VeryHigh).
Proof.
  split; [exact band_of_code|].
  split; [exact band_of_every_value|].
  do 10 (split; [reflexivity|]).
  split.
  { intros strptime df raw date b He Hraw Hdate Hb.
    destruct (band_of_code _ _ Hb) as [Hg _].
    exact (gauge_of_band strptime df raw date b He Hraw Hdate Hg). }
  split.
  { intros strptime df raw b Hraw Hb.
    destruct (band_of_code _ _ Hb) as [_ Hv].
    exact (view_of_band strptime df raw b Hraw Hv). }
  split.
  { intros strptime df raw Hraw.
    destruct (band_of_every_value (Spec.scaled raw)) as (b & Hg & Hv).
    exists b. split; [exact (view_of_band strptime df raw b Hraw Hv)|].
    intros date He Hdate. exact (gauge_of_band strptime df raw date b He Hraw Hdate Hg). }
  intros strptime. repeat split; vm_compute; reflexivity.
Qed.


(** ** Accuracy metrics *)

Lemma map_map2_combine (f : float -> float) (g : float -> float -> float)
    (xs ys : list float) :
  map f (Pandas.map2 g xs ys) = map (fun pa => f (g (fst pa) (snd pa))) (combine xs ys).
Proof.
  revert ys. induction xs as [|x xs IH]; intros [|y ys]; simpl; try reflexivity.
  now rewrite IH.
Qed.

Lemma nanmean_is_mean (xs : list float) : Pandas.nanmean xs = Spec.mean xs.
Proof. reflexivity. Qed.

Lemma mae_rmse_of_columns (df : Pandas.DataFrame) (xs ys : list float) :
  Pandas.getitem df "predicted_temperature" = Ok (Pandas.Float64 xs) ->
  Pandas.getitem df "actual_temperature" = Ok (Pandas.Float64 ys) ->
  App.mae df = Ok (Spec.MAE (combine xs ys))
  /\ App.rmse df = Ok (Spec.RMSE (combine xs ys)).
Proof.
  intros Hp Ha. unfold App.mae, App.rmse. rewrite Hp, Ha.
  cbn [obind Pandas.sub Pandas.values Pandas.abs Pandas.square Pandas.mean Pandas.pow_half].
  rewrite !nanmean_is_mean, !map_map2_combine. split; reflexivity.
Qed.

Lemma comparison_body_metrics (strptime : string -> option Z)
    (df : Pandas.DataFrame) (m r : float) :
  Pandas.contains "predicted_temperature" df
  && Pandas.contains "actual_temperature" df = true ->
  App.mae df = Ok m -> App.rmse df = Ok r ->
  exists o rest,
    App.comparison_body strptime df =
      (o, Streamlit.columns [1; 1; 1]
          :: Streamlit.metric "📊 Số Điểm Dữ Liệu" (Streamlit.MCount (Pandas.index df))
               None None
          :: Streamlit.metric "📉 MAE (Sai Số Trung Bình)"
               (Streamlit.MText [Fixed 2 m; Lit "°C"]) None None
          :: Streamlit.metric "📈 RMSE" (Streamlit.MText [Fixed 2 r; Lit "°C"]) None None
          :: Streamlit.markdown "---" :: rest).
Proof.
  intros Hc Hm Hr. unfold App.comparison_body. rewrite Hc, Hm, Hr.
  unfold App.metric_fixed, Streamlit.eval, Streamlit.st.
  cbn [Streamlit.bind app].
  destruct (Streamlit.bind (App.create_comparison_chart strptime df) _) as [o w].
  eexists. eexists. reflexivity.
Qed.

(** C3. For a comparison frame carrying both columns, the MAE and RMSE the
    script computes are the mean absolute difference and the square root of
    the mean squared difference of the (predicted, actual) pairs, and on a
    non-empty frame these are the numbers on the two metric cards; on the
    pairs (20, 22), (25, 24) they are 1.5 and sqrt 2.5; when the query
    comes back empty the view renders its header, the spinner and the
    no-data warning, and no metric card at all. *)
Theorem accuracy_metrics :
  (forall (df : Pandas.DataFrame) (xs ys : list float),
      Pandas.getitem df "predicted_temperature" = Ok (Pandas.Float64 xs) ->
      Pandas.getitem df "actual_temperature" = Ok (Pandas.Float64 ys) ->
      App.mae df = Ok (Spec.MAE (combine xs ys))
      /\ App.rmse df = Ok (Spec.RMSE (combine xs ys)))
  /\ (forall strptime (df : Pandas.DataFrame) (m r : float),
        Pandas.contains "predicted_temperature" df
        && Pandas.contains "actual_temperature" df = true ->
        App.mae df = Ok m -> App.rmse df = Ok r ->
        exists o rest,
          App.comparison_body strptime df =
            (o, Streamlit.columns [1; 1; 1]
                :: Streamlit.metric "📊 Số Điểm Dữ Liệu"
                     (Streamlit.MCount (Pandas.index df)) None None
                :: Streamlit.metric "📉 MAE (Sai Số Trung Bình)"
                     (Streamlit.MText [Fixed 2 m; Lit "°C"]) None None
                :: Streamlit.metric "📈 RMSE"
                     (Streamlit.MText [Fixed 2 r; Lit "°C"]) None None
                :: Streamlit.markdown "---" :: rest))
  /\ App.mae Sample.comparison_frame = Ok 1.5%float
  /\ App.rmse Sample.comparison_frame = Ok (PrimFloat.sqrt 2.5%float)
  /\ (forall strptime (wh : App.warehouse) now selected_city db_city days df,
        wh {| App.sql := App.TemperatureComparison; App.p_city := db_city;
              App.p_limit := Some (days * 24) |} = Ok df ->
        Pandas.empty df = true ->
        App.rendered
          (App.trace (App.view strptime wh now selected_city db_city App.COMPARISON days []))
        = [ Streamlit.header
              (String.append "📊 So Sánh Dự Đoán vs Thực Tế - " selected_city);
            Streamlit.spinner "Đang tải dữ liệu so sánh...";
            Streamlit.warning "Không có dữ liệu để so sánh cho thành phố này." ]).
Proof.
  split; [exact mae_rmse_of_columns|].
  split; [exact comparison_body_metrics|].
  split; [reflexivity|]. split; [reflexivity|].
  intros strptime wh now sel city days df Hwh Hempty.
  unfold App.view. cbn [String.eqb App.HOME App.DAILY App.HOURLY App.FORECAST App.RAIN App.COMPARISON].
  vm_compute (String.eqb _ _).
  unfold App.get_temperature_comparison, App.cache_data, App.mbind, App.render, App.execute.
  cbn [App.find_entry]. rewrite Hwh. cbn. rewrite Hempty. reflexivity.
Qed.


(** ** Result cache *)

Lemma call_eqb_refl (c : App.call) : App.call_eqb c c = true.
Proof.
  destruct c as [f c d]. unfold App.call_eqb. cbn.
  rewrite String.eqb_refl. destruct f, d as [z|]; cbn; try reflexivity;
    apply Z.eqb_refl.
Qed.

Lemma find_replace_entry (e : App.entry) (store : App.cache) :
  App.find_entry (App.cached_call e) (App.replace_entry e store) = Some e.
Proof. unfold App.replace_entry. cbn. now rewrite call_eqb_refl. Qed.

Lemma fetch_is_cache_data (wh : App.warehouse) (now : Z) (r : Spec.request) :
  Spec.fetch wh now r =
  App.cache_data 600 now (Spec.key_of r) (App.execute wh (Spec.statement_of r)).
Proof. destruct r; reflexivity. Qed.

(** A stored result no older than the window is returned as it is. *)
Lemma cache_hit (wh : App.warehouse) (now : Z) (r : Spec.request)
    (store : App.cache) (e : App.entry) :
  App.find_entry (Spec.key_of r) store = Some e ->
  now - App.cached_at e <= 600 ->
  Spec.fetch wh now r store = (Ok (App.cached_value e), store, [App.Called (Spec.key_of r)]).
Proof.
  intros Hf Hage. rewrite fetch_is_cache_data. unfold App.cache_data. rewrite Hf.
  destruct (Z.leb_spec (now - App.cached_at e) 600); [reflexivity | lia].
Qed.

(** Otherwise the statement goes to the warehouse once, and the frame it
    returns is stored under the key with the time of the fetch. *)
Lemma cache_refetch (wh : App.warehouse) (now : Z) (r : Spec.request)
    (store : App.cache) (df : Pandas.DataFrame) :
  Spec.stale 600 now r store ->
  wh (Spec.statement_of r) = Ok df ->
  Spec.fetch wh now r store =
    (Ok df,
     App.replace_entry
       {| App.cached_call := Spec.key_of r; App.cached_value := df; App.cached_at := now |}
       store,
     [App.Called (Spec.key_of r); App.Executed (Spec.statement_of r)]).
Proof.
  intros Hs Hwh. rewrite fetch_is_cache_data. unfold App.cache_data, App.execute, Spec.stale in *.
  rewrite Hwh. destruct (App.find_entry (Spec.key_of r) store) as [e|]; [|reflexivity].
  destruct (Z.leb_spec (now - App.cached_at e) 600); [lia | reflexivity].
Qed.

(** C4. Whichever of the five queries is fetched, with whatever arguments:
    once a fetch at [t1] has gone to the warehouse and got [df], a fetch of
    the same query and arguments less than 600 seconds later returns [df]
    with no statement executed and leaves the store as it is, whatever the
    warehouse would answer by then; a fetch more than 600 seconds later
    executes the statement exactly once and stores what it got under the
    time of that fetch. *)
Theorem cache_window (r : Spec.request) (wh1 wh2 : App.warehouse) (t1 t2 : Z)
    (store : App.cache) (df : Pandas.DataFrame) :
  Spec.stale 600 t1 r store ->
  wh1 (Spec.statement_of r) = Ok df ->
  let first := Spec.fetch wh1 t1 r store in
  App.result first = Ok df
  /\ App.executed (App.trace first) = [Spec.statement_of r]
  /\ (t1 <= t2 < t1 + 600 ->
      let second := Spec.fetch wh2 t2 r (App.store_of first) in
      App.result second = Ok df
      /\ App.executed (App.trace second) = []
      /\ App.store_of second = App.store_of first)
  /\ (t1 + 600 < t2 ->
      forall df', wh2 (Spec.statement_of r) = Ok df' ->
      let second := Spec.fetch wh2 t2 r (App.store_of first) in
      App.result second = Ok df'
      /\ App.executed (App.trace second) = [Spec.statement_of r]
      /\ App.find_entry (Spec.key_of r) (App.store_of second) =
           Some {| App.cached_call := Spec.key_of r; App.cached_value := df';
                   App.cached_at := t2 |}).
Proof.
  intros Hs Hwh first. unfold first. rewrite (cache_refetch wh1 t1 r store df Hs Hwh).
  cbn [App.result App.trace App.store_of fst snd App.executed flat_map app].
  set (e := {| App.cached_call := Spec.key_of r; App.cached_value := df; App.cached_at := t1 |}).
  assert (App.find_entry (Spec.key_of r) (App.replace_entry e store) = Some e) as Hfind
    by (apply (find_replace_entry e store)).
  repeat split.
  - rewrite (cache_hit wh2 t2 r _ e Hfind); [reflexivity | cbn; lia].
  - rewrite (cache_hit wh2 t2 r _ e Hfind); [reflexivity | cbn; lia].
  - rewrite (cache_hit wh2 t2 r _ e Hfind); [reflexivity | cbn; lia].
  - rewrite (cache_refetch wh2 t2 r _ df'); [reflexivity | | assumption].
    unfold Spec.stale. rewrite Hfind. cbn. lia.
  - rewrite (cache_refetch wh2 t2 r _ df'); [reflexivity | | assumption].
    unfold Spec.stale. rewrite Hfind. cbn. lia.
  - rewrite (cache_refetch wh2 t2 r _ df'); [| | assumption].
    + cbn [App.store_of fst snd].
      apply (find_replace_entry
               {| App.cached_call := Spec.key_of r; App.cached_value := df';
                  App.cached_at := t2 |}).
    + unfold Spec.stale. rewrite Hfind. cbn. lia.
Qed.

Lemma cache_window_witness :
  let r := Spec.Compare "Ha Noi City" 3 in
  let wh1 : App.warehouse := fun _ => Ok Sample.comparison_frame in
  let wh2 : App.warehouse := fun _ => Ok Sample.empty_comparison_frame in
  let first := Spec.fetch wh1 1000 r [] in
  App.result first = Ok Sample.comparison_frame
  /\ App.executed (App.trace first) = [Spec.statement_of r]
  /\ (1000 <= 1599 < 1000 + 600 ->
      let second := Spec.fetch wh2 1599 r (App.store_of first) in
      App.result second = Ok Sample.comparison_frame
      /\ App.executed (App.trace second) = []
      /\ App.store_of second = App.store_of first)
  /\ (1000 + 600 < 1599 ->
      forall df', wh2 (Spec.statement_of r) = Ok df' ->
      let second := Spec.fetch wh2 1599 r (App.store_of first) in
      App.result second = Ok df'
      /\ App.executed (App.trace second) = [Spec.statement_of r]
      /\ App.find_entry (Spec.key_of r) (App.store_of second) =
           Some {| App.cached_call := Spec.key_of r; App.cached_value := df';
                   App.cached_at := 1599 |}).
Proof.
  intros r wh1 wh2.
  apply (cache_window r wh1 wh2 1000 1599 [] Sample.comparison_frame).
  - exact I.
  - reflexivity.
Defined.


(** ** Display time zone *)

Lemma lookup_assign_same (c : string) (s : Pandas.series) (d : list (string * Pandas.series)) :
  Pandas.lookup c (Pandas.assign c s d) = Some s.
Proof.
  induction d as [|[c' s'] d IH]; cbn.
  - now rewrite String.eqb_refl.
  - destruct (String.eqb c' c) eqn:E; cbn; rewrite E; [reflexivity | exact IH].
Qed.

Lemma lookup_assign_other (c c' : string) (s : Pandas.series)
    (d : list (string * Pandas.series)) :
  c' <> c -> Pandas.lookup c' (Pandas.assign c s d) = Pandas.lookup c' d.
Proof.
  intros Hne. induction d as [|[c0 s0] d IH]; cbn.
  - destruct (String.eqb_spec c c'); [congruence | reflexivity].
  - destruct (String.eqb_spec c0 c) as [->|Hc]; cbn.
    + destruct (String.eqb_spec c c'); [congruence | reflexivity].
    + destruct (String.eqb_spec c0 c'); [reflexivity | exact IH].
Qed.

Lemma getitem_setitem_same (df : Pandas.DataFrame) (c : string) (s : Pandas.series) :
  Pandas.getitem (Pandas.setitem df c s) c = Ok s.
Proof. unfold Pandas.getitem, Pandas.setitem. cbn. now rewrite lookup_assign_same. Qed.

Lemma getitem_setitem_other (df : Pandas.DataFrame) (c c' : string) (s : Pandas.series) :
  c' <> c -> Pandas.getitem (Pandas.setitem df c s) c' = Pandas.getitem df c'.
Proof.
  intros H. unfold Pandas.getitem, Pandas.setitem. cbn. now rewrite lookup_assign_other.
Qed.

(** A naive column is tagged UTC with its readings untouched, and the
    derived column holds the same instants in the display zone. *)
Lemma to_vietnam_time_naive strptime (df : Pandas.DataFrame) (c c_vn : string)
    (ts : list (option Z)) :
  c <> c_vn ->
  Pandas.getitem df c = Ok (Pandas.Datetime64 None ts) ->
  exists df',
    App.to_vietnam_time strptime df c c_vn = Ok df'
    /\ Pandas.getitem df' c = Ok (Pandas.Datetime64 (Some Pandas.UTC) ts)
    /\ Pandas.getitem df' c_vn = Ok (Pandas.Datetime64 (Some Pandas.Asia_Ho_Chi_Minh) ts)
    /\ forall c', c' <> c -> c' <> c_vn -> Pandas.getitem df' c' = Pandas.getitem df c'.
Proof.
  intros Hne Hc. unfold App.to_vietnam_time. rewrite Hc.
  cbn [Pandas.is_datetime64_any_dtype negb obind]. rewrite Hc.
  change (Pandas.timezone "UTC") with (Ok Pandas.UTC).
  change (Pandas.timezone Config.VIETNAM_TZ) with (Ok Pandas.Asia_Ho_Chi_Minh).
  cbn [obind Pandas.dt_tz Pandas.tz_localize Pandas.utcoffset].
  rewrite getitem_setitem_same. cbn [obind Pandas.tz_convert].
  assert (map (option_map (fun w : Z => w - 0)) ts = ts) as Hts.
  { clear. induction ts as [|[t|] ts IH]; cbn; try rewrite IH; try reflexivity.
    now rewrite Z.sub_0_r. }
  rewrite Hts.
  eexists. split; [reflexivity|]. split; [|split].
  - rewrite getitem_setitem_other by congruence. apply getitem_setitem_same.
  - apply getitem_setitem_same.
  - intros c' H1 H2. rewrite !getitem_setitem_other by assumption. reflexivity.
Qed.

(** A column that already carries a zone is left as it is. *)
Lemma to_vietnam_time_aware strptime (df : Pandas.DataFrame) (c c_vn : string)
    (tz : Pandas.tzinfo) (ts : list (option Z)) :
  c <> c_vn ->
  Pandas.getitem df c = Ok (Pandas.Datetime64 (Some tz) ts) ->
  exists df',
    App.to_vietnam_time strptime df c c_vn = Ok df'
    /\ Pandas.getitem df' c = Ok (Pandas.Datetime64 (Some tz) ts)
    /\ Pandas.getitem df' c_vn = Ok (Pandas.Datetime64 (Some Pandas.Asia_Ho_Chi_Minh) ts)
    /\ forall c', c' <> c_vn -> Pandas.getitem df' c' = Pandas.getitem df c'.
Proof.
  intros Hne Hc. unfold App.to_vietnam_time. rewrite Hc.
  cbn [Pandas.is_datetime64_any_dtype negb obind]. rewrite Hc.
  change (Pandas.timezone Config.VIETNAM_TZ) with (Ok Pandas.Asia_Ho_Chi_Minh).
  cbn [obind Pandas.dt_tz]. rewrite Hc. cbn [obind Pandas.tz_convert].
  eexists. split; [reflexivity|]. split; [|split].
  - rewrite getitem_setitem_other by congruence. exact Hc.
  - apply getitem_setitem_same.
  - intros c' H. now rewrite getitem_setitem_other.
Qed.

(** With [errors="coerce"] the reading of a column of objects never
    raises: each cell is read on its own. *)
Lemma parse_all_coerce strptime (vs : list pyobject) :
  Pandas.parse_all strptime true vs = Ok (map (Spec.coerced strptime) vs).
Proof.
  induction vs as [|v vs IH]; [reflexivity|].
  cbn [Pandas.parse_all map]. rewrite IH.
  destruct v as [|s|d|ps]; cbn [obind Spec.coerced]; try reflexivity.
  destruct (strptime s); reflexivity.
Qed.

(** Once the column is an aware time column, the conversion leaves it and
    adds the display column with the same instants. *)
Lemma to_vietnam_time_after (df1 : Pandas.DataFrame) (c c_vn : string)
    (tz : Pandas.tzinfo) (ts : list (option Z)) :
  c <> c_vn ->
  Pandas.getitem df1 c = Ok (Pandas.Datetime64 (Some tz) ts) ->
  exists df',
    obind (Pandas.getitem df1 c) (fun s1 =>
    obind (Pandas.dt_tz s1) (fun tz =>
    obind (match tz with
           | None =>
               obind (Pandas.timezone "UTC") (fun utc =>
               obind (Pandas.tz_localize utc s1) (fun s' =>
               Ok (Pandas.setitem df1 c s')))
           | Some _ => Ok df1
           end) (fun df2 =>
    obind (Pandas.getitem df2 c) (fun s2 =>
    obind (Pandas.timezone Config.VIETNAM_TZ) (fun vn =>
    obind (Pandas.tz_convert vn s2) (fun s3 =>
    Ok (Pandas.setitem df2 c_vn s3))))))) = Ok df'
    /\ Pandas.getitem df' c = Ok (Pandas.Datetime64 (Some tz) ts)
    /\ Pandas.getitem df' c_vn = Ok (Pandas.Datetime64 (Some Pandas.Asia_Ho_Chi_Minh) ts)
    /\ forall c', c' <> c_vn -> Pandas.getitem df' c' = Pandas.getitem df1 c'.
Proof.
  intros Hne Hc. rewrite Hc.
  change (Pandas.timezone Config.VIETNAM_TZ) with (Ok Pandas.Asia_Ho_Chi_Minh).
  cbn [obind Pandas.dt_tz]. rewrite Hc. cbn [obind Pandas.tz_convert].
  eexists. split; [reflexivity|]. split; [|split].
  - rewrite getitem_setitem_other by congruence. exact Hc.
  - apply getitem_setitem_same.
  - intros c' H. now rewrite getitem_setitem_other.
Qed.

(** A column of texts or dates is overwritten by its reading as instants,
    tagged UTC, and the display column holds the same instants. *)
Lemma to_vietnam_time_object strptime (df : Pandas.DataFrame) (c c_vn : string)
    (vs : list pyobject) :
  c <> c_vn ->
  Pandas.getitem df c = Ok (Pandas.Object vs) ->
  exists df',
    App.to_vietnam_time strptime df c c_vn = Ok df'
    /\ Pandas.getitem df' c
       = Ok (Pandas.Datetime64 (Some Pandas.UTC) (map (Spec.coerced strptime) vs))
    /\ Pandas.getitem df' c_vn
       = Ok (Pandas.Datetime64 (Some Pandas.Asia_Ho_Chi_Minh)
               (map (Spec.coerced strptime) vs))
    /\ forall c', c' <> c -> c' <> c_vn -> Pandas.getitem df' c' = Pandas.getitem df c'.
Proof.
  intros Hne Hc. unfold App.to_vietnam_time. rewrite Hc.
  cbn [obind Pandas.is_datetime64_any_dtype negb Pandas.to_datetime].
  rewrite parse_all_coerce. cbn [obind].
  destruct (to_vietnam_time_after
              (Pandas.setitem df c
                 (Pandas.Datetime64 (Some Pandas.UTC) (map (Spec.coerced strptime) vs)))
              c c_vn Pandas.UTC (map (Spec.coerced strptime) vs) Hne
              (getitem_setitem_same _ _ _)) as (df' & E & H1 & H2 & H3).
  exists df'. split; [exact E|]. split; [exact H1|]. split; [exact H2|].
  intros c' Hc1 Hc2. rewrite H3 by exact Hc2. now apply getitem_setitem_other.
Qed.

(** Whatever the column holds, the conversion returns: afterwards the
    column is a time column with a zone, and the display column holds its
    instants in the display zone. *)
Lemma to_vietnam_time_total strptime (df : Pandas.DataFrame) (c c_vn : string)
    (s : Pandas.series) :
  c <> c_vn ->
  Pandas.getitem df c = Ok s ->
  exists df' tz ts,
    App.to_vietnam_time strptime df c c_vn = Ok df'
    /\ Pandas.getitem df' c = Ok (Pandas.Datetime64 (Some tz) ts)
    /\ Pandas.getitem df' c_vn = Ok (Pandas.Datetime64 (Some Pandas.Asia_Ho_Chi_Minh) ts)
    /\ forall c', c' <> c -> c' <> c_vn -> Pandas.getitem df' c' = Pandas.getitem df c'.
Proof.
  intros Hne Hc.
  assert (forall ts,
             exists df',
               obind (Ok (Pandas.setitem df c (Pandas.Datetime64 (Some Pandas.UTC) ts)))
                 (fun df1 =>
                    obind (Pandas.getitem df1 c) (fun s1 =>
                    obind (Pandas.dt_tz s1) (fun tz =>
                    obind (match tz with
                           | None =>
                               obind (Pandas.timezone "UTC") (fun utc =>
                               obind (Pandas.tz_localize utc s1) (fun s' =>
                               Ok (Pandas.setitem df1 c s')))
                           | Some _ => Ok df1
                           end) (fun df2 =>
                    obind (Pandas.getitem df2 c) (fun s2 =>
                    obind (Pandas.timezone Config.VIETNAM_TZ) (fun vn =>
                    obind (Pandas.tz_convert vn s2) (fun s3 =>
                    Ok (Pandas.setitem df2 c_vn s3)))))))) = Ok df'
               /\ Pandas.getitem df' c = Ok (Pandas.Datetime64 (Some Pandas.UTC) ts)
               /\ Pandas.getitem df' c_vn
                  = Ok (Pandas.Datetime64 (Some Pandas.Asia_Ho_Chi_Minh) ts)
               /\ forall c', c' <> c -> c' <> c_vn ->
                             Pandas.getitem df' c' = Pandas.getitem df c') as Hread.
  { intros ts. cbn [obind].
    destruct (to_vietnam_time_after
                (Pandas.setitem df c (Pandas.Datetime64 (Some Pandas.UTC) ts))
                c c_vn Pandas.UTC ts Hne (getitem_setitem_same _ _ _))
      as (df' & E & H1 & H2 & H3).
    exists df'. split; [exact E|]. split; [exact H1|]. split; [exact H2|].
    intros c' Hc1 Hc2. rewrite H3 by exact Hc2. now apply getitem_setitem_other. }
  unfold App.to_vietnam_time. rewrite Hc.
  destruct s as [xs|zs|[tz|] ts|vs];
    cbn [obind Pandas.is_datetime64_any_dtype negb Pandas.to_datetime].
  - destruct (Hread (map Pandas.float_epoch_ns xs)) as (df' & E & H).
    exists df', Pandas.UTC, (map Pandas.float_epoch_ns xs). split; [exact E | exact H].
  - destruct (Hread (map Pandas.of_epoch_ns zs)) as (df' & E & H).
    exists df', Pandas.UTC, (map Pandas.of_epoch_ns zs). split; [exact E | exact H].
  - cbn [obind].
    destruct (to_vietnam_time_after df c c_vn tz ts Hne Hc) as (df' & E & H1 & H2 & H3).
    exists df', tz, ts. split; [exact E|]. split; [exact H1|]. split; [exact H2|].
    intros c' _ Hc2. now apply H3.
  - cbn [obind]. rewrite Hc.
    change (Pandas.timezone "UTC") with (Ok Pandas.UTC).
    change (Pandas.timezone Config.VIETNAM_TZ) with (Ok Pandas.Asia_Ho_Chi_Minh).
    cbn [obind Pandas.dt_tz Pandas.tz_localize Pandas.utcoffset].
    rewrite getitem_setitem_same. cbn [obind Pandas.tz_convert].
    eexists _, Pandas.UTC, _. split; [reflexivity|]. split; [|split].
    + rewrite getitem_setitem_other by congruence. apply getitem_setitem_same.
    + apply getitem_setitem_same.
    + intros c' H1 H2. rewrite !getitem_setitem_other by assumption. reflexivity.
  - rewrite parse_all_coerce.
    destruct (Hread (map (Spec.coerced strptime) vs)) as (df' & E & H).
    exists df', Pandas.UTC, (map (Spec.coerced strptime) vs). split; [exact E | exact H].
Qed.

(** A column of numbers is overwritten by its reading as nanoseconds
    since the epoch, tagged UTC, and the display column holds the same
    instants. *)
Lemma to_vietnam_time_numeric strptime (df : Pandas.DataFrame) (c c_vn : string)
    (s : Pandas.series) (ts : list (option Z)) :
  c <> c_vn ->
  Pandas.getitem df c = Ok s ->
  (exists zs, s = Pandas.Int64 zs /\ ts = map Pandas.of_epoch_ns zs)
  \/ (exists xs, s = Pandas.Float64 xs /\ ts = map Pandas.float_epoch_ns xs) ->
  exists df',
    App.to_vietnam_time strptime df c c_vn = Ok df'
    /\ Pandas.getitem df' c = Ok (Pandas.Datetime64 (Some Pandas.UTC) ts)
    /\ Pandas.getitem df' c_vn = Ok (Pandas.Datetime64 (Some Pandas.Asia_Ho_Chi_Minh) ts)
    /\ forall c', c' <> c -> c' <> c_vn -> Pandas.getitem df' c' = Pandas.getitem df c'.
Proof.
  intros Hne Hc Hs. unfold App.to_vietnam_time. rewrite Hc.
  destruct Hs as [(zs & -> & ->) | (xs & -> & ->)];
    cbn [obind Pandas.is_datetime64_any_dtype negb Pandas.to_datetime];
    match goal with
    | |- context [Pandas.setitem df c (Pandas.Datetime64 (Some Pandas.UTC) ?l)] =>
        destruct (to_vietnam_time_after
                    (Pandas.setitem df c (Pandas.Datetime64 (Some Pandas.UTC) l))
                    c c_vn Pandas.UTC l Hne (getitem_setitem_same _ _ _))
          as (df' & E & H1 & H2 & H3)
    end;
    exists df'; (split; [exact E|]); (split; [exact H1|]); (split; [exact H2|]);
    intros c' Hc1 Hc2; rewrite H3 by exact Hc2; now apply getitem_setitem_other.
Qed.

(** C5. A time column that carries no zone is tagged UTC with its readings
    unchanged (no offset is applied to them), the display column is a new
    column holding the same instants in the zone seven hours ahead of UTC,
    and every other column is as it was; a column that already carries a
    zone is not touched; the forecast chart plots the display column; and
    the instant 2024-01-01T00:00:00Z is shown as 2024-01-01 07:00. A
    column that is not a time column yet, texts or dates, is first
    overwritten by its reading as instants, tagged UTC: a text is read as
    pandas reads it with [utc=True], a date is its midnight in UTC, and a
    missing or unreadable cell becomes NaT while the other cells are
    kept; the display column holds the same instants. A column of
    numbers is read as nanoseconds since the epoch, in UTC. Whatever the
    column holds the conversion returns, leaving a column with a zone and
    a display column with the same instants. On a forecast result whose
    time came back as text with one unreadable cell the chart plots the
    read instant and a gap; the dates of a daily result are shown at
    07:00 of their day. *)
Theorem display_timezone :
  (forall strptime (df : Pandas.DataFrame) (c c_vn : string) (ts : list (option Z)),
      c <> c_vn ->
      Pandas.getitem df c = Ok (Pandas.Datetime64 None ts) ->
      exists df',
        App.to_vietnam_time strptime df c c_vn = Ok df'
        /\ Pandas.getitem df' c = Ok (Pandas.Datetime64 (Some Pandas.UTC) ts)
        /\ Pandas.getitem df' c_vn =
             Ok (Pandas.Datetime64 (Some Pandas.Asia_Ho_Chi_Minh) ts)
        /\ forall c', c' <> c -> c' <> c_vn ->
                      Pandas.getitem df' c' = Pandas.getitem df c')
  /\ (forall strptime (df : Pandas.DataFrame) (c c_vn : string)
             (tz : Pandas.tzinfo) (ts : list (option Z)),
        c <> c_vn ->
        Pandas.getitem df c = Ok (Pandas.Datetime64 (Some tz) ts) ->
        exists df',
          App.to_vietnam_time strptime df c c_vn = Ok df'
          /\ Pandas.getitem df' c = Ok (Pandas.Datetime64 (Some tz) ts)
          /\ Pandas.getitem df' c_vn =
               Ok (Pandas.Datetime64 (Some Pandas.Asia_Ho_Chi_Minh) ts)
          /\ forall c', c' <> c_vn -> Pandas.getitem df' c' = Pandas.getitem df c')
  /\ Pandas.utcoffset Pandas.Asia_Ho_Chi_Minh = 7 * 3600
  /\ (forall strptime,
        App.create_temperature_forecast_chart strptime Sample.naive_forecast_frame =
          (Ok tt,
           [ Streamlit.plotly_chart
               (Streamlit.ScatterFigure "🌡️ Dự Đoán Nhiệt Độ 24 Giờ Tiếp Theo"
                  "Thời Gian (UTC+7)" "Nhiệt Độ (°C)"
                  [ {| Streamlit.sc_x :=
                         Pandas.Datetime64 (Some Pandas.Asia_Ho_Chi_Minh)
                           [Some (Calendar.timegm Sample.new_year_2024)];
                       Streamlit.sc_y := Pandas.Float64 [21.5%float];
                       Streamlit.sc_name := "Nhiệt Độ Dự Đoán" |} ]) ]))
  /\ Calendar.isoformat_minutes
       (Pandas.shown (Some Pandas.Asia_Ho_Chi_Minh) (Calendar.timegm Sample.new_year_2024))
     = "2024-01-01 07:00"
  /\ Calendar.isoformat_minutes
       (Pandas.shown (Some Pandas.UTC) (Calendar.timegm Sample.new_year_2024))
     = "2024-01-01 00:00"
  /\ (forall strptime (df : Pandas.DataFrame) (c c_vn : string) (vs : list pyobject),
        c <> c_vn ->
        Pandas.getitem df c = Ok (Pandas.Object vs) ->
        exists df',
          App.to_vietnam_time strptime df c c_vn = Ok df'
          /\ Pandas.getitem df' c
             = Ok (Pandas.Datetime64 (Some Pandas.UTC) (map (Spec.coerced strptime) vs))
          /\ Pandas.getitem df' c_vn
             = Ok (Pandas.Datetime64 (Some Pandas.Asia_Ho_Chi_Minh)
                     (map (Spec.coerced strptime) vs))
          /\ forall c', c' <> c -> c' <> c_vn ->
                        Pandas.getitem df' c' = Pandas.getitem df c')
  /\ (forall strptime (df : Pandas.DataFrame) (c c_vn : string) (s : Pandas.series)
             (ts : list (option Z)),
        c <> c_vn ->
        Pandas.getitem df c = Ok s ->
        (exists zs, s = Pandas.Int64 zs /\ ts = map Pandas.of_epoch_ns zs)
        \/ (exists xs, s = Pandas.Float64 xs /\ ts = map Pandas.float_epoch_ns xs) ->
        exists df',
          App.to_vietnam_time strptime df c c_vn = Ok df'
          /\ Pandas.getitem df' c = Ok (Pandas.Datetime64 (Some Pandas.UTC) ts)
          /\ Pandas.getitem df' c_vn
             = Ok (Pandas.Datetime64 (Some Pandas.Asia_Ho_Chi_Minh) ts)
          /\ forall c', c' <> c -> c' <> c_vn ->
                        Pandas.getitem df' c' = Pandas.getitem df c')
  /\ map Pandas.of_epoch_ns [1704067200000000000; 1704067200999999999; - 2 ^ 63]
     = [Some (Calendar.timegm Sample.new_year_2024);
        Some (Calendar.timegm Sample.new_year_2024); None]
  /\ map Pandas.float_epoch_ns [1.7040672e18%float; nan]
     = [Some (Calendar.timegm Sample.new_year_2024); None]
  /\ (forall strptime (df : Pandas.DataFrame) (c c_vn : string) (s : Pandas.series),
        c <> c_vn ->
        Pandas.getitem df c = Ok s ->
        exists df' tz ts,
          App.to_vietnam_time strptime df c c_vn = Ok df'
          /\ Pandas.getitem df' c = Ok (Pandas.Datetime64 (Some tz) ts)
          /\ Pandas.getitem df' c_vn
             = Ok (Pandas.Datetime64 (Some Pandas.Asia_Ho_Chi_Minh) ts)
          /\ forall c', c' <> c -> c' <> c_vn ->
                        Pandas.getitem df' c' = Pandas.getitem df c')
  /\ App.create_temperature_forecast_chart Sample.strptime_new_year
       Sample.text_forecast_frame
     = (Ok tt,
        [ Streamlit.plotly_chart
            (Streamlit.ScatterFigure "🌡️ Dự Đoán Nhiệt Độ 24 Giờ Tiếp Theo"
               "Thời Gian (UTC+7)" "Nhiệt Độ (°C)"
               [ {| Streamlit.sc_x :=
                      Pandas.Datetime64 (Some Pandas.Asia_Ho_Chi_Minh)
                        [Some (Calendar.timegm Sample.new_year_2024); None];
                    Streamlit.sc_y := Pandas.Float64 [21.5%float; 22%float];
                    Streamlit.sc_name := "Nhiệt Độ Dự Đoán" |} ]) ])
  /\ (forall strptime,
        obind (App.to_vietnam_time strptime Sample.daily_mean_only
                 "dt_date_record" "dt_date_record_vn")
          (fun df' =>
             obind (Pandas.getitem df' "dt_date_record_vn")
               (fun s => Pandas.dt_strftime Calendar.isoformat_minutes s))
        = Ok (Pandas.Object [PyStr "2024-01-01 07:00"; PyStr "2023-12-31 07:00"])).
Proof.
  split; [exact to_vietnam_time_naive|].
  split; [exact to_vietnam_time_aware|].
  split; [reflexivity|].
  split; [intros strptime; vm_compute; reflexivity|].
  split; [vm_compute; reflexivity|].
  split; [vm_compute; reflexivity|].
  split; [exact to_vietnam_time_object|].
  split; [exact to_vietnam_time_numeric|].
  split; [vm_compute; reflexivity|].
  split; [vm_compute; reflexivity|].
  split; [exact to_vietnam_time_total|].
  split; [vm_compute; reflexivity|].
  intros strptime. vm_compute. reflexivity.
Qed.


(** ** Column-alias resolution *)

Lemma first_in_columns_resolve (aliases : list string) (df : Pandas.DataFrame) :
  App.first_in_columns aliases df = Spec.resolve aliases (Pandas.columns df).
Proof.
  unfold Spec.resolve. induction aliases as [|a rest IH]; cbn; [reflexivity|].
  unfold Pandas.contains at 1. destruct (existsb (String.eqb a) (Pandas.columns df));
    [reflexivity | exact IH].
Qed.

(** What is resolved is the first alias that is a column: every alias in
    front of it is absent. *)
Lemma resolve_first (aliases columns : list string) (a : string) :
  Spec.resolve aliases columns = Some a ->
  exists before after,
    aliases = before ++ a :: after
    /\ In a columns
    /\ forall b, In b before -> ~ In b columns.
Proof.
  unfold Spec.resolve. induction aliases as [|x rest IH]; cbn; [discriminate|].
  destruct (existsb (String.eqb x) columns) eqn:E.
  - intros [= <-]. exists [], rest. split; [reflexivity|]. split.
    + apply existsb_exists in E. destruct E as (y & Hy & Heq).
      apply String.eqb_eq in Heq. now subst.
    + intros b [].
  - intros H. destruct (IH H) as (before & after & -> & Hin & Hb).
    exists (x :: before), after. split; [reflexivity|]. split; [exact Hin|].
    intros b [<-|Hb'] Hcol; [|exact (Hb b Hb' Hcol)].
    assert (existsb (String.eqb x) columns = true) as E'.
    { apply existsb_exists. exists x. split; [exact Hcol | apply String.eqb_refl]. }
    congruence.
Qed.

Lemma resolve_none (aliases columns : list string) :
  Spec.resolve aliases columns = None <-> forall a, In a aliases -> ~ In a columns.
Proof.
  unfold Spec.resolve. split.
  - intros H a Ha Hcol. apply (find_none _ _ H) in Ha.
    assert (existsb (String.eqb a) columns = true) as E.
    { apply existsb_exists. exists a. split; [exact Hcol | apply String.eqb_refl]. }
    congruence.
  - intros H. induction aliases as [|x rest IH]; cbn; [reflexivity|].
    destruct (existsb (String.eqb x) columns) eqn:E.
    + exfalso. apply existsb_exists in E. destruct E as (y & Hy & Heq).
      apply String.eqb_eq in Heq. subst y. exact (H x (or_introl eq_refl) Hy).
    + apply IH. intros a Ha. apply H. now right.
Qed.

(** C6. Each quantity of a daily result set resolves to the first alias of
    its priority list that is a column of the frame, and to nothing when no
    alias is, without raising: mean temperature, maximum and minimum (each
    falling back on the mean aliases), rain sum, humidity, and the
    temperature column of the daily chart. On a frame whose only
    temperature column is the daily mean, the temperature resolves to that
    column and the card shows its mean; on a frame with no alias at all the
    cards show N/A and the chart gives way to a warning. *)
Theorem column_alias_resolution :
  (forall df : Pandas.DataFrame,
      App.temp_mean_col df = Spec.resolve Spec.temperature_mean_aliases (Pandas.columns df)
      /\ App.temp_max_col df = Spec.resolve Spec.temperature_max_aliases (Pandas.columns df)
      /\ App.temp_min_col df = Spec.resolve Spec.temperature_min_aliases (Pandas.columns df)
      /\ App.rain_col df = Spec.resolve Spec.rain_sum_aliases (Pandas.columns df)
      /\ App.humidity_col df = Spec.resolve Spec.humidity_aliases (Pandas.columns df)
      /\ App.first_in_columns Spec.daily_chart_aliases df =
           Spec.resolve Spec.daily_chart_aliases (Pandas.columns df))
  /\ (forall (aliases columns : list string) (a : string),
        Spec.resolve aliases columns = Some a ->
        exists before after,
          aliases = before ++ a :: after
          /\ In a columns
          /\ forall b, In b before -> ~ In b columns)
  /\ (forall aliases columns : list string,
        Spec.resolve aliases columns = None <->
        forall a, In a aliases -> ~ In a columns)
  /\ App.temp_mean_col Sample.daily_mean_only = Some "nr_temperature_2m_mean"
  /\ App.temp_max_col Sample.daily_mean_only = Some "nr_temperature_2m_mean"
  /\ App.create_weather_metrics_cards Sample.daily_mean_only "daily" =
       (Ok tt,
        [ Streamlit.columns [1; 1; 1; 1];
          Streamlit.metric "🌡️ Nhiệt độ trung bình"
            (Streamlit.MText [Fixed 1 22.5%float; Lit "°C"]) None None;
          Streamlit.metric "🔥 Nhiệt độ cao nhất"
            (Streamlit.MText [Fixed 1 25%float; Lit "°C"]) None None;
          Streamlit.metric "🌧️ Tổng lượng mưa" (Streamlit.MText [Lit "N/A"]) None None;
          Streamlit.metric "📊 Số ngày" (Streamlit.MCount 2) None None ])
  /\ App.temp_mean_col Sample.daily_no_metric = None
  /\ (forall strptime,
        App.daily_body strptime Sample.daily_no_metric =
          (Ok tt,
           [ Streamlit.columns [1; 1; 1; 1];
             Streamlit.metric "🌡️ Nhiệt độ trung bình"
               (Streamlit.MText [Lit "N/A"]) None None;
             Streamlit.metric "🔥 Nhiệt độ cao nhất"
               (Streamlit.MText [Lit "N/A"]) None None;
             Streamlit.metric "🌧️ Tổng lượng mưa" (Streamlit.MText [Lit "N/A"]) None None;
             Streamlit.metric "📊 Số ngày" (Streamlit.MCount 2) None None;
             Streamlit.markdown "---";
             Streamlit.warning
               "Không tìm thấy cột nhiệt độ phù hợp trong dữ liệu hàng ngày.";
             Streamlit.markdown "---";
             Streamlit.subheader "📋 Bảng Dữ Liệu";
             Streamlit.dataframe Sample.daily_no_metric ])).
Proof.
  split.
  { intros df. unfold App.temp_mean_col, App.temp_max_col, App.temp_min_col,
      App.rain_col, App.humidity_col, App.temp_mean_col.
    rewrite !first_in_columns_resolve.
    unfold Spec.resolve, Pandas.contains, Spec.temperature_mean_aliases,
      Spec.temperature_max_aliases, Spec.temperature_min_aliases, Spec.rain_sum_aliases,
      Spec.humidity_aliases, Spec.daily_chart_aliases. cbn [find].
    destruct (existsb (String.eqb "nr_temperature_2m_max") (Pandas.columns df));
      destruct (existsb (String.eqb "nr_temperature_2m_min") (Pandas.columns df));
      destruct (existsb (String.eqb "nr_relative_humidity_2m_mean") (Pandas.columns df));
      repeat split; reflexivity. }
  split; [exact resolve_first|].
  split; [exact resolve_none|].
  repeat split; try (intros strptime); vm_compute; reflexivity.
Qed.


(** ** Metric cards *)

(** C7 as stated fails: on an hourly frame without the temperature column
    the temperature card is left out, and on a daily frame without the
    humidity column the card is replaced by a row count; neither is a
    "not available" card. *)
Lemma absent_column_not_always_reported :
  not (Spec.reports_unavailable "hourly" Sample.hourly_no_metric)
  /\ not (Spec.reports_unavailable "daily" Sample.daily_no_metric).
Proof.
  split; intros H.
  - specialize (H "🌡️ Nhiệt Độ TB" ["nr_temperature_2m"]).
    vm_compute in H.
    destruct (H (or_introl eq_refl) eq_refl) as [E|[E|[]]]; discriminate E.
  - specialize (H "💧 Độ ẩm trung bình" Spec.humidity_aliases).
    vm_compute in H.
    destruct (H (or_intror (or_intror (or_intror (or_introl eq_refl)))) eq_refl)
      as [E|[E|[E|[E|[E|[]]]]]]; discriminate E.
Qed.

Ltac run_card :=
  match goal with
  | |- context [match ?o with Ok _ => _ | Raise _ => _ end] =>
      let x := fresh "x" in let e := fresh "e" in
      destruct o as [x|e];
      cbn [Streamlit.eval Streamlit.bind Streamlit.st Streamlit.ret app fst snd]
  end.

Lemma daily_cards (df : Pandas.DataFrame) (ws : list Streamlit.widget) :
  Pandas.empty df = false ->
  App.create_weather_metrics_cards df "daily" = (Ok tt, ws) ->
  exists c1 c2 c3 c4,
    ws = [Streamlit.columns [1; 1; 1; 1]; c1; c2; c3; c4]
    /\ match App.temp_mean_col df with
       | None => c1 = Spec.na_card "🌡️ Nhiệt độ trung bình"
       | Some _ => exists x, c1 = Spec.value_card "🌡️ Nhiệt độ trung bình" 1 x "°C"
       end
    /\ match App.temp_max_col df with
       | None => c2 = Spec.na_card "🔥 Nhiệt độ cao nhất"
       | Some _ => exists x, c2 = Spec.value_card "🔥 Nhiệt độ cao nhất" 1 x "°C"
       end
    /\ match App.rain_col df with
       | None => c3 = Spec.na_card "🌧️ Tổng lượng mưa"
       | Some _ => exists x, c3 = Spec.value_card "🌧️ Tổng lượng mưa" 1 x " mm"
       end
    /\ match App.humidity_col df with
       | None => c4 = Spec.count_card "📊 Số ngày" (Pandas.index df)
       | Some _ => exists x, c4 = Spec.value_card "💧 Độ ẩm trung bình" 0 x "%"
       end.
Proof.
  intros Hne. unfold App.create_weather_metrics_cards. rewrite Hne.
  change (String.eqb "daily" "daily") with true. cbv iota.
  unfold App.metric_fixed, App.metric_na, Spec.na_card, Spec.value_card, Spec.count_card.
  destruct (App.temp_mean_col df) as [m|];
    destruct (App.temp_max_col df) as [mx|];
    destruct (App.rain_col df) as [r|];
    destruct (App.humidity_col df) as [h|];
    cbn [Streamlit.eval Streamlit.bind Streamlit.st Streamlit.ret app fst snd];
    repeat run_card;
    intros E; inversion E; subst;
    do 4 eexists; (split; [reflexivity|]); repeat split; eauto.
Qed.

Lemma hourly_cards (df : Pandas.DataFrame) (ws : list Streamlit.widget) :
  Pandas.empty df = false ->
  App.create_weather_metrics_cards df "hourly" = (Ok tt, ws) ->
  exists o1 o2 o3,
    ws = Streamlit.columns [1; 1; 1; 1]
         :: o1 ++ o2 ++ o3 ++ [Spec.count_card "⏰ Số Giờ" (Pandas.index df)]
    /\ Spec.optional_card (Pandas.contains "nr_temperature_2m" df) "🌡️ Nhiệt Độ TB" "°C" o1
    /\ Spec.optional_card (Pandas.contains "nr_humidity" df) "💧 Độ Ẩm TB" "%" o2
    /\ Spec.optional_card (Pandas.contains "nr_wind_speed" df) "💨 Tốc Độ Gió TB" " km/h" o3.
Proof.
  intros Hne. unfold App.create_weather_metrics_cards. rewrite Hne.
  change (String.eqb "hourly" "daily") with false.
  change (String.eqb "hourly" "hourly") with true. cbv iota.
  unfold App.metric_fixed, Spec.value_card, Spec.count_card, Spec.optional_card.
  destruct (Pandas.contains "nr_temperature_2m" df);
    destruct (Pandas.contains "nr_humidity" df);
    destruct (Pandas.contains "nr_wind_speed" df);
    cbn [Streamlit.eval Streamlit.bind Streamlit.st Streamlit.ret app fst snd];
    repeat run_card;
    intros E; inversion E; subst.
  all: unfold Spec.value_card.
  all: first
    [ refine (ex_intro _ [] (ex_intro _ [] (ex_intro _ [] _)));
      split; [reflexivity|]; repeat split; eauto; fail
    | refine (ex_intro _ [_] (ex_intro _ [] (ex_intro _ [] _)));
      split; [reflexivity|]; repeat split; eauto; fail
    | refine (ex_intro _ [] (ex_intro _ [_] (ex_intro _ [] _)));
      split; [reflexivity|]; repeat split; eauto; fail
    | refine (ex_intro _ [] (ex_intro _ [] (ex_intro _ [_] _)));
      split; [reflexivity|]; repeat split; eauto; fail
    | refine (ex_intro _ [_] (ex_intro _ [_] (ex_intro _ [] _)));
      split; [reflexivity|]; repeat split; eauto; fail
    | refine (ex_intro _ [_] (ex_intro _ [] (ex_intro _ [_] _)));
      split; [reflexivity|]; repeat split; eauto; fail
    | refine (ex_intro _ [] (ex_intro _ [_] (ex_intro _ [_] _)));
      split; [reflexivity|]; repeat split; eauto; fail
    | refine (ex_intro _ [_] (ex_intro _ [_] (ex_intro _ [_] _)));
      split; [reflexivity|]; repeat split; eauto; fail ].
Qed.

Lemma daily_cards_all_absent (df : Pandas.DataFrame) :
  Pandas.empty df = false ->
  App.temp_max_col df = None -> App.rain_col df = None -> App.humidity_col df = None ->
  App.create_weather_metrics_cards df "daily" =
    (Ok tt,
     [ Streamlit.columns [1; 1; 1; 1];
       Spec.na_card "🌡️ Nhiệt độ trung bình";
       Spec.na_card "🔥 Nhiệt độ cao nhất";
       Spec.na_card "🌧️ Tổng lượng mưa";
       Spec.count_card "📊 Số ngày" (Pandas.index df) ]).
Proof.
  intros Hne Hmax Hrain Hhum.
  assert (App.temp_mean_col df = None) as Hmean.
  { unfold App.temp_max_col in Hmax.
    destruct (Pandas.contains "nr_temperature_2m_max" df); [discriminate | exact Hmax]. }
  unfold App.create_weather_metrics_cards. rewrite Hne.
  change (String.eqb "daily" "daily") with true. cbv iota.
  rewrite Hmean, Hmax, Hrain, Hhum. reflexivity.
Qed.

Lemma hourly_cards_all_absent (df : Pandas.DataFrame) :
  Pandas.empty df = false ->
  Pandas.contains "nr_temperature_2m" df = false ->
  Pandas.contains "nr_humidity" df = false ->
  Pandas.contains "nr_wind_speed" df = false ->
  App.create_weather_metrics_cards df "hourly" =
    (Ok tt, [Streamlit.columns [1; 1; 1; 1];
             Spec.count_card "⏰ Số Giờ" (Pandas.index df)]).
Proof.
  intros Hne H1 H2 H3. unfold App.create_weather_metrics_cards. rewrite Hne.
  change (String.eqb "hourly" "daily") with false.
  change (String.eqb "hourly" "hourly") with true. cbv iota.
  rewrite H1, H2, H3. reflexivity.
Qed.

(** C7 (amended). On a non-empty daily frame the cards are, in order, mean
    temperature, maximum temperature, rain sum and a fourth card: each of
    the first three is the N/A card when none of its columns is present
    and a number otherwise, and the fourth is the mean humidity when its
    column is present and the count of rows when it is not. On a non-empty
    hourly frame the cards of mean temperature, humidity and wind speed
    are shown when their column is present and left out when it is not,
    followed by the count of rows. A frame with none of the columns gets
    the cards above without an exception. *)
Theorem absent_column_cards :
  (forall (df : Pandas.DataFrame) (ws : list Streamlit.widget),
      Pandas.empty df = false ->
      App.create_weather_metrics_cards df "daily" = (Ok tt, ws) ->
      exists c1 c2 c3 c4,
        ws = [Streamlit.columns [1; 1; 1; 1]; c1; c2; c3; c4]
        /\ match App.temp_mean_col df with
           | None => c1 = Spec.na_card "🌡️ Nhiệt độ trung bình"
           | Some _ => exists x, c1 = Spec.value_card "🌡️ Nhiệt độ trung bình" 1 x "°C"
           end
        /\ match App.temp_max_col df with
           | None => c2 = Spec.na_card "🔥 Nhiệt độ cao nhất"
           | Some _ => exists x, c2 = Spec.value_card "🔥 Nhiệt độ cao nhất" 1 x "°C"
           end
        /\ match App.rain_col df with
           | None => c3 = Spec.na_card "🌧️ Tổng lượng mưa"
           | Some _ => exists x, c3 = Spec.value_card "🌧️ Tổng lượng mưa" 1 x " mm"
           end
        /\ match App.humidity_col df with
           | None => c4 = Spec.count_card "📊 Số ngày" (Pandas.index df)
           | Some _ => exists x, c4 = Spec.value_card "💧 Độ ẩm trung bình" 0 x "%"
           end)
  /\ (forall (df : Pandas.DataFrame) (ws : list Streamlit.widget),
        Pandas.empty df = false ->
        App.create_weather_metrics_cards df "hourly" = (Ok tt, ws) ->
        exists o1 o2 o3,
          ws = Streamlit.columns [1; 1; 1; 1]
               :: o1 ++ o2 ++ o3 ++ [Spec.count_card "⏰ Số Giờ" (Pandas.index df)]
          /\ Spec.optional_card (Pandas.contains "nr_temperature_2m" df)
               "🌡️ Nhiệt Độ TB" "°C" o1
          /\ Spec.optional_card (Pandas.contains "nr_humidity" df) "💧 Độ Ẩm TB" "%" o2
          /\ Spec.optional_card (Pandas.contains "nr_wind_speed" df)
               "💨 Tốc Độ Gió TB" " km/h" o3)
  /\ (forall df : Pandas.DataFrame,
        Pandas.empty df = false ->
        App.temp_max_col df = None -> App.rain_col df = None ->
        App.humidity_col df = None ->
        App.create_weather_metrics_cards df "daily" =
          (Ok tt,
           [ Streamlit.columns [1; 1; 1; 1];
             Spec.na_card "🌡️ Nhiệt độ trung bình";
             Spec.na_card "🔥 Nhiệt độ cao nhất";
             Spec.na_card "🌧️ Tổng lượng mưa";
             Spec.count_card "📊 Số ngày" (Pandas.index df) ]))
  /\ (forall df : Pandas.DataFrame,
        Pandas.empty df = false ->
        Pandas.contains "nr_temperature_2m" df = false ->
        Pandas.contains "nr_humidity" df = false ->
        Pandas.contains "nr_wind_speed" df = false ->
        App.create_weather_metrics_cards df "hourly" =
          (Ok tt, [Streamlit.columns [1; 1; 1; 1];
                   Spec.count_card "⏰ Số Giờ" (Pandas.index df)]))
  /\ App.create_weather_metrics_cards Sample.daily_no_metric "daily" =
       (Ok tt,
        [ Streamlit.columns [1; 1; 1; 1];
          Spec.na_card "🌡️ Nhiệt độ trung bình";
          Spec.na_card "🔥 Nhiệt độ cao nhất";
          Spec.na_card "🌧️ Tổng lượng mưa";
          Spec.count_card "📊 Số ngày" 2 ])
  /\ App.create_weather_metrics_cards Sample.hourly_no_metric "hourly" =
       (Ok tt, [Streamlit.columns [1; 1; 1; 1]; Spec.count_card "⏰ Số Giờ" 3]).
Proof.
  split; [exact daily_cards|].
  split; [exact hourly_cards|].
  split; [exact daily_cards_all_absent|].
  split; [exact hourly_cards_all_absent|].
  split; vm_compute; reflexivity.
Qed.


(** ** Empty results *)

Lemma rendered_app (t1 t2 : list App.event) :
  App.rendered (t1 ++ t2) = App.rendered t1 ++ App.rendered t2.
Proof. unfold App.rendered. apply flat_map_app. Qed.

Lemma rendered_map_Rendered (ws : list Streamlit.widget) :
  App.rendered (map App.Rendered ws) = ws.
Proof.
  unfold App.rendered. induction ws as [|w ws IH]; cbn [map flat_map app];
    [reflexivity | now rewrite IH].
Qed.

Ltac compute_eqb :=
  repeat match goal with
    | |- context [String.eqb ?a ?b] =>
        let v := eval vm_compute in (String.eqb a b) in
        change (String.eqb a b) with v
    | |- context [App.is_in ?a ?l] =>
        let v := eval vm_compute in (App.is_in a l) in
        change (App.is_in a l) with v
    end; cbv iota.

(** A fetch renders nothing. *)
Lemma fetch_renders_nothing (wh : App.warehouse) (now : Z) (r : Spec.request)
    (store : App.cache) :
  App.rendered (App.trace (Spec.fetch wh now r store)) = [].
Proof.
  rewrite fetch_is_cache_data. unfold App.cache_data, App.execute, App.trace.
  destruct (App.find_entry (Spec.key_of r) store) as [e|];
    [destruct (now - App.cached_at e <=? 600)|];
    destruct (wh (Spec.statement_of r)); reflexivity.
Qed.

(** [main] catches whatever its view raises. *)
Lemma main_returns strptime (wh : App.warehouse) (now : Z) (inp : App.inputs)
    (store : App.cache) :
  App.result (App.main strptime wh now inp store) = Ok tt.
Proof.
  unfold App.main.
  destruct (App.is_in (App.data_type inp) [App.DAILY; App.HOURLY; App.COMPARISON]);
    unfold App.mbind, App.render, App.mret, App.mtry_except, Streamlit.st;
    cbn [fst snd map app];
    destruct (App.view strptime wh now (App.selected_city inp)
                (Config.get Config.CITIES (App.selected_city inp) (App.selected_city inp))
                (App.data_type inp) _ store) as [[[[]|e0] s0] t0];
    reflexivity.
Qed.

(** What [main] has rendered: title and sidebar, then the view. *)
Lemma main_rendered strptime (wh : App.warehouse) (now : Z) (inp : App.inputs)
    (store : App.cache) (store' : App.cache) (tr : list App.event) :
  App.view strptime wh now (App.selected_city inp)
    (Config.get Config.CITIES (App.selected_city inp) (App.selected_city inp))
    (App.data_type inp)
    (if App.is_in (App.data_type inp) [App.DAILY; App.HOURLY; App.COMPARISON]
     then App.slider_days inp else 7) store = (Ok tt, store', tr) ->
  App.rendered (App.trace (App.main strptime wh now inp store))
  = Spec.preamble (App.data_type inp) ++ App.rendered tr.
Proof.
  unfold App.main, Spec.preamble.
  destruct (App.is_in (App.data_type inp) [App.DAILY; App.HOURLY; App.COMPARISON]);
    unfold App.mbind, App.render, App.mret, App.mtry_except, Streamlit.st;
    cbn [fst snd map app]; intros ->; unfold App.trace; cbn [snd app];
    repeat (rewrite ?rendered_app; cbn [App.rendered flat_map app]);
    rewrite ?app_nil_r; reflexivity.
Qed.

(** A dedicated view whose fetch comes back with no row. *)
Lemma view_of_empty_result strptime (wh : App.warehouse) (now : Z)
    (selected_city db_city data_type : string) (days : Z) (store : App.cache)
    (req : Spec.request) (df : Pandas.DataFrame) (store' : App.cache)
    (tr : list App.event) :
  Spec.view_request data_type db_city days = Some req ->
  Spec.fetch wh now req store = (Ok df, store', tr) ->
  Pandas.empty df = true ->
  exists tr',
    App.view strptime wh now selected_city db_city data_type days store
    = (Ok tt, store', tr')
    /\ App.rendered tr' = Spec.empty_presentation data_type selected_city.
Proof.
  intros Hreq Hf He.
  pose proof (fetch_renders_nothing wh now req store) as Hn.
  rewrite Hf in Hn. unfold App.trace in Hn. cbn [snd] in Hn.
  unfold Spec.view_request in Hreq.
  repeat match type of Hreq with
         | (if String.eqb ?a ?b then _ else _) = _ =>
             destruct (String.eqb_spec a b) as [->|?]
         end; try discriminate Hreq;
    injection Hreq as <-; cbn [Spec.fetch] in Hf;
    unfold App.view, Spec.empty_presentation; compute_eqb;
    unfold App.mbind, App.render, Streamlit.st; cbn [fst snd map];
    rewrite Hf, He; cbn [negb fst snd map];
    eexists; (split; [reflexivity|]);
    repeat (rewrite ?rendered_app; cbn [App.rendered flat_map app]);
    fold (App.rendered tr); rewrite Hn; reflexivity.
Qed.

(** The home view when its four fetches return and the sections drawn
    for the results that have rows return too. *)
Lemma home_of_results strptime (wh : App.warehouse) (now : Z)
    (selected_city db_city : string) (days : Z) (store s1 s2 s3 s4 : App.cache)
    (f r d c : Pandas.DataFrame) (t1 t2 t3 t4 : list App.event)
    (wf wr wd wc : list Streamlit.widget) :
  Spec.fetch wh now (Spec.Forecast db_city) store = (Ok f, s1, t1) ->
  Spec.fetch wh now (Spec.Rain db_city) s1 = (Ok r, s2, t2) ->
  Spec.fetch wh now (Spec.Daily db_city) s2 = (Ok d, s3, t3) ->
  Spec.fetch wh now (Spec.Compare db_city 3) s3 = (Ok c, s4, t4) ->
  (Pandas.empty f = false ->
   App.create_temperature_forecast_chart strptime f = (Ok tt, wf)) ->
  (Pandas.empty r = false ->
   App.create_rain_probability_gauge strptime r = (Ok tt, wr)) ->
  (Pandas.empty d = false ->
   App.create_weather_metrics_cards d "daily" = (Ok tt, wd)) ->
  (Pandas.empty c = false ->
   App.create_comparison_chart strptime c = (Ok tt, wc)) ->
  exists tr',
    App.view strptime wh now selected_city db_city App.HOME days store = (Ok tt, s4, tr')
    /\ App.rendered tr'
       = Spec.home_presentation selected_city
           (if Pandas.empty f then [Streamlit.info "Đang tải dữ liệu dự đoán..."] else wf)
           (if Pandas.empty r then [Streamlit.info "Đang tải dữ liệu xác suất mưa..."]
            else wr)
           (if Pandas.empty d then [] else wd)
           (if Pandas.empty c then [] else wc).
Proof.
  intros Hf Hr Hd Hc Hwf Hwr Hwd Hwc.
  pose proof (fetch_renders_nothing wh now (Spec.Forecast db_city) store) as N1.
  pose proof (fetch_renders_nothing wh now (Spec.Rain db_city) s1) as N2.
  pose proof (fetch_renders_nothing wh now (Spec.Daily db_city) s2) as N3.
  pose proof (fetch_renders_nothing wh now (Spec.Compare db_city 3) s3) as N4.
  rewrite Hf in N1. rewrite Hr in N2. rewrite Hd in N3. rewrite Hc in N4.
  unfold App.trace in N1, N2, N3, N4. cbn [snd] in N1, N2, N3, N4.
  cbn [Spec.fetch] in Hf, Hr, Hd, Hc.
  unfold App.view, Spec.home_presentation. compute_eqb.
  unfold App.mbind, App.render, Streamlit.st, Streamlit.ret. cbn [fst snd map].
  rewrite Hf.
  destruct (Pandas.empty f); [|rewrite (Hwf eq_refl)]; cbn [negb fst snd map];
    rewrite Hr;
    (destruct (Pandas.empty r); [|rewrite (Hwr eq_refl)]); cbn [negb fst snd map];
    rewrite Hd;
    (destruct (Pandas.empty d); [|rewrite (Hwd eq_refl)]); cbn [negb fst snd map];
    rewrite Hc;
    (destruct (Pandas.empty c); [|rewrite (Hwc eq_refl)]); cbn [negb fst snd map];
    eexists; (split; [reflexivity|]);
    repeat (rewrite ?rendered_app; cbn [App.rendered flat_map app]);
    fold (App.rendered t1); fold (App.rendered t2);
    fold (App.rendered t3); fold (App.rendered t4);
    rewrite N1, N2, N3, N4; cbn [app];
    rewrite ?rendered_map_Rendered, ?app_nil_r, <- ?app_assoc; reflexivity.
Qed.

Lemma view_request_days (data_type db_city : string) (slider : Z) (req : Spec.request) :
  Spec.view_request data_type db_city slider = Some req ->
  Spec.view_request data_type db_city
    (if App.is_in data_type [App.DAILY; App.HOURLY; App.COMPARISON] then slider else 7)
  = Some req.
Proof.
  unfold Spec.view_request. intros Hreq.
  repeat match type of Hreq with
         | (if String.eqb ?a ?b then _ else _) = _ =>
             destruct (String.eqb_spec a b) as [->|?]
         end; try discriminate Hreq; compute_eqb; exact Hreq.
Qed.

(** The drawing functions on a result with no row. *)
Lemma drawing_guards strptime (df : Pandas.DataFrame) (data_type : string) :
  Pandas.empty df = true ->
  App.create_temperature_forecast_chart strptime df
  = (Ok tt, [Streamlit.warning "Không có dữ liệu dự đoán."])
  /\ App.create_rain_probability_gauge strptime df
     = (Ok tt, [Streamlit.warning "Không có dữ liệu xác suất mưa."])
  /\ App.create_comparison_chart strptime df
     = (Ok tt, [Streamlit.warning "Không có dữ liệu để so sánh."])
  /\ App.create_weather_metrics_cards df data_type = (Ok tt, []).
Proof.
  intros He.
  unfold App.create_temperature_forecast_chart, App.create_rain_probability_gauge,
    App.create_comparison_chart, App.create_weather_metrics_cards.
  rewrite He. cbn [orb]. repeat split; reflexivity.
Qed.

(** C8 as stated fails: on the home view, with every query coming back
    empty, four results are fetched and only two messages are rendered in
    place of missing data; the overview and the comparison sections are
    left blank under their headings. *)
Lemma home_view_leaves_sections_blank :
  not (Spec.each_empty_result_noticed
         (App.trace
            (App.main Sample.no_strptime Sample.empty_warehouse 0 Sample.home_inputs [])))
  /\ App.rendered
       (App.trace
          (App.main Sample.no_strptime Sample.empty_warehouse 0 Sample.home_inputs []))
     = Spec.preamble App.HOME ++ Spec.empty_presentation App.HOME "Hà Nội".
Proof.
  split.
  - unfold Spec.each_empty_result_noticed. vm_compute. intros H.
    repeat match goal with H : le _ _ |- _ => inversion H; clear H end.
  - vm_compute. reflexivity.
Qed.

(** C8 (amended). An empty result is not an error, query by query and
    view by view. [main] returns normally whatever happens. On a dedicated
    view, when the result that the view fetches (from the warehouse or
    from the memo store, whatever else the store holds) has no row, the
    run renders the title and sidebar, the header of the view, its spinner
    and its no-data warning. On the home view, when the four fetches
    return, each section stands on its own: a forecast result with no row
    gives the info message in place of the chart, a rain result with no
    row the info message in place of the gauge, a daily and a comparison
    result with no row nothing under their headings, and a result with
    rows what its drawing function renders. Each drawing function, given
    a result with no row, renders its own warning, or nothing for the
    cards, and returns. *)
Theorem empty_results_presentation :
  (forall strptime (wh : App.warehouse) (now : Z) (inp : App.inputs) (store : App.cache),
      App.result (App.main strptime wh now inp store) = Ok tt)
  /\ (forall strptime (wh : App.warehouse) (now : Z) (inp : App.inputs)
             (store : App.cache) (req : Spec.request) (df : Pandas.DataFrame)
             (store' : App.cache) (tr : list App.event),
        Spec.view_request (App.data_type inp)
          (Config.get Config.CITIES (App.selected_city inp) (App.selected_city inp))
          (App.slider_days inp) = Some req ->
        Spec.fetch wh now req store = (Ok df, store', tr) ->
        Pandas.empty df = true ->
        App.rendered (App.trace (App.main strptime wh now inp store))
        = Spec.preamble (App.data_type inp)
          ++ Spec.empty_presentation (App.data_type inp) (App.selected_city inp))
  /\ (forall strptime (wh : App.warehouse) (now : Z) (inp : App.inputs)
             (store s1 s2 s3 s4 : App.cache) (f r d c : Pandas.DataFrame)
             (t1 t2 t3 t4 : list App.event) (wf wr wd wc : list Streamlit.widget),
        App.data_type inp = App.HOME ->
        let db_city :=
          Config.get Config.CITIES (App.selected_city inp) (App.selected_city inp) in
        Spec.fetch wh now (Spec.Forecast db_city) store = (Ok f, s1, t1) ->
        Spec.fetch wh now (Spec.Rain db_city) s1 = (Ok r, s2, t2) ->
        Spec.fetch wh now (Spec.Daily db_city) s2 = (Ok d, s3, t3) ->
        Spec.fetch wh now (Spec.Compare db_city 3) s3 = (Ok c, s4, t4) ->
        (Pandas.empty f = false ->
         App.create_temperature_forecast_chart strptime f = (Ok tt, wf)) ->
        (Pandas.empty r = false ->
         App.create_rain_probability_gauge strptime r = (Ok tt, wr)) ->
        (Pandas.empty d = false ->
         App.create_weather_metrics_cards d "daily" = (Ok tt, wd)) ->
        (Pandas.empty c = false ->
         App.create_comparison_chart strptime c = (Ok tt, wc)) ->
        App.rendered (App.trace (App.main strptime wh now inp store))
        = Spec.preamble App.HOME
          ++ Spec.home_presentation (App.selected_city inp)
               (if Pandas.empty f
                then [Streamlit.info "Đang tải dữ liệu dự đoán..."] else wf)
               (if Pandas.empty r
                then [Streamlit.info "Đang tải dữ liệu xác suất mưa..."] else wr)
               (if Pandas.empty d then [] else wd)
               (if Pandas.empty c then [] else wc))
  /\ (forall selected_city,
        Spec.home_presentation selected_city
          [Streamlit.info "Đang tải dữ liệu dự đoán..."]
          [Streamlit.info "Đang tải dữ liệu xác suất mưa..."] [] []
        = Spec.empty_presentation App.HOME selected_city)
  /\ (forall strptime (df : Pandas.DataFrame) (data_type : string),
        Pandas.empty df = true ->
        App.create_temperature_forecast_chart strptime df
        = (Ok tt, [Streamlit.warning "Không có dữ liệu dự đoán."])
        /\ App.create_rain_probability_gauge strptime df
           = (Ok tt, [Streamlit.warning "Không có dữ liệu xác suất mưa."])
        /\ App.create_comparison_chart strptime df
           = (Ok tt, [Streamlit.warning "Không có dữ liệu để so sánh."])
        /\ App.create_weather_metrics_cards df data_type = (Ok tt, [])).
Proof.
  split; [exact main_returns|].
  split.
  { intros strptime wh now inp store req df store' tr Hreq Hf He.
    destruct (view_of_empty_result strptime wh now (App.selected_city inp) _ _ _
                store req df store' tr (view_request_days _ _ _ _ Hreq) Hf He)
      as (tr' & Hv & Hr).
    rewrite (main_rendered _ _ _ _ _ _ _ Hv). now rewrite Hr. }
  split.
  { intros strptime wh now inp store s1 s2 s3 s4 f r d c t1 t2 t3 t4 wf wr wd wc
      Hhome db_city Hf Hr Hd Hc Hwf Hwr Hwd Hwc.
    destruct (home_of_results strptime wh now (App.selected_city inp) db_city
                (if App.is_in (App.data_type inp) [App.DAILY; App.HOURLY; App.COMPARISON]
                 then App.slider_days inp else 7)
                store s1 s2 s3 s4 f r d c t1 t2 t3 t4 wf wr wd wc
                Hf Hr Hd Hc Hwf Hwr Hwd Hwc) as (tr' & Hv & Hrd).
    rewrite <- Hhome in Hv. rewrite (main_rendered _ _ _ _ _ _ _ Hv).
    rewrite Hrd, Hhome. reflexivity. }
  split; [reflexivity|].
  exact drawing_guards.
Qed.

Lemma empty_results_presentation_witness :
  App.rendered
    (App.trace
       (App.main Sample.no_strptime Sample.empty_warehouse 0 Sample.daily_inputs
          Sample.da_nang_store))
  = Spec.preamble App.DAILY ++ Spec.empty_presentation App.DAILY "Hà Nội"
  /\ App.rendered
       (App.trace
          (App.main Sample.no_strptime Sample.forecast_only_warehouse 0 Sample.home_inputs
             []))
     = Spec.preamble App.HOME
       ++ Spec.home_presentation "Hà Nội"
            (snd (App.create_temperature_forecast_chart Sample.no_strptime
                    Sample.naive_forecast_frame))
            [Streamlit.info "Đang tải dữ liệu xác suất mưa..."] [] [].
Proof.
  split.
  - eapply (proj1 (proj2 empty_results_presentation)
              Sample.no_strptime Sample.empty_warehouse 0 Sample.daily_inputs
              Sample.da_nang_store (Spec.Daily "Ha Noi City")
              Sample.empty_comparison_frame);
      vm_compute; reflexivity.
  - refine (proj1 (proj2 (proj2 empty_results_presentation))
              Sample.no_strptime Sample.forecast_only_warehouse 0 Sample.home_inputs
              [] _ _ _ _
              Sample.naive_forecast_frame Sample.empty_comparison_frame
              Sample.empty_comparison_frame Sample.empty_comparison_frame
              _ _ _ _
              (snd (App.create_temperature_forecast_chart Sample.no_strptime
                      Sample.naive_forecast_frame))
              [] [] [] eq_refl _ _ _ _ _ _ _ _);
      try (vm_compute; reflexivity);
      try (intros _; vm_compute; reflexivity);
      vm_compute; intros H; discriminate H.
Defined.



(** ** What the query functions are called with *)

Lemma calls_app (t1 t2 : list App.event) :
  App.calls (t1 ++ t2) = App.calls t1 ++ App.calls t2.
Proof. unfold App.calls. apply flat_map_app. Qed.

Lemma executed_app (t1 t2 : list App.event) :
  App.executed (t1 ++ t2) = App.executed t1 ++ App.executed t2.
Proof. unfold App.executed. apply flat_map_app. Qed.

Lemma calls_map_Rendered (ws : list Streamlit.widget) :
  App.calls (map App.Rendered ws) = [].
Proof.
  unfold App.calls. induction ws as [|w ws IH]; cbn [map flat_map app]; auto.
Qed.

Lemma executed_map_Rendered (ws : list Streamlit.widget) :
  App.executed (map App.Rendered ws) = [].
Proof.
  unfold App.executed. induction ws as [|w ws IH]; cbn [map flat_map app]; auto.
Qed.

Section Fetches.
Variable P : App.call -> Prop.
Variable S : App.statement -> Prop.

Lemma fetches_bind {A B : Type} (m : App.M A) (k : A -> App.M B) :
  Run.fetches P S m -> (forall a, Run.fetches P S (k a)) ->
  Run.fetches P S (App.mbind m k).
Proof.
  intros Hm Hk store. specialize (Hm store). unfold App.mbind.
  destruct (m store) as [[[a|e] s1] t1]; [|exact Hm].
  specialize (Hk a s1). destruct (k a s1) as [[o s2] t2].
  unfold App.trace in *. cbn [snd] in *. rewrite calls_app, executed_app.
  destruct Hm, Hk. split; apply Forall_app; auto.
Qed.

Lemma fetches_try {A : Type} (m : App.M A) (h : exn -> App.M A) :
  Run.fetches P S m -> (forall e, Run.fetches P S (h e)) ->
  Run.fetches P S (App.mtry_except m h).
Proof.
  intros Hm Hh store. specialize (Hm store). unfold App.mtry_except.
  destruct (m store) as [[[a|e] s1] t1]; [exact Hm|].
  specialize (Hh e s1). destruct (h e s1) as [[o s2] t2].
  unfold App.trace in *. cbn [snd] in *. rewrite calls_app, executed_app.
  destruct Hm, Hh. split; apply Forall_app; auto.
Qed.

Lemma fetches_render {A : Type} (r : Streamlit.R A) : Run.fetches P S (App.render r).
Proof.
  intros store. unfold App.render, App.trace. cbn [snd].
  rewrite calls_map_Rendered, executed_map_Rendered. split; constructor.
Qed.

Lemma fetches_mret {A : Type} (a : A) : Run.fetches P S (App.mret a).
Proof. intros store. split; constructor. Qed.

Lemma fetches_cache_data (wh : App.warehouse) (ttl now : Z)
    (c : App.call) (s : App.statement) :
  P c -> S s -> Run.fetches P S (App.cache_data ttl now c (App.execute wh s)).
Proof.
  intros Hc Hs store. unfold App.cache_data, App.execute.
  destruct (App.find_entry c store) as [e|];
    [destruct (now - App.cached_at e <=? ttl)|];
    destruct (wh s); cbn; repeat constructor; auto.
Qed.
End Fetches.

Ltac fetches_step :=
  first
    [ apply fetches_render
    | apply fetches_mret
    | apply fetches_cache_data; cbn; auto; fail
    | apply fetches_bind; [|intros ?]
    | apply fetches_try; [|intros ?]
    | match goal with
      | |- Run.fetches _ _ (if ?b then _ else _) => destruct b
      end ].

(** Every view calls the query functions with the city it was given, and
    the comparison on the home view with a window of three days. *)
Lemma view_fetches strptime (wh : App.warehouse) (now : Z)
    (selected_city db_city data_type : string) (days : Z) :
  Run.fetches
    (fun c => App.city c = db_city)
    (fun s => App.p_city s = db_city)
    (App.view strptime wh now selected_city db_city data_type days).
Proof.
  unfold App.view, App.get_daily_weather, App.get_hourly_weather,
    App.get_temperature_forecast_24h, App.get_rain_probability_today,
    App.get_temperature_comparison.
  repeat fetches_step.
Qed.

Lemma main_fetches strptime (wh : App.warehouse) (now : Z) (inp : App.inputs) :
  Run.fetches
    (fun c => App.city c =
              Config.get Config.CITIES (App.selected_city inp) (App.selected_city inp))
    (fun s => App.p_city s =
              Config.get Config.CITIES (App.selected_city inp) (App.selected_city inp))
    (App.main strptime wh now inp).
Proof.
  unfold App.main.
  repeat first [ apply view_fetches | fetches_step ].
Qed.

(** The image of a display name is its warehouse key, and no warehouse key
    is a display name. *)
Lemma city_key_of_display_name (name : string) :
  In name (Config.keys Config.CITIES) ->
  In (name, Config.get Config.CITIES name name) Config.CITIES
  /\ ~ In (Config.get Config.CITIES name name) (Config.keys Config.CITIES).
Proof.
  cbn. intros [<-|[<-|[<-|[]]]]; vm_compute; split; auto;
    intros H; repeat destruct H as [H|H]; try discriminate H; exact H.
Qed.

(** C9. Whatever city the select box returns, whatever the view, the day
    window, the warehouse and the memo store, every call of a query
    function made by [main], and every statement it sends, carries as its
    location the warehouse key that [CITIES] gives for the selected display
    name, and that key is not a display name. *)
Theorem location_is_warehouse_key strptime (wh : App.warehouse) (now : Z)
    (inp : App.inputs) (store : App.cache) :
  In (App.selected_city inp) (Config.keys Config.CITIES) ->
  Forall (fun c => In (App.selected_city inp, App.city c) Config.CITIES
                   /\ ~ In (App.city c) (Config.keys Config.CITIES))
    (App.calls (App.trace (App.main strptime wh now inp store)))
  /\ Forall (fun s => In (App.selected_city inp, App.p_city s) Config.CITIES
                      /\ ~ In (App.p_city s) (Config.keys Config.CITIES))
       (App.executed (App.trace (App.main strptime wh now inp store))).
Proof.
  intros Hsel. destruct (city_key_of_display_name _ Hsel) as [Hin Hnot].
  destruct (main_fetches strptime wh now inp store) as [Hc Hs].
  split; eapply Forall_impl; [|exact Hc| |exact Hs]; cbn beta;
    intros x ->; auto.
Qed.

Lemma location_is_warehouse_key_witness :
  Forall (fun c => In (App.selected_city Sample.home_inputs, App.city c) Config.CITIES
                   /\ ~ In (App.city c) (Config.keys Config.CITIES))
    (App.calls
       (App.trace
          (App.main Sample.no_strptime Sample.empty_warehouse 0 Sample.home_inputs [])))
  /\ Forall (fun s => In (App.selected_city Sample.home_inputs, App.p_city s) Config.CITIES
                      /\ ~ In (App.p_city s) (Config.keys Config.CITIES))
       (App.executed
          (App.trace
             (App.main Sample.no_strptime Sample.empty_warehouse 0 Sample.home_inputs []))).
Proof.
  apply (location_is_warehouse_key Sample.no_strptime Sample.empty_warehouse 0
           Sample.home_inputs []).
  left. reflexivity.
Defined.


(** ** The day window *)

Ltac unfold_fetching :=
  unfold App.get_daily_weather, App.get_hourly_weather,
    App.get_temperature_forecast_24h, App.get_rain_probability_today,
    App.get_temperature_comparison.

(** On the home view the comparison is called with three days and sent
    with a limit of 72 rows, whatever [days] is. *)
Lemma home_comparison_window strptime (wh : App.warehouse) (now : Z)
    (selected_city db_city : string) (days : Z) :
  Run.fetches
    (fun c => App.fn c = App.TemperatureComparison -> App.days c = Some 3)
    (fun s => App.sql s = App.TemperatureComparison -> App.p_limit s = Some 72)
    (App.view strptime wh now selected_city db_city App.HOME days).
Proof.
  unfold App.view. compute_eqb. unfold_fetching.
  repeat first
    [ apply fetches_cache_data; cbn; [congruence | congruence]
    | fetches_step ].
Qed.

(** The daily view, like the home, forecast and rain views, does not look
    at the day window. *)
Lemma view_ignores_days strptime (wh : App.warehouse) (now : Z)
    (selected_city db_city data_type : string) (d1 d2 : Z) :
  In data_type [App.HOME; App.DAILY; App.FORECAST; App.RAIN] ->
  App.view strptime wh now selected_city db_city data_type d1 =
  App.view strptime wh now selected_city db_city data_type d2.
Proof.
  cbn. intros [<-|[<-|[<-|[<-|[]]]]]; unfold App.view; compute_eqb; reflexivity.
Qed.

Lemma main_ignores_days strptime (wh : App.warehouse) (now : Z)
    (city data_type : string) (d1 d2 : Z) (store : App.cache) :
  In data_type [App.HOME; App.DAILY; App.FORECAST; App.RAIN] ->
  App.main strptime wh now
    {| App.selected_city := city; App.data_type := data_type; App.slider_days := d1 |} store
  = App.main strptime wh now
      {| App.selected_city := city; App.data_type := data_type; App.slider_days := d2 |} store.
Proof.
  intros Hin. pose proof Hin as Hin'. cbn in Hin'.
  unfold App.main. cbn [App.selected_city App.data_type App.slider_days].
  destruct Hin' as [<-|[<-|[<-|[<-|[]]]]]; compute_eqb; reflexivity.
Qed.

Lemma main_home_window strptime (wh : App.warehouse) (now : Z)
    (city : string) (slider : Z) :
  Run.fetches
    (fun c => App.fn c = App.TemperatureComparison -> App.days c = Some 3)
    (fun s => App.sql s = App.TemperatureComparison -> App.p_limit s = Some 72)
    (App.main strptime wh now
       {| App.selected_city := city; App.data_type := App.HOME;
          App.slider_days := slider |}).
Proof.
  unfold App.main. cbn [App.selected_city App.data_type App.slider_days].
  repeat first [ apply home_comparison_window | fetches_step ].
Qed.

(** A fetch is one call, and at most one statement, the one of the
    request. *)
Lemma fetch_calls (wh : App.warehouse) (now : Z) (r : Spec.request) (store : App.cache) :
  App.calls (App.trace (Spec.fetch wh now r store)) = [Spec.key_of r]
  /\ (App.executed (App.trace (Spec.fetch wh now r store)) = []
      \/ App.executed (App.trace (Spec.fetch wh now r store)) = [Spec.statement_of r]).
Proof.
  rewrite fetch_is_cache_data. unfold App.cache_data, App.execute, App.trace.
  destruct (App.find_entry (Spec.key_of r) store) as [e|];
    [destruct (now - App.cached_at e <=? 600)|];
    destruct (wh (Spec.statement_of r)); cbn; auto.
Qed.

(** On the hourly and on the comparison view the run makes one call, with
    the day window of the slider. *)
Lemma main_windowed_call strptime (wh : App.warehouse) (now : Z)
    (city data_type : string) (slider : Z) (store : App.cache) (req : Spec.request) :
  (data_type = App.HOURLY
   /\ req = Spec.Hourly (Config.get Config.CITIES city city) slider)
  \/ (data_type = App.COMPARISON
      /\ req = Spec.Compare (Config.get Config.CITIES city city) slider) ->
  let run := App.main strptime wh now
               {| App.selected_city := city; App.data_type := data_type;
                  App.slider_days := slider |} store in
  App.calls (App.trace run) = [Spec.key_of req]
  /\ (App.executed (App.trace run) = []
      \/ App.executed (App.trace run) = [Spec.statement_of req]).
Proof.
  intros H run. subst run.
  pose proof (fetch_calls wh now req store) as Hc.
  unfold App.main, App.view. cbn [App.selected_city App.data_type App.slider_days].
  destruct H as [[-> ->] | [-> ->]]; compute_eqb;
    cbn [Spec.fetch] in Hc;
    unfold App.mbind, App.render, App.mret, App.mtry_except, Streamlit.st;
    cbn [fst snd map app];
    match goal with
    | H : context [App.trace (?f store)] |- _ =>
        destruct (f store) as [[[df|e] s'] tr]
    end;
    unfold App.trace in *; cbn [fst snd] in *;
    try match goal with
      | |- context [if negb (Pandas.empty ?d) then ?x else ?y] =>
          destruct (if negb (Pandas.empty d) then x else y) as [[[]|e'] ws]
      end;
    cbn [fst snd app map];
    rewrite ?calls_app, ?executed_app; cbn [App.calls App.executed flat_map app];
    fold (App.calls tr); fold (App.executed tr);
    rewrite ?calls_app, ?executed_app, ?calls_map_Rendered, ?executed_map_Rendered,
      ?app_nil_r;
    cbn [App.calls App.executed flat_map app];
    fold (App.calls tr); fold (App.executed tr);
    rewrite ?app_nil_r; exact Hc.
Qed.

(** Two slider values on which the runs of the hourly view differ, and of
    the comparison view. *)
Lemma windowed_views_affected :
  Spec.day_window_affects App.HOURLY /\ Spec.day_window_affects App.COMPARISON.
Proof.
  split;
    exists Sample.no_strptime, Sample.empty_warehouse, 0, "Hà Nội", 1, 30, [];
    intros H; apply (f_equal (fun run => App.executed (App.trace run))) in H;
    vm_compute in H; discriminate H.
Qed.

(** C10. On the daily view the day window is offered and not used. With
    Ha Noi selected and the slider at 1 and at 30, the sidebar of the
    daily view shows the slider, the two runs are equal, and the one
    statement sent carries no limit; on the hourly view, next to it, the
    same two settings send limits of 24 and of 720 rows. For every
    input the slider makes no difference to the daily view, while it does
    to the hourly and to the comparison view. *)
Theorem daily_view_ignores_the_day_window :
  In (Streamlit.slider "Số ngày hiển thị:" 1 30 7)
    (App.rendered
       (App.trace
          (App.main Sample.no_strptime Sample.observed_warehouse 0
             (Sample.ha_noi App.DAILY 1) [])))
  /\ App.main Sample.no_strptime Sample.observed_warehouse 0 (Sample.ha_noi App.DAILY 1) []
     = App.main Sample.no_strptime Sample.observed_warehouse 0
         (Sample.ha_noi App.DAILY 30) []
  /\ App.executed
       (App.trace
          (App.main Sample.no_strptime Sample.observed_warehouse 0
             (Sample.ha_noi App.DAILY 1) []))
     = [ {| App.sql := App.DailyWeather; App.p_city := "Ha Noi City";
            App.p_limit := None |} ]
  /\ App.executed
       (App.trace
          (App.main Sample.no_strptime Sample.observed_warehouse 0
             (Sample.ha_noi App.HOURLY 1) []))
     = [ {| App.sql := App.HourlyWeather; App.p_city := "Ha Noi City";
            App.p_limit := Some 24 |} ]
  /\ App.executed
       (App.trace
          (App.main Sample.no_strptime Sample.observed_warehouse 0
             (Sample.ha_noi App.HOURLY 30) []))
     = [ {| App.sql := App.HourlyWeather; App.p_city := "Ha Noi City";
            App.p_limit := Some 720 |} ]
  /\ ~ Spec.day_window_affects App.DAILY
  /\ Spec.day_window_affects App.HOURLY
  /\ Spec.day_window_affects App.COMPARISON.
Proof.
  split; [vm_compute; auto 20|].
  split; [apply main_ignores_days; cbn; auto|].
  do 3 (split; [vm_compute; reflexivity|]).
  split; [|exact windowed_views_affected].
  intros (strptime & wh & now & city & d1 & d2 & store & Hne).
  apply Hne. apply main_ignores_days. cbn. auto.
Qed.


(** * Further properties of the code *)

(** ** Ordering and truncation of the result sets *)

Section SortFacts.
Context {R : Type}.
Variable k : R -> Z.

Local Abbreviation asc := (fun a b : R => k a <= k b).
Local Abbreviation desc := (fun a b : R => k b <= k a).

Lemma insert_asc_perm (r : R) (l : list R) :
  Permutation (Sql.insert_asc k r l) (r :: l).
Proof.
  induction l as [|x l IH]; cbn; [reflexivity|].
  destruct (k x <=? k r); [|reflexivity].
  rewrite IH. apply perm_swap.
Qed.

Lemma insert_desc_perm (r : R) (l : list R) :
  Permutation (Sql.insert_desc k r l) (r :: l).
Proof.
  induction l as [|x l IH]; cbn; [reflexivity|].
  destruct (k r <=? k x); [|reflexivity].
  rewrite IH. apply perm_swap.
Qed.

Lemma order_by_asc_perm (l : list R) : Permutation (Sql.order_by_asc k l) l.
Proof.
  unfold Sql.order_by_asc.
  assert (forall acc, Permutation (fold_left (fun acc r => Sql.insert_asc k r acc) l acc)
                        (acc ++ l)) as H.
  { induction l as [|x l IH]; intros acc; cbn.
    - now rewrite app_nil_r.
    - rewrite IH, insert_asc_perm. apply Permutation_middle. }
  exact (H []).
Qed.

Lemma order_by_desc_perm (l : list R) : Permutation (Sql.order_by_desc k l) l.
Proof.
  unfold Sql.order_by_desc.
  assert (forall acc, Permutation (fold_left (fun acc r => Sql.insert_desc k r acc) l acc)
                        (acc ++ l)) as H.
  { induction l as [|x l IH]; intros acc; cbn.
    - now rewrite app_nil_r.
    - rewrite IH, insert_desc_perm. apply Permutation_middle. }
  exact (H []).
Qed.

Lemma insert_asc_sorted (r : R) (l : list R) :
  StronglySorted asc l -> StronglySorted asc (Sql.insert_asc k r l).
Proof.
  induction 1 as [|x l Hs IH Hx]; cbn.
  - repeat constructor.
  - destruct (k x <=? k r) eqn:E.
    + constructor; [exact IH|].
      apply (Permutation_Forall (Permutation_sym (insert_asc_perm r l))).
      constructor; [now apply Z.leb_le | exact Hx].
    + apply Z.leb_gt in E. constructor; [now constructor|].
      constructor; [lia|]. eapply Forall_impl; [|exact Hx]. cbn. intros; lia.
Qed.

Lemma insert_desc_sorted (r : R) (l : list R) :
  StronglySorted desc l -> StronglySorted desc (Sql.insert_desc k r l).
Proof.
  induction 1 as [|x l Hs IH Hx]; cbn.
  - repeat constructor.
  - destruct (k r <=? k x) eqn:E.
    + constructor; [exact IH|].
      apply (Permutation_Forall (Permutation_sym (insert_desc_perm r l))).
      constructor; [now apply Z.leb_le | exact Hx].
    + apply Z.leb_gt in E. constructor; [now constructor|].
      constructor; [lia|]. eapply Forall_impl; [|exact Hx]. cbn. intros; lia.
Qed.

Lemma order_by_asc_sorted (l : list R) : StronglySorted asc (Sql.order_by_asc k l).
Proof.
  unfold Sql.order_by_asc.
  assert (forall acc, StronglySorted asc acc ->
            StronglySorted asc (fold_left (fun acc r => Sql.insert_asc k r acc) l acc)) as H.
  { induction l as [|x l IH]; intros acc Hacc; cbn; [exact Hacc|].
    apply IH. now apply insert_asc_sorted. }
  apply H. constructor.
Qed.

Lemma order_by_desc_sorted (l : list R) : StronglySorted desc (Sql.order_by_desc k l).
Proof.
  unfold Sql.order_by_desc.
  assert (forall acc, StronglySorted desc acc ->
            StronglySorted desc (fold_left (fun acc r => Sql.insert_desc k r acc) l acc)) as H.
  { induction l as [|x l IH]; intros acc Hacc; cbn; [exact Hacc|].
    apply IH. now apply insert_desc_sorted. }
  apply H. constructor.
Qed.
End SortFacts.

Section PrefixFacts.
Context {R : Type}.
Variable rel : R -> R -> Prop.

Lemma StronglySorted_app_inv (l1 l2 : list R) :
  StronglySorted rel (l1 ++ l2) ->
  StronglySorted rel l1 /\ StronglySorted rel l2
  /\ Forall (fun a => Forall (rel a) l2) l1.
Proof.
  induction l1 as [|x l1 IH]; cbn; intros H.
  - repeat split; [constructor | exact H | constructor].
  - apply StronglySorted_inv in H. destruct H as [H Hx].
    destruct (IH H) as (H1 & H2 & H12).
    apply Forall_app in Hx. destruct Hx as [Hx1 Hx2].
    repeat split; [constructor; auto | exact H2 | constructor; auto].
Qed.

(** [LIMIT n] after [ORDER BY]: the rows kept are sorted, and each of them
    is in front of each row left out. *)
Lemma limit_sorted (n : Z) (l : list R) :
  StronglySorted rel l ->
  StronglySorted rel (Sql.limit n l)
  /\ Forall (fun a => Forall (rel a) (skipn (Z.to_nat n) l)) (Sql.limit n l).
Proof.
  unfold Sql.limit. intros H.
  rewrite <- (firstn_skipn (Z.to_nat n) l) in H.
  apply StronglySorted_app_inv in H. tauto.
Qed.

Lemma limit_NoDup (n : Z) (l : list R) : NoDup l -> NoDup (Sql.limit n l).
Proof.
  unfold Sql.limit. intros H.
  rewrite <- (firstn_skipn (Z.to_nat n) l) in H.
  now apply NoDup_app_remove_r in H.
Qed.

Lemma limit_map {B : Type} (f : R -> B) (n : Z) (l : list R) :
  Sql.limit n (map f l) = map f (Sql.limit n l).
Proof. unfold Sql.limit. apply firstn_map. Qed.

(** A row the limit leaves out exists only when the limit is reached. *)
Lemma limit_full (n : Z) (l : list R) (x : R) :
  In x (skipn (Z.to_nat n) l) -> List.length (Sql.limit n l) = Z.to_nat n.
Proof.
  unfold Sql.limit. intros H. rewrite length_firstn.
  assert (List.length (skipn (Z.to_nat n) l) <> 0)%nat as Hl
    by (destruct (skipn (Z.to_nat n) l); [contradiction | discriminate]).
  rewrite length_skipn in Hl. lia.
Qed.

Lemma limit_or_left_out (n : Z) (l : list R) (x : R) :
  In x l -> In x (Sql.limit n l) \/ In x (skipn (Z.to_nat n) l).
Proof.
  unfold Sql.limit. intros H. rewrite <- (firstn_skipn (Z.to_nat n) l) in H.
  apply in_app_or in H. exact H.
Qed.
End PrefixFacts.

Lemma StronglySorted_map {A B : Type} (rel : B -> B -> Prop) (f : A -> B) (l : list A) :
  StronglySorted (fun a b => rel (f a) (f b)) l <-> StronglySorted rel (map f l).
Proof.
  induction l as [|x l IH]; cbn; split; intros H; try constructor;
    apply StronglySorted_inv in H; destruct H as [H Hx].
  - now apply IH.
  - rewrite Forall_forall in *. intros y Hy. apply in_map_iff in Hy.
    destruct Hy as (a & <- & Ha). auto.
  - now apply IH.
  - rewrite Forall_forall in *. intros a Ha. apply Hx. now apply in_map.
Qed.

(** Sorted with no key repeated: strictly sorted. *)
Lemma sorted_NoDup_strict {A : Type} (k : A -> Z) (l : list A) :
  StronglySorted (fun a b => k a <= k b) l -> NoDup (map k l) ->
  StronglySorted (fun a b => k a < k b) l.
Proof.
  induction 1 as [|x l Hs IH Hx]; cbn; intros Hnd; constructor;
    apply NoDup_cons_iff in Hnd; destruct Hnd as [Hnin Hnd]; [now apply IH|].
  apply Forall_forall. intros y Hy.
  rewrite Forall_forall in Hx. specialize (Hx y Hy).
  assert (k y <> k x) by (intros E; apply Hnin; rewrite <- E; now apply in_map).
  lia.
Qed.

Lemma sorted_NoDup_strict_desc {A : Type} (k : A -> Z) (l : list A) :
  StronglySorted (fun a b => k b <= k a) l -> NoDup (map k l) ->
  StronglySorted (fun a b => k b < k a) l.
Proof.
  induction 1 as [|x l Hs IH Hx]; cbn; intros Hnd; constructor;
    apply NoDup_cons_iff in Hnd; destruct Hnd as [Hnin Hnd]; [now apply IH|].
  apply Forall_forall. intros y Hy.
  rewrite Forall_forall in Hx. specialize (Hx y Hy).
  assert (k y <> k x) by (intros E; apply Hnin; rewrite <- E; now apply in_map).
  lia.
Qed.

Lemma NoDup_map_filter {R K : Type} (key : R -> K) (keep : R -> bool) (rows : list R) :
  NoDup (map key rows) -> NoDup (map key (filter keep rows)).
Proof.
  intros Hnd. induction rows as [|x rows IH]; cbn; [constructor|].
  cbn [map] in Hnd. apply NoDup_cons_iff in Hnd. destruct Hnd as [Hnin Hnd].
  destruct (keep x); cbn; [|auto].
  constructor; [|auto]. intros Hin. apply Hnin.
  apply in_map_iff in Hin. destruct Hin as (y & E & Hy).
  apply filter_In in Hy. apply in_map_iff. exists y. tauto.
Qed.

Lemma NoDup_app_disjoint {A : Type} (l1 l2 : list A) :
  NoDup (l1 ++ l2) -> forall a, In a l1 -> ~ In a l2.
Proof.
  induction l1 as [|x l1 IH]; cbn; intros H a Ha; [contradiction|].
  apply NoDup_cons_iff in H. destruct H as [Hnin H].
  destruct Ha as [->|Ha]; [|now apply IH].
  intros Hin. apply Hnin. apply in_or_app. now right.
Qed.

(** ** One row for each partition *)

Section WindowKeys.
Context {R K : Type}.
Variable key : R -> K.
Variable key_eqb : K -> K -> bool.
Variable ord : R -> Z.
Hypothesis key_eqb_eq : forall a b, key_eqb a b = true <-> a = b.

Lemma count_one_NoDup (l : list R) :
  (forall x, In x l ->
     List.length (filter (Sql.in_partition key key_eqb (key x)) l) = 1%nat) ->
  NoDup (map key l).
Proof.
  induction l as [|a l IH]; intros H; cbn; [constructor|].
  assert (Sql.in_partition key key_eqb (key a) a = true) as Ea
    by (unfold Sql.in_partition; now apply key_eqb_eq).
  pose proof (H a (or_introl eq_refl)) as Ha. cbn [filter] in Ha.
  rewrite Ea in Ha. cbn [List.length] in Ha.
  assert (filter (Sql.in_partition key key_eqb (key a)) l = []) as Hnone
    by (destruct (filter _ l); [reflexivity | discriminate]).
  constructor.
  - intros Hin. apply in_map_iff in Hin. destruct Hin as (y & E & Hy).
    assert (In y (filter (Sql.in_partition key key_eqb (key a)) l)) as Hy'.
    { apply filter_In. split; [exact Hy|]. unfold Sql.in_partition.
      now apply key_eqb_eq. }
    rewrite Hnone in Hy'. contradiction.
  - apply IH. intros x Hx. specialize (H x (or_intror Hx)). cbn [filter] in H.
    destruct (Sql.in_partition key key_eqb (key x) a) eqn:E; [|exact H].
    exfalso. unfold Sql.in_partition in E. apply key_eqb_eq in E.
    assert (In x (filter (Sql.in_partition key key_eqb (key a)) l)) as Hx'.
    { apply filter_In. split; [exact Hx|]. unfold Sql.in_partition.
      now apply key_eqb_eq. }
    rewrite Hnone in Hx'. contradiction.
Qed.

(** No partition key is carried by two rows of rank 1. *)
Lemma qualify_first_NoDup (rows : list R) :
  NoDup (map key (Sql.qualify_first key key_eqb ord rows)).
Proof.
  apply count_one_NoDup. intros x Hx.
  apply (qualify_first_one key key_eqb ord key_eqb_eq).
  exists x. split; [|reflexivity].
  apply (qualify_first_max key key_eqb ord key_eqb_eq) in Hx. tauto.
Qed.

(** Every partition with a row has its row of rank 1. *)
Lemma qualify_first_some (rows : list R) (r : R) :
  In r rows ->
  exists r0, In r0 (Sql.qualify_first key key_eqb ord rows) /\ key r0 = key r.
Proof.
  intros Hr.
  pose proof (qualify_first_one key key_eqb ord key_eqb_eq (key r) rows
                (ex_intro _ r (conj Hr eq_refl))) as H.
  destruct (filter (Sql.in_partition key key_eqb (key r))
              (Sql.qualify_first key key_eqb ord rows)) as [|r0 l] eqn:E;
    [discriminate|].
  assert (In r0 (filter (Sql.in_partition key key_eqb (key r))
                   (Sql.qualify_first key key_eqb ord rows))) as H0
    by (rewrite E; now left).
  apply filter_In in H0. destruct H0 as [H0 Hk].
  exists r0. split; [exact H0|]. unfold Sql.in_partition in Hk.
  now apply key_eqb_eq.
Qed.
End WindowKeys.

(** The latest-run stage of the temperature queries holds each forecast
    instant once. *)
Lemma latest_forecast_instants (tbl : list Sql.lstm_weather_24h) (city : string) :
  NoDup (map Sql.dt_forecast_time (Sql.latest_forecast tbl city)).
Proof.
  pose proof (qualify_first_NoDup Sql.weather_key Sql.pair_eqb Sql.w_dt_model_run_time
                pair_eqb_eq
                (filter (fun r => String.eqb (Sql.w_ds_location r) city) tbl)) as H.
  fold (Sql.latest_forecast tbl city) in H.
  assert (forall r, In r (Sql.latest_forecast tbl city) -> Sql.w_ds_location r = city) as Hc.
  { intros r Hr. unfold Sql.latest_forecast in Hr.
    apply (qualify_first_max _ _ _ pair_eqb_eq) in Hr. destruct Hr as [Hr _].
    apply filter_In in Hr. now apply String.eqb_eq. }
  revert H Hc. generalize (Sql.latest_forecast tbl city) as l.
  induction l as [|x l IH]; cbn; intros H Hc; [constructor|].
  apply NoDup_cons_iff in H. destruct H as [Hnin H].
  constructor; [|apply IH; auto].
  intros Hin. apply Hnin. apply in_map_iff in Hin. destruct Hin as (y & E & Hy).
  apply in_map_iff. exists y. split; [|exact Hy].
  unfold Sql.weather_key. rewrite E, (Hc y (or_intror Hy)), (Hc x (or_introl eq_refl)).
  reflexivity.
Qed.

Lemma latest_rain_dates (tbl : list Sql.lstm_rain_daily) (clk : Sql.clock) (city : string) :
  NoDup (map Sql.dt_forecast_date (Sql.latest_rain tbl clk city)).
Proof.
  pose proof (qualify_first_NoDup Sql.rain_key Sql.pair_eqb Sql.r_dt_model_run_time
                pair_eqb_eq (filter (Sql.rain_candidate clk city) tbl)) as H.
  fold (Sql.latest_rain tbl clk city) in H.
  assert (forall r, In r (Sql.latest_rain tbl clk city) -> Sql.r_ds_location r = city) as Hc.
  { intros r Hr. unfold Sql.latest_rain in Hr.
    apply (qualify_first_max _ _ _ pair_eqb_eq) in Hr. destruct Hr as [Hr _].
    apply filter_In in Hr. destruct Hr as [_ Hr]. unfold Sql.rain_candidate in Hr.
    apply andb_true_iff in Hr. now apply String.eqb_eq. }
  revert H Hc. generalize (Sql.latest_rain tbl clk city) as l.
  induction l as [|x l IH]; cbn; intros H Hc; [constructor|].
  apply NoDup_cons_iff in H. destruct H as [Hnin H].
  constructor; [|apply IH; auto].
  intros Hin. apply Hnin. apply in_map_iff in Hin. destruct Hin as (y & E & Hy).
  apply in_map_iff. exists y. split; [|exact Hy].
  unfold Sql.rain_key. rewrite E, (Hc y (or_intror Hy)), (Hc x (or_introl eq_refl)).
  reflexivity.
Qed.


(** ** The 24h forecast statement *)

(** The rows the statement sorts: rank 1 and not yet past. *)
Lemma forecast_sorted_stage (tbl : list Sql.lstm_weather_24h) (clk : Sql.clock)
    (city : string) :
  let S := Sql.order_by_asc Sql.dt_forecast_time
             (filter (fun r => Sql.current_timestamp clk <=? Sql.dt_forecast_time r)
                (Sql.latest_forecast tbl city)) in
  StronglySorted (fun a b => Sql.dt_forecast_time a <= Sql.dt_forecast_time b) S
  /\ NoDup (map Sql.dt_forecast_time S).
Proof.
  cbv zeta. split; [apply order_by_asc_sorted|].
  eapply Permutation_NoDup.
  - apply Permutation_sym, Permutation_map, order_by_asc_perm.
  - apply NoDup_map_filter, latest_forecast_instants.
Qed.

(** X1. The result of the 24h forecast statement has at most 24 rows,
    in strictly ascending order of forecast instant: no instant comes
    twice, however many model runs the table holds for it. *)
Theorem forecast_instants_strictly_ascending
    (tbl : list Sql.lstm_weather_24h) (clk : Sql.clock) (city : string) :
  StronglySorted (fun a b => Sql.forecast_time a < Sql.forecast_time b)
    (Sql.temperature_forecast_24h tbl clk city)
  /\ (List.length (Sql.temperature_forecast_24h tbl clk city) <= 24)%nat.
Proof.
  split; [|apply forecast_result_size].
  unfold Sql.temperature_forecast_24h.
  destruct (forecast_sorted_stage tbl clk city) as [Hs Hnd]. cbv zeta in Hs, Hnd.
  set (S := Sql.order_by_asc _ _) in *.
  apply (StronglySorted_map (fun a b => Sql.forecast_time a < Sql.forecast_time b)
           Sql.select_forecast).
  cbn [Sql.select_forecast Sql.forecast_time].
  apply sorted_NoDup_strict.
  - apply (limit_sorted _ 24 S Hs).
  - rewrite <- limit_map. now apply limit_NoDup.
Qed.

(** X2. A forecast of the requested city for an instant not yet past is
    never lost: either the result has a row for its instant, from a model
    run at least as late, or the result is full, 24 rows, all of them for
    earlier instants. *)
Theorem forecast_keeps_the_next_instants
    (tbl : list Sql.lstm_weather_24h) (clk : Sql.clock) (city : string)
    (r : Sql.lstm_weather_24h) :
  In r tbl ->
  Sql.w_ds_location r = city ->
  Sql.current_timestamp clk <= Sql.dt_forecast_time r ->
  (exists out, In out (Sql.temperature_forecast_24h tbl clk city)
               /\ Sql.forecast_time out = Sql.dt_forecast_time r
               /\ Sql.w_dt_model_run_time r <= Sql.fo_model_run_time out)
  \/ (List.length (Sql.temperature_forecast_24h tbl clk city) = 24%nat
      /\ Forall (fun out => Sql.forecast_time out < Sql.dt_forecast_time r)
           (Sql.temperature_forecast_24h tbl clk city)).
Proof.
  intros Hr Hcity Hts.
  assert (In r (filter (fun r => String.eqb (Sql.w_ds_location r) city) tbl)) as Hcand.
  { apply filter_In. split; [exact Hr|]. now apply String.eqb_eq. }
  destruct (qualify_first_some Sql.weather_key Sql.pair_eqb Sql.w_dt_model_run_time
              pair_eqb_eq _ r Hcand) as (r0 & H0 & Hk).
  fold (Sql.latest_forecast tbl city) in H0.
  assert (Sql.dt_forecast_time r0 = Sql.dt_forecast_time r) as Ht
    by (unfold Sql.weather_key in Hk; congruence).
  assert (Sql.w_dt_model_run_time r <= Sql.w_dt_model_run_time r0) as Hrun.
  { pose proof H0 as H0'. unfold Sql.latest_forecast in H0'.
    apply (qualify_first_max _ _ _ pair_eqb_eq) in H0'. destruct H0' as [_ Hmax].
    apply Hmax; [exact Hcand | now symmetry]. }
  destruct (forecast_sorted_stage tbl clk city) as [Hs Hnd]. cbv zeta in Hs, Hnd.
  unfold Sql.temperature_forecast_24h.
  set (S := Sql.order_by_asc _ _) in *.
  assert (In r0 S) as HS.
  { unfold S. apply In_order_by_asc, filter_In. split; [exact H0|].
    apply Z.leb_le. lia. }
  destruct (limit_or_left_out 24 S r0 HS) as [Hin|Hout].
  - left. exists (Sql.select_forecast r0). repeat split.
    + now apply in_map.
    + exact Ht.
    + exact Hrun.
  - right. split.
    + rewrite length_map. apply (limit_full 24 S r0 Hout).
    + apply Forall_map. cbn [Sql.select_forecast Sql.forecast_time].
      destruct (limit_sorted _ 24 S Hs) as [_ Hle].
      rewrite Forall_forall in *. intros a Ha.
      specialize (Hle a Ha). rewrite Forall_forall in Hle. specialize (Hle r0 Hout).
      cbn beta in Hle.
      assert (Sql.dt_forecast_time a <> Sql.dt_forecast_time r0) as Hne.
      { unfold Sql.limit in Ha.
        rewrite <- (firstn_skipn (Z.to_nat 24) S), map_app in Hnd.
        intros E. apply (NoDup_app_disjoint _ _ Hnd (Sql.dt_forecast_time a)).
        - now apply in_map.
        - rewrite E. now apply in_map. }
      lia.
Qed.

Lemma forecast_keeps_the_next_instants_witness :
  (exists out, In out (Sql.temperature_forecast_24h Sample.forecasts Sample.live_clock
                         "Ha Noi City")
               /\ Sql.forecast_time out = Sample.midnight + 3600
               /\ Sample.midnight - 7200 <= Sql.fo_model_run_time out)
  \/ (List.length (Sql.temperature_forecast_24h Sample.forecasts Sample.live_clock
                     "Ha Noi City") = 24%nat
      /\ Forall (fun out => Sql.forecast_time out < Sample.midnight + 3600)
           (Sql.temperature_forecast_24h Sample.forecasts Sample.live_clock "Ha Noi City")).
Proof.
  apply (forecast_keeps_the_next_instants Sample.forecasts Sample.live_clock "Ha Noi City"
           (Sample.forecast_row (Sample.midnight + 3600) 21 "Ha Noi City"
              (Sample.midnight - 7200))).
  - simpl. auto.
  - reflexivity.
  - vm_compute. discriminate.
Defined.


(** ** The rain statement *)

Lemma rain_sorted_stage (tbl : list Sql.lstm_rain_daily) (clk : Sql.clock) (city : string) :
  let S := Sql.order_by_asc Sql.dt_forecast_date (Sql.latest_rain tbl clk city) in
  StronglySorted (fun a b => Sql.dt_forecast_date a <= Sql.dt_forecast_date b) S
  /\ NoDup (map Sql.dt_forecast_date S).
Proof.
  cbv zeta. split; [apply order_by_asc_sorted|].
  eapply Permutation_NoDup.
  - apply Permutation_sym, Permutation_map, order_by_asc_perm.
  - apply latest_rain_dates.
Qed.

Lemma latest_rain_candidate (tbl : list Sql.lstm_rain_daily) (clk : Sql.clock)
    (city : string) (r : Sql.lstm_rain_daily) :
  In r (Sql.latest_rain tbl clk city) ->
  In r tbl /\ Sql.r_ds_location r = city
  /\ Sql.current_date clk <= Sql.vn_date (Sql.dt_forecast_date r)
  /\ forall r', In r' tbl -> Sql.rain_candidate clk city r' = true ->
                Sql.dt_forecast_date r' = Sql.dt_forecast_date r ->
                Sql.r_dt_model_run_time r' <= Sql.r_dt_model_run_time r.
Proof.
  unfold Sql.latest_rain. intros H.
  apply (qualify_first_max _ _ _ pair_eqb_eq) in H. destruct H as [Hin Hmax].
  apply filter_In in Hin. destruct Hin as [Hin Hc].
  pose proof Hc as Hc'. unfold Sql.rain_candidate in Hc'.
  apply andb_true_iff in Hc'. destruct Hc' as [Hcity Hdate].
  apply String.eqb_eq in Hcity. apply Z.leb_le in Hdate.
  repeat split; auto.
  intros r' Hr' Hc' Ht. apply Hmax.
  - apply filter_In. auto.
  - unfold Sql.rain_candidate in Hc'. apply andb_true_iff in Hc'.
    destruct Hc' as [Hcity' _]. apply String.eqb_eq in Hcity'.
    unfold Sql.rain_key. congruence.
Qed.

(** X3. The first row of the rain result, the one the gauge and the rain
    view read, is for the requested city and the earliest forecast date
    that is not before the current date on the Vietnam calendar, and it
    comes from the latest model run for that date; every other row of
    the result is for a later date. *)
Theorem rain_first_row_is_earliest_upcoming
    (tbl : list Sql.lstm_rain_daily) (clk : Sql.clock) (city : string)
    (out : Sql.rain_out) (rest : list Sql.rain_out) :
  Sql.rain_probability_today tbl clk city = out :: rest ->
  Sql.ro_location out = city
  /\ Sql.current_date clk <= Sql.vn_date (Sql.forecast_date out)
  /\ (forall r, In r tbl -> Sql.rain_candidate clk city r = true ->
        Sql.forecast_date out <= Sql.dt_forecast_date r
        /\ (Sql.dt_forecast_date r = Sql.forecast_date out ->
            Sql.r_dt_model_run_time r <= Sql.ro_model_run_time out))
  /\ Forall (fun o => Sql.forecast_date out < Sql.forecast_date o) rest.
Proof.
  unfold Sql.rain_probability_today. intros E.
  destruct (rain_sorted_stage tbl clk city) as [Hs Hnd]. cbv zeta in Hs, Hnd.
  assert (forall x, In x (Sql.order_by_asc Sql.dt_forecast_date (Sql.latest_rain tbl clk city))
                    <-> In x (Sql.latest_rain tbl clk city)) as HIn
    by (intros x; apply In_order_by_asc).
  set (S := Sql.order_by_asc _ _) in *.
  destruct S as [|r0 S'] eqn:ES; [discriminate E|].
  unfold Sql.limit in E. change (Z.to_nat 5) with 5%nat in E. cbn [firstn map] in E.
  injection E as Eout Erest. subst out rest.
  assert (In r0 (Sql.latest_rain tbl clk city)) as H0 by (apply HIn; now left).
  destruct (latest_rain_candidate _ _ _ _ H0) as (Hin0 & Hcity0 & Hdate0 & Hmax0).
  apply StronglySorted_inv in Hs. destruct Hs as [Hs Hle].
  cbn [map] in Hnd. apply NoDup_cons_iff in Hnd. destruct Hnd as [Hnin Hnd].
  cbn [Sql.select_rain Sql.ro_location Sql.forecast_date Sql.ro_model_run_time].
  split; [exact Hcity0|]. split; [exact Hdate0|]. split.
  - intros r Hr Hc. split; [|intros Ht; now apply Hmax0].
    assert (In r (filter (Sql.rain_candidate clk city) tbl)) as Hcand
      by (apply filter_In; auto).
    destruct (qualify_first_some Sql.rain_key Sql.pair_eqb Sql.r_dt_model_run_time
                pair_eqb_eq _ r Hcand) as (r1 & H1 & Hk).
    fold (Sql.latest_rain tbl clk city) in H1.
    assert (Sql.dt_forecast_date r1 = Sql.dt_forecast_date r) as Ht
      by (unfold Sql.rain_key in Hk; congruence).
    apply HIn in H1. destruct H1 as [<-|H1]; [lia|].
    rewrite Forall_forall in Hle. specialize (Hle r1 H1). cbn beta in Hle. lia.
  - apply Forall_map. cbn [Sql.select_rain Sql.forecast_date].
    rewrite Forall_forall in *. intros a Ha.
    assert (In a S') as Ha' by (rewrite <- (firstn_skipn 4 S'); apply in_or_app; left; exact Ha).
    specialize (Hle a Ha').
    assert (Sql.dt_forecast_date a <> Sql.dt_forecast_date r0)
      by (intros Eq; apply Hnin; rewrite <- Eq; now apply in_map).
    cbn beta in Hle. lia.
Qed.

Lemma rain_first_row_is_earliest_upcoming_witness :
  Sql.ro_location (Sql.select_rain
                     (Sample.rain_row Sample.midnight 0.75 1 "Ha Noi City"
                        (Sample.midnight - 3600))) = "Ha Noi City"
  /\ Sql.current_date Sample.live_clock
     <= Sql.vn_date (Sql.forecast_date
                       (Sql.select_rain
                          (Sample.rain_row Sample.midnight 0.75 1 "Ha Noi City"
                             (Sample.midnight - 3600))))
  /\ (forall r, In r Sample.rain_forecasts ->
        Sql.rain_candidate Sample.live_clock "Ha Noi City" r = true ->
        Sql.forecast_date
          (Sql.select_rain
             (Sample.rain_row Sample.midnight 0.75 1 "Ha Noi City" (Sample.midnight - 3600)))
        <= Sql.dt_forecast_date r
        /\ (Sql.dt_forecast_date r
            = Sql.forecast_date
                (Sql.select_rain
                   (Sample.rain_row Sample.midnight 0.75 1 "Ha Noi City"
                      (Sample.midnight - 3600))) ->
            Sql.r_dt_model_run_time r
            <= Sql.ro_model_run_time
                 (Sql.select_rain
                    (Sample.rain_row Sample.midnight 0.75 1 "Ha Noi City"
                       (Sample.midnight - 3600)))))
  /\ Forall (fun o => Sql.forecast_date
                        (Sql.select_rain
                           (Sample.rain_row Sample.midnight 0.75 1 "Ha Noi City"
                              (Sample.midnight - 3600)))
                      < Sql.forecast_date o)
       [Sql.select_rain
          (Sample.rain_row (Sample.midnight + 86400) 0.5 1 "Ha Noi City"
             (Sample.midnight - 3600))].
Proof.
  apply (rain_first_row_is_earliest_upcoming Sample.rain_forecasts Sample.live_clock
           "Ha Noi City").
  vm_compute. reflexivity.
Defined.

(** ** When a statement comes back empty *)

Lemma limit_nil {R : Type} (n : Z) (l : list R) :
  0 < n -> (Sql.limit n l = [] <-> l = []).
Proof.
  unfold Sql.limit. intros Hn. destruct l as [|x l]; [now rewrite firstn_nil|].
  destruct (Z.to_nat n) eqn:E; [lia|]. cbn. split; discriminate.
Qed.

Lemma order_by_asc_nil {R : Type} (k : R -> Z) (l : list R) :
  Sql.order_by_asc k l = [] <-> l = [].
Proof.
  split; intros H.
  - apply Permutation_nil. rewrite <- H. apply order_by_asc_perm.
  - subst. reflexivity.
Qed.

Lemma order_by_desc_nil {R : Type} (k : R -> Z) (l : list R) :
  Sql.order_by_desc k l = [] <-> l = [].
Proof.
  split; intros H.
  - apply Permutation_nil. rewrite <- H. apply order_by_desc_perm.
  - subst. reflexivity.
Qed.

Lemma nil_iff_no_element {A : Type} (l : list A) : l = [] <-> forall x, ~ In x l.
Proof.
  split.
  - intros -> x [].
  - destruct l as [|a l]; [reflexivity|]. intros H. destruct (H a). now left.
Qed.

Lemma map_nil {A B : Type} (f : A -> B) (l : list A) : map f l = [] <-> l = [].
Proof. destruct l; cbn; split; congruence. Qed.

(** X4. Each forecast statement comes back with no row, so that the page
    shows its no-data message, exactly when the table offers nothing to
    show: for the 24h forecast, no forecast of the city for an instant
    not yet past; for the rain probability, no forecast of the city dated
    today or later; for the comparison, sent with a positive limit, no
    forecast of the city with an observation of the same instant and
    city. Deduplication and ordering never empty a result. *)
Theorem forecast_statements_empty_exactly_when_nothing_matches
    (wh : Sql.warehouse) (clk : Sql.clock) (city : string) (lim : Z) :
  0 < lim ->
  (Sql.temperature_forecast_24h (Sql.t_lstm_weather_24h wh) clk city = []
   <-> forall r, In r (Sql.t_lstm_weather_24h wh) -> Sql.w_ds_location r = city ->
                 Sql.dt_forecast_time r < Sql.current_timestamp clk)
  /\ (Sql.rain_probability_today (Sql.t_lstm_rain_daily wh) clk city = []
      <-> forall r, In r (Sql.t_lstm_rain_daily wh) -> Sql.r_ds_location r = city ->
                    Sql.vn_date (Sql.dt_forecast_date r) < Sql.current_date clk)
  /\ (Sql.temperature_comparison (Sql.t_lstm_weather_24h wh)
        (Sql.t_fact_vn_weather_hourly wh) city lim = []
      <-> forall f o, In f (Sql.t_lstm_weather_24h wh) ->
                      In o (Sql.t_fact_vn_weather_hourly wh) ->
                      Sql.w_ds_location f = city -> Sql.h_ds_location o = city ->
                      Sql.dt_forecast_time f <> Sql.dt_date_record o).
Proof.
  intros Hlim. destruct wh as [tw tr th]. cbn [Sql.t_lstm_weather_24h Sql.t_lstm_rain_daily
    Sql.t_fact_vn_weather_hourly]. repeat split.
  - unfold Sql.temperature_forecast_24h.
    rewrite map_nil, limit_nil, order_by_asc_nil, nil_iff_no_element by lia.
    intros H r Hr Hcity.
    destruct (Z.ltb_spec (Sql.dt_forecast_time r) (Sql.current_timestamp clk)) as [|Hge];
      [assumption|]. exfalso.
    assert (In r (filter (fun r => String.eqb (Sql.w_ds_location r) city) tw)) as Hcand
      by (apply filter_In; split; [exact Hr | now apply String.eqb_eq]).
    destruct (qualify_first_some Sql.weather_key Sql.pair_eqb Sql.w_dt_model_run_time
                pair_eqb_eq _ r Hcand) as (r0 & H0 & Hk).
    apply (H r0). apply filter_In. split; [exact H0|].
    apply Z.leb_le. unfold Sql.weather_key in Hk.
    assert (Sql.dt_forecast_time r0 = Sql.dt_forecast_time r) by congruence. lia.
  - unfold Sql.temperature_forecast_24h.
    rewrite map_nil, limit_nil, order_by_asc_nil, nil_iff_no_element by lia.
    intros H r0 H0. apply filter_In in H0. destruct H0 as [H0 Hts].
    apply Z.leb_le in Hts. unfold Sql.latest_forecast in H0.
    apply (qualify_first_max _ _ _ pair_eqb_eq) in H0. destruct H0 as [H0 _].
    apply filter_In in H0. destruct H0 as [H0 Hcity]. apply String.eqb_eq in Hcity.
    specialize (H r0 H0 Hcity). lia.
  - unfold Sql.rain_probability_today.
    rewrite map_nil, limit_nil, order_by_asc_nil, nil_iff_no_element by lia.
    intros H r Hr Hcity.
    destruct (Z.ltb_spec (Sql.vn_date (Sql.dt_forecast_date r)) (Sql.current_date clk))
      as [|Hge]; [assumption|]. exfalso.
    assert (In r (filter (Sql.rain_candidate clk city) tr)) as Hcand.
    { apply filter_In. split; [exact Hr|]. unfold Sql.rain_candidate.
      apply andb_true_iff. split; [now apply String.eqb_eq | now apply Z.leb_le]. }
    destruct (qualify_first_some Sql.rain_key Sql.pair_eqb Sql.r_dt_model_run_time
                pair_eqb_eq _ r Hcand) as (r0 & H0 & Hk).
    exact (H r0 H0).
  - unfold Sql.rain_probability_today.
    rewrite map_nil, limit_nil, order_by_asc_nil, nil_iff_no_element by lia.
    intros H r0 H0. apply latest_rain_candidate in H0.
    destruct H0 as (H0 & Hcity & Hdate & _). specialize (H r0 H0 Hcity). lia.
  - unfold Sql.temperature_comparison.
    rewrite limit_nil, order_by_desc_nil, nil_iff_no_element by lia.
    intros H f o Hf Ho Hcf Hco Heq.
    assert (In f (filter (fun r => String.eqb (Sql.w_ds_location r) city) tw)) as Hcand
      by (apply filter_In; split; [exact Hf | now apply String.eqb_eq]).
    destruct (qualify_first_some Sql.weather_key Sql.pair_eqb Sql.w_dt_model_run_time
                pair_eqb_eq _ f Hcand) as (f0 & H0 & Hk).
    fold (Sql.latest_forecast tw city) in H0.
    unfold Sql.weather_key in Hk.
    assert (Sql.dt_forecast_time f0 = Sql.dt_forecast_time f) as Ht by congruence.
    assert (Sql.w_ds_location f0 = Sql.w_ds_location f) as Hl by congruence.
    apply (H {| Sql.date := Sql.dt_forecast_time f0;
                Sql.co_predicted_temperature := Sql.nr_predicted_temperature f0;
                Sql.actual_temperature := Sql.nr_temperature_2m o;
                Sql.co_location := Sql.h_ds_location o |}).
    unfold Sql.join_hourly. apply in_flat_map. exists f0. split; [exact H0|].
    apply in_map_iff. exists o. split; [reflexivity|].
    apply filter_In. split; [exact Ho|].
    rewrite !andb_true_iff, Z.eqb_eq, !String.eqb_eq. repeat split; congruence.
  - unfold Sql.temperature_comparison.
    rewrite limit_nil, order_by_desc_nil, nil_iff_no_element by lia.
    intros H out Hout. unfold Sql.join_hourly in Hout.
    apply in_flat_map in Hout. destruct Hout as (f & Hf & Hout).
    apply in_map_iff in Hout. destruct Hout as (o & _ & Ho).
    apply filter_In in Ho. destruct Ho as [Ho Hm].
    rewrite !andb_true_iff, Z.eqb_eq, !String.eqb_eq in Hm.
    destruct Hm as [[Ht Hl] Hc].
    unfold Sql.latest_lstm, Sql.latest_forecast in Hf.
    apply (qualify_first_max _ _ _ pair_eqb_eq) in Hf. destruct Hf as [Hf _].
    apply filter_In in Hf. destruct Hf as [Hf Hcf]. apply String.eqb_eq in Hcf.
    exact (H f o Hf Ho Hcf Hc Ht).
Qed.

Lemma forecast_statements_empty_exactly_when_nothing_matches_witness :
  (Sql.temperature_forecast_24h (Sql.t_lstm_weather_24h Sample.warehouse) Sample.clock
     "Ha Noi City" = []
   <-> forall r, In r (Sql.t_lstm_weather_24h Sample.warehouse) ->
                 Sql.w_ds_location r = "Ha Noi City" ->
                 Sql.dt_forecast_time r < Sql.current_timestamp Sample.clock)
  /\ (Sql.rain_probability_today (Sql.t_lstm_rain_daily Sample.warehouse) Sample.clock
        "Ha Noi City" = []
      <-> forall r, In r (Sql.t_lstm_rain_daily Sample.warehouse) ->
                    Sql.r_ds_location r = "Ha Noi City" ->
                    Sql.vn_date (Sql.dt_forecast_date r) < Sql.current_date Sample.clock)
  /\ (Sql.temperature_comparison (Sql.t_lstm_weather_24h Sample.warehouse)
        (Sql.t_fact_vn_weather_hourly Sample.warehouse) "Ha Noi City" 72 = []
      <-> forall f o, In f (Sql.t_lstm_weather_24h Sample.warehouse) ->
                      In o (Sql.t_fact_vn_weather_hourly Sample.warehouse) ->
                      Sql.w_ds_location f = "Ha Noi City" ->
                      Sql.h_ds_location o = "Ha Noi City" ->
                      Sql.dt_forecast_time f <> Sql.dt_date_record o).
Proof.
  apply (forecast_statements_empty_exactly_when_nothing_matches Sample.warehouse
           Sample.clock "Ha Noi City" 72).
  lia.
Defined.


(** ** The comparison statement *)

Lemma filter_at_most_one {A B : Type} (g : A -> B) (p : A -> bool) (c : B) (l : list A) :
  NoDup (map g l) -> (forall x, In x l -> p x = true -> g x = c) ->
  (List.length (filter p l) <= 1)%nat.
Proof.
  induction l as [|x l IH]; cbn; intros Hnd Hp; [lia|].
  apply NoDup_cons_iff in Hnd. destruct Hnd as [Hnin Hnd].
  destruct (p x) eqn:E; [|apply IH; auto].
  assert (filter p l = []) as ->; [|cbn; lia].
  apply filter_all_false. intros y Hy. destruct (p y) eqn:Ey; [|reflexivity].
  exfalso. apply Hnin. rewrite (Hp x (or_introl eq_refl) E), <- (Hp y (or_intror Hy) Ey).
  now apply in_map.
Qed.

(** With one observation for an instant and a city, the join holds each
    forecast instant once. *)
Lemma join_hourly_dates (city : string) (l : list Sql.lstm_weather_24h)
    (w : list Sql.fact_vn_weather_hourly) :
  NoDup (map Sql.dt_forecast_time l) ->
  NoDup (map (fun o => (Sql.dt_date_record o, Sql.h_ds_location o)) w) ->
  NoDup (map Sql.date (Sql.join_hourly city l w)).
Proof.
  intros Hl Hw. induction l as [|f l IH]; cbn; [constructor|].
  cbn [map] in Hl. apply NoDup_cons_iff in Hl. destruct Hl as [Hnin Hl].
  rewrite map_app, map_map. cbn [Sql.date].
  apply NoDup_app.
  - set (m := fun o => _ && _ && _).
    assert (List.length (filter m w) <= 1)%nat as Hlen.
    { apply (filter_at_most_one (fun o => (Sql.dt_date_record o, Sql.h_ds_location o)) m
               (Sql.dt_forecast_time f, Sql.w_ds_location f)); [exact Hw|].
      intros o _ Ho. unfold m in Ho.
      rewrite !andb_true_iff, Z.eqb_eq, !String.eqb_eq in Ho.
      destruct Ho as [[-> ->] _]. reflexivity. }
    destruct (filter m w) as [|o [|o' r]]; cbn in *; [constructor| |lia].
    constructor; [intros []|constructor].
  - now apply IH.
  - intros t Ht Ht'. apply Hnin.
    apply in_map_iff in Ht. destruct Ht as (o & <- & _).
    apply in_map_iff in Ht'. destruct Ht' as (out & E & Hout).
    unfold Sql.join_hourly in Hout. apply in_flat_map in Hout.
    destruct Hout as (f' & Hf' & Hout). apply in_map_iff in Hout.
    destruct Hout as (o' & <- & _). cbn in E. rewrite <- E. now apply in_map.
Qed.

(** X5. For a limit that is not negative, the rows of the comparison
    result come latest instant first and are no more than the limit; each
    pairs, for the requested city, the prediction of the latest model run
    for an instant with an observation of that same instant; and when the
    observations hold one row for an instant and a city, no instant comes
    twice. *)
Theorem comparison_rows_latest_first
    (tbl : list Sql.lstm_weather_24h) (hourly : list Sql.fact_vn_weather_hourly)
    (city : string) (lim : Z) :
  0 <= lim ->
  StronglySorted (fun a b => Sql.date b <= Sql.date a)
    (Sql.temperature_comparison tbl hourly city lim)
  /\ Z.of_nat (List.length (Sql.temperature_comparison tbl hourly city lim)) <= lim
  /\ Forall (fun out =>
               Sql.co_location out = city
               /\ exists f o,
                    In f tbl /\ In o hourly
                    /\ Sql.w_ds_location f = city /\ Sql.h_ds_location o = city
                    /\ Sql.dt_forecast_time f = Sql.date out
                    /\ Sql.dt_date_record o = Sql.date out
                    /\ Sql.co_predicted_temperature out = Sql.nr_predicted_temperature f
                    /\ Sql.actual_temperature out = Sql.nr_temperature_2m o
                    /\ forall r', In r' tbl -> Sql.weather_key r' = Sql.weather_key f ->
                                  Sql.w_dt_model_run_time r' <= Sql.w_dt_model_run_time f)
       (Sql.temperature_comparison tbl hourly city lim)
  /\ (NoDup (map (fun o => (Sql.dt_date_record o, Sql.h_ds_location o)) hourly) ->
      StronglySorted (fun a b => Sql.date b < Sql.date a)
        (Sql.temperature_comparison tbl hourly city lim)).
Proof.
  intros Hlim.
  assert (StronglySorted (fun a b => Sql.date b <= Sql.date a)
            (Sql.temperature_comparison tbl hourly city lim)) as Hsorted.
  { unfold Sql.temperature_comparison. apply limit_sorted. apply order_by_desc_sorted. }
  split; [exact Hsorted|]. split; [|split].
  - unfold Sql.temperature_comparison.
    pose proof (length_limit lim
                  (Sql.order_by_desc Sql.date
                     (Sql.join_hourly city (Sql.latest_lstm tbl city) hourly))). lia.
  - apply Forall_forall. intros out Hout.
    unfold Sql.temperature_comparison, Sql.join_hourly in Hout.
    apply In_limit, In_order_by_desc, in_flat_map in Hout.
    destruct Hout as (f & Hf & Hout). apply in_map_iff in Hout.
    destruct Hout as (o & <- & Ho). apply filter_In in Ho. destruct Ho as [Ho Hm].
    rewrite !andb_true_iff, Z.eqb_eq, !String.eqb_eq in Hm.
    destruct Hm as [[Ht Hl] Hco].
    unfold Sql.latest_lstm, Sql.latest_forecast in Hf.
    apply (qualify_first_max _ _ _ pair_eqb_eq) in Hf. destruct Hf as [Hf Hmax].
    apply filter_In in Hf. destruct Hf as [Hf Hcf]. apply String.eqb_eq in Hcf.
    cbn [Sql.co_location Sql.date Sql.co_predicted_temperature Sql.actual_temperature].
    split; [exact Hco|]. exists f, o. repeat split; auto.
    intros r' Hr' Hk. apply Hmax; [|exact Hk].
    apply filter_In. split; [exact Hr'|].
    unfold Sql.weather_key in Hk. apply String.eqb_eq. congruence.
  - intros Hnd. apply sorted_NoDup_strict_desc; [exact Hsorted|].
    unfold Sql.temperature_comparison. rewrite <- limit_map. apply limit_NoDup.
    eapply Permutation_NoDup.
    + apply Permutation_sym, Permutation_map, order_by_desc_perm.
    + apply join_hourly_dates; [|exact Hnd]. apply latest_forecast_instants.
Qed.

Lemma comparison_rows_latest_first_witness :
  StronglySorted (fun a b => Sql.date b <= Sql.date a)
    (Sql.temperature_comparison Sample.forecasts Sample.observations "Ha Noi City" 72)
  /\ Z.of_nat (List.length (Sql.temperature_comparison Sample.forecasts Sample.observations
                              "Ha Noi City" 72)) <= 72
  /\ Forall (fun out =>
               Sql.co_location out = "Ha Noi City"
               /\ exists f o,
                    In f Sample.forecasts /\ In o Sample.observations
                    /\ Sql.w_ds_location f = "Ha Noi City"
                    /\ Sql.h_ds_location o = "Ha Noi City"
                    /\ Sql.dt_forecast_time f = Sql.date out
                    /\ Sql.dt_date_record o = Sql.date out
                    /\ Sql.co_predicted_temperature out = Sql.nr_predicted_temperature f
                    /\ Sql.actual_temperature out = Sql.nr_temperature_2m o
                    /\ forall r', In r' Sample.forecasts ->
                                  Sql.weather_key r' = Sql.weather_key f ->
                                  Sql.w_dt_model_run_time r' <= Sql.w_dt_model_run_time f)
       (Sql.temperature_comparison Sample.forecasts Sample.observations "Ha Noi City" 72)
  /\ (NoDup (map (fun o => (Sql.dt_date_record o, Sql.h_ds_location o))
               Sample.observations) ->
      StronglySorted (fun a b => Sql.date b < Sql.date a)
        (Sql.temperature_comparison Sample.forecasts Sample.observations "Ha Noi City" 72)).
Proof.
  apply (comparison_rows_latest_first Sample.forecasts Sample.observations "Ha Noi City" 72).
  lia.
Defined.

(** ** The daily and hourly statements *)

Section RecentFacts.
Context {R : Type}.
Variable date : R -> Z.
Variable location : R -> string.

Lemma recent_rows (tbl : list R) (city : string) (n : Z) :
  List.length (Sql.recent date location tbl city n)
  = Nat.min (Z.to_nat n)
      (List.length (filter (fun r => String.eqb (location r) city) tbl))
  /\ StronglySorted (fun a b => date b <= date a) (Sql.recent date location tbl city n)
  /\ Forall (fun r => In r tbl /\ location r = city) (Sql.recent date location tbl city n)
  /\ forall r, In r tbl -> location r = city ->
       In r (Sql.recent date location tbl city n)
       \/ (List.length (Sql.recent date location tbl city n) = Z.to_nat n
           /\ Forall (fun x => date r <= date x) (Sql.recent date location tbl city n)).
Proof.
  unfold Sql.recent.
  set (F := filter (fun r => String.eqb (location r) city) tbl).
  pose proof (order_by_desc_sorted date F) as Hs.
  pose proof (order_by_desc_perm date F) as Hp.
  set (S := Sql.order_by_desc date F) in *.
  repeat split.
  - unfold Sql.limit. rewrite length_firstn. now rewrite (Permutation_length Hp).
  - now apply limit_sorted.
  - apply Forall_forall. intros r Hr. apply In_limit in Hr.
    apply (Permutation_in _ Hp) in Hr. apply filter_In in Hr.
    rewrite String.eqb_eq in Hr. exact Hr.
  - intros r Hr Hc.
    assert (In r S) as HS.
    { apply (Permutation_in _ (Permutation_sym Hp)). apply filter_In.
      split; [exact Hr | now apply String.eqb_eq]. }
    destruct (limit_or_left_out n S r HS) as [Hin|Hout]; [now left|right].
    split; [apply (limit_full n S r Hout)|].
    destruct (limit_sorted _ n S Hs) as [_ Hle].
    eapply Forall_impl; [|exact Hle]. cbn beta. intros a Ha.
    rewrite Forall_forall in Ha. now apply Ha.
Qed.
End RecentFacts.

(** X6. The daily statement returns the 30 most recent records of the
    requested city, or all of them when there are fewer, most recent
    first: a record of the city that is left out is no more recent than
    any of the 30 returned. *)
Theorem daily_rows_are_the_30_latest
    (tbl : list Sql.fact_vn_weather_daily) (city : string) :
  List.length (Sql.daily_weather tbl city)
  = Nat.min 30
      (List.length (filter (fun r => String.eqb (Sql.d_ds_location r) city) tbl))
  /\ StronglySorted (fun a b => Sql.d_dt_date_record b <= Sql.d_dt_date_record a)
       (Sql.daily_weather tbl city)
  /\ Forall (fun r => In r tbl /\ Sql.d_ds_location r = city) (Sql.daily_weather tbl city)
  /\ forall r, In r tbl -> Sql.d_ds_location r = city ->
       In r (Sql.daily_weather tbl city)
       \/ (List.length (Sql.daily_weather tbl city) = 30%nat
           /\ Forall (fun x => Sql.d_dt_date_record r <= Sql.d_dt_date_record x)
                (Sql.daily_weather tbl city)).
Proof.
  exact (recent_rows Sql.d_dt_date_record Sql.d_ds_location tbl city 30).
Qed.

(** X7. For a day window that is not negative, the hourly statement
    returns the [days * 24] most recent records of the requested city, or
    all of them when there are fewer, most recent first: a record of the
    city that is left out is no more recent than any of those returned. *)
Theorem hourly_rows_are_the_latest_of_the_window
    (tbl : list Sql.fact_vn_weather_hourly) (city : string) (days : Z) :
  0 <= days ->
  Z.of_nat (List.length (Sql.hourly_weather tbl city (days * 24)))
  = Z.min (days * 24)
      (Z.of_nat (List.length (filter (fun r => String.eqb (Sql.h_ds_location r) city) tbl)))
  /\ StronglySorted (fun a b => Sql.dt_date_record b <= Sql.dt_date_record a)
       (Sql.hourly_weather tbl city (days * 24))
  /\ Forall (fun r => In r tbl /\ Sql.h_ds_location r = city)
       (Sql.hourly_weather tbl city (days * 24))
  /\ forall r, In r tbl -> Sql.h_ds_location r = city ->
       In r (Sql.hourly_weather tbl city (days * 24))
       \/ (Z.of_nat (List.length (Sql.hourly_weather tbl city (days * 24))) = days * 24
           /\ Forall (fun x => Sql.dt_date_record r <= Sql.dt_date_record x)
                (Sql.hourly_weather tbl city (days * 24))).
Proof.
  intros Hd.
  destruct (recent_rows Sql.dt_date_record Sql.h_ds_location tbl city (days * 24))
    as (Hlen & Hs & Hall & Hrest).
  fold (Sql.hourly_weather tbl city (days * 24)) in Hlen, Hs, Hall, Hrest.
  repeat split; auto.
  - rewrite Hlen. lia.
  - intros r Hr Hc. destruct (Hrest r Hr Hc) as [H|[H1 H2]]; [now left|right].
    split; [rewrite H1; lia | exact H2].
Qed.

Lemma hourly_rows_are_the_latest_of_the_window_witness :
  Z.of_nat (List.length (Sql.hourly_weather Sample.observations "Ha Noi City" (1 * 24)))
  = Z.min (1 * 24)
      (Z.of_nat (List.length
                   (filter (fun r => String.eqb (Sql.h_ds_location r) "Ha Noi City")
                      Sample.observations)))
  /\ StronglySorted (fun a b => Sql.dt_date_record b <= Sql.dt_date_record a)
       (Sql.hourly_weather Sample.observations "Ha Noi City" (1 * 24))
  /\ Forall (fun r => In r Sample.observations /\ Sql.h_ds_location r = "Ha Noi City")
       (Sql.hourly_weather Sample.observations "Ha Noi City" (1 * 24))
  /\ forall r, In r Sample.observations -> Sql.h_ds_location r = "Ha Noi City" ->
       In r (Sql.hourly_weather Sample.observations "Ha Noi City" (1 * 24))
       \/ (Z.of_nat (List.length (Sql.hourly_weather Sample.observations "Ha Noi City"
                                    (1 * 24))) = 1 * 24
           /\ Forall (fun x => Sql.dt_date_record r <= Sql.dt_date_record x)
                (Sql.hourly_weather Sample.observations "Ha Noi City" (1 * 24))).
Proof.
  apply (hourly_rows_are_the_latest_of_the_window Sample.observations "Ha Noi City" 1).
  lia.
Defined.


(** ** The charts *)

Lemma contains_lookup (c : string) (df : Pandas.DataFrame) :
  Pandas.contains c df = match Pandas.lookup c (Pandas.data df) with
                         | Some _ => true
                         | None => false
                         end.
Proof.
  unfold Pandas.contains, Pandas.columns. induction (Pandas.data df) as [|[c' s] d IH];
    cbn; [reflexivity|].
  rewrite (String.eqb_sym c c'). destruct (String.eqb c' c); cbn; [reflexivity | exact IH].
Qed.

Lemma getitem_absent (c : string) (df : Pandas.DataFrame) :
  Pandas.contains c df = false -> Pandas.getitem df c = Raise (KeyError c).
Proof.
  rewrite contains_lookup. unfold Pandas.getitem.
  destruct (Pandas.lookup c (Pandas.data df)); [discriminate | reflexivity].
Qed.

Lemma getitem_present (c : string) (df : Pandas.DataFrame) (s : Pandas.series) :
  Pandas.getitem df c = Ok s -> Pandas.contains c df = true.
Proof.
  rewrite contains_lookup. unfold Pandas.getitem.
  destruct (Pandas.lookup c (Pandas.data df)); [reflexivity | discriminate].
Qed.

(** X8. The forecast chart has no working fallback for its x axis: on a
    result that has rows and no [forecast_time] column it raises
    [KeyError: 'forecast_time'] and draws nothing, the fallback axis being
    the very column that was found missing. *)
Theorem forecast_chart_fallback_axis_raises (strptime : string -> option Z)
    (df : Pandas.DataFrame) :
  Pandas.empty df = false ->
  Pandas.contains "forecast_time" df = false ->
  App.create_temperature_forecast_chart strptime df
  = (Raise (KeyError "forecast_time"), []).
Proof.
  intros He Hc. unfold App.create_temperature_forecast_chart.
  rewrite He, Hc. cbn [Streamlit.bind Streamlit.ret].
  unfold Streamlit.eval. rewrite (getitem_absent _ _ Hc). reflexivity.
Qed.

Lemma forecast_chart_fallback_axis_raises_witness :
  App.create_temperature_forecast_chart Sample.no_strptime Sample.comparison_frame
  = (Raise (KeyError "forecast_time"), []).
Proof.
  apply (forecast_chart_fallback_axis_raises Sample.no_strptime Sample.comparison_frame);
    reflexivity.
Defined.

(** X9. Nor has the comparison chart: on a result that has rows and a
    [predicted_temperature] column but no [date] column, the x axis falls
    back on [df[df.index]], a selection of columns by row labels, which
    raises [KeyError]; nothing is drawn. *)
Theorem comparison_chart_without_date_raises (strptime : string -> option Z)
    (df : Pandas.DataFrame) :
  Pandas.empty df = false ->
  Pandas.contains "predicted_temperature" df = true ->
  Pandas.contains "date" df = false ->
  App.create_comparison_chart strptime df
  = (Raise (KeyError "None of [RangeIndex] are in the [columns]"), []).
Proof.
  intros He Hp Hd. unfold App.create_comparison_chart.
  rewrite He, Hp, Hd. reflexivity.
Qed.

Lemma comparison_chart_without_date_raises_witness :
  App.create_comparison_chart Sample.no_strptime Sample.undated_comparison_frame
  = (Raise (KeyError "None of [RangeIndex] are in the [columns]"), []).
Proof.
  apply (comparison_chart_without_date_raises Sample.no_strptime
           Sample.undated_comparison_frame); reflexivity.
Defined.

Lemma to_vietnam_time_datetime strptime (df : Pandas.DataFrame) (c c_vn : string)
    (tz : option Pandas.tzinfo) (ts : list (option Z)) :
  c <> c_vn ->
  Pandas.getitem df c = Ok (Pandas.Datetime64 tz ts) ->
  exists df',
    App.to_vietnam_time strptime df c c_vn = Ok df'
    /\ Pandas.index df' = Pandas.index df
    /\ Pandas.getitem df' c_vn = Ok (Pandas.Datetime64 (Some Pandas.Asia_Ho_Chi_Minh) ts)
    /\ forall c', c' <> c -> c' <> c_vn -> Pandas.getitem df' c' = Pandas.getitem df c'.
Proof.
  intros Hne Hc. destruct tz as [tz|].
  - unfold App.to_vietnam_time. rewrite Hc.
    cbn [Pandas.is_datetime64_any_dtype negb obind]. rewrite Hc.
    change (Pandas.timezone Config.VIETNAM_TZ) with (Ok Pandas.Asia_Ho_Chi_Minh).
    cbn [obind Pandas.dt_tz]. rewrite Hc. cbn [obind Pandas.tz_convert].
    eexists. split; [reflexivity|]. split; [reflexivity|]. split.
    + apply getitem_setitem_same.
    + intros c' _ H. now rewrite getitem_setitem_other.
  - unfold App.to_vietnam_time. rewrite Hc.
    cbn [Pandas.is_datetime64_any_dtype negb obind]. rewrite Hc.
    change (Pandas.timezone "UTC") with (Ok Pandas.UTC).
    change (Pandas.timezone Config.VIETNAM_TZ) with (Ok Pandas.Asia_Ho_Chi_Minh).
    cbn [obind Pandas.dt_tz Pandas.tz_localize Pandas.utcoffset].
    rewrite getitem_setitem_same. cbn [obind Pandas.tz_convert].
    assert (map (option_map (fun w : Z => w - 0)) ts = ts) as Hts.
    { clear. induction ts as [|[t|] ts IH]; cbn; try rewrite IH; try reflexivity.
      now rewrite Z.sub_0_r. }
    rewrite Hts.
    eexists. split; [reflexivity|]. split; [reflexivity|]. split.
    + apply getitem_setitem_same.
    + intros c' H1 H2. rewrite !getitem_setitem_other by assumption. reflexivity.
Qed.

(** X10. On a result with rows, a [datetime64] column [date] and a
    column [predicted_temperature], the comparison chart is one figure:
    the predicted series and, only if the result has an
    [actual_temperature] column, the actual series after it, both over
    the same x axis, the instants of [date] in the Vietnam zone. *)
Theorem comparison_chart_traces (strptime : string -> option Z)
    (df : Pandas.DataFrame) (tz : option Pandas.tzinfo) (ts : list (option Z))
    (p : Pandas.series) :
  Pandas.empty df = false ->
  Pandas.getitem df "date" = Ok (Pandas.Datetime64 tz ts) ->
  Pandas.getitem df "predicted_temperature" = Ok p ->
  App.create_comparison_chart strptime df
  = (Ok tt,
     [ Streamlit.plotly_chart
         (Streamlit.ScatterFigure "📊 So Sánh Nhiệt Độ Dự Đoán vs Thực Tế"
            "Thời Gian" "Nhiệt Độ (°C)"
            ({| Streamlit.sc_x := Pandas.Datetime64 (Some Pandas.Asia_Ho_Chi_Minh) ts;
                Streamlit.sc_y := p;
                Streamlit.sc_name := "Nhiệt Độ Dự Đoán" |}
             :: match Pandas.lookup "actual_temperature" (Pandas.data df) with
                | Some a =>
                    [ {| Streamlit.sc_x :=
                           Pandas.Datetime64 (Some Pandas.Asia_Ho_Chi_Minh) ts;
                         Streamlit.sc_y := a;
                         Streamlit.sc_name := "Nhiệt Độ Thực Tế" |} ]
                | None => []
                end)) ]).
Proof.
  intros He Hd Hp. unfold App.create_comparison_chart.
  rewrite He, (getitem_present _ _ _ Hp), (getitem_present _ _ _ Hd).
  cbn [negb orb]. unfold Pandas.copy.
  destruct (to_vietnam_time_datetime strptime df "date" "date_vn" tz ts)
    as (df' & E & Hidx & Hvn & Hother); [discriminate | exact Hd |].
  rewrite E. cbn [Streamlit.eval Streamlit.bind Streamlit.ret app]. rewrite Hvn.
  cbn [Streamlit.eval Streamlit.bind Streamlit.ret app].
  assert (Pandas.getitem df' "predicted_temperature" = Ok p) as Hp'
    by (rewrite Hother; [exact Hp | discriminate | discriminate]).
  rewrite Hp'. cbn [Streamlit.eval Streamlit.bind Streamlit.ret app].
  assert (Pandas.getitem df' "actual_temperature" = Pandas.getitem df "actual_temperature")
    as Ha by (apply Hother; discriminate).
  rewrite contains_lookup.
  unfold Pandas.getitem in Ha.
  destruct (Pandas.lookup "actual_temperature" (Pandas.data df')) as [a'|] eqn:Ea',
           (Pandas.lookup "actual_temperature" (Pandas.data df)) as [a|] eqn:Ea;
    try discriminate Ha.
  - injection Ha as ->. unfold Pandas.getitem. rewrite Ea'. reflexivity.
  - reflexivity.
Qed.

Lemma comparison_chart_traces_witness :
  App.create_comparison_chart Sample.no_strptime Sample.comparison_frame
  = (Ok tt,
     [ Streamlit.plotly_chart
         (Streamlit.ScatterFigure "📊 So Sánh Nhiệt Độ Dự Đoán vs Thực Tế"
            "Thời Gian" "Nhiệt Độ (°C)"
            ({| Streamlit.sc_x :=
                  Pandas.Datetime64 (Some Pandas.Asia_Ho_Chi_Minh) [Some 3600; Some 0];
                Streamlit.sc_y := Pandas.Float64 [20%float; 25%float];
                Streamlit.sc_name := "Nhiệt Độ Dự Đoán" |}
             :: match Pandas.lookup "actual_temperature"
                        (Pandas.data Sample.comparison_frame) with
                | Some a =>
                    [ {| Streamlit.sc_x :=
                           Pandas.Datetime64 (Some Pandas.Asia_Ho_Chi_Minh)
                             [Some 3600; Some 0];
                         Streamlit.sc_y := a;
                         Streamlit.sc_name := "Nhiệt Độ Thực Tế" |} ]
                | None => []
                end)) ]).
Proof.
  apply (comparison_chart_traces Sample.no_strptime Sample.comparison_frame
           (Some Pandas.UTC) [Some 3600; Some 0]); reflexivity.
Defined.


(** ** The outer exception handler *)

(** X11. [main] never raises: whatever the inputs, the warehouse (a
    statement may fail) and the memo store, the script run ends normally;
    and when the branch of the chosen view raises [e], what the run has
    rendered is the title and sidebar, then what the view had rendered up
    to the exception, then the error message naming [e] and the
    exception box, in that order. *)
Theorem main_reports_every_exception (strptime : string -> option Z)
    (wh : App.warehouse) (now : Z) (inp : App.inputs) (store : App.cache) :
  App.result (App.main strptime wh now inp store) = Ok tt
  /\ forall (e : exn) (store' : App.cache) (tr : list App.event),
       App.view strptime wh now (App.selected_city inp)
         (Config.get Config.CITIES (App.selected_city inp) (App.selected_city inp))
         (App.data_type inp)
         (if App.is_in (App.data_type inp) [App.DAILY; App.HOURLY; App.COMPARISON]
          then App.slider_days inp else 7)
         store
       = (Raise e, store', tr) ->
       App.rendered (App.trace (App.main strptime wh now inp store))
       = Spec.preamble (App.data_type inp) ++ App.rendered tr
         ++ [ Streamlit.error [Lit "❌ Có lỗi xảy ra: "; StrExn e];
              Streamlit.exception e ].
Proof.
  unfold App.main, Spec.preamble.
  destruct (App.is_in (App.data_type inp) [App.DAILY; App.HOURLY; App.COMPARISON]);
    unfold App.mbind, App.render, App.mret, App.mtry_except, Streamlit.st;
    cbn [fst snd map app];
    destruct (App.view strptime wh now (App.selected_city inp)
                (Config.get Config.CITIES (App.selected_city inp) (App.selected_city inp))
                (App.data_type inp) _ store) as [[[[]|e0] s0] t0];
    (split; [reflexivity|]); intros e store' tr E; inversion E; subst;
    unfold App.trace; cbn [snd app];
    repeat (rewrite ?rendered_app; cbn [App.rendered flat_map app]);
    rewrite ?app_nil_r; reflexivity.
Qed.


(** ** The rain view *)

Lemma bind_continues {A B : Type} (m : Streamlit.R A) (k : A -> Streamlit.R B) (a : A)
    (r : Streamlit.R B) :
  fst m = Ok a ->
  (fst (k a) = fst r /\ exists pre, snd (k a) = pre ++ snd r) ->
  fst (Streamlit.bind m k) = fst r /\ exists pre, snd (Streamlit.bind m k) = pre ++ snd r.
Proof.
  destruct m as [[a'|e] w]; cbn [fst]; intros E; [|discriminate E].
  injection E as ->. intros [Hf [pre Hs]]. cbn [Streamlit.bind].
  destruct (k a) as [o w']. cbn [fst snd] in *. split; [exact Hf|].
  exists (w ++ pre). rewrite Hs. now rewrite app_assoc.
Qed.

(** X12. On the rain view, once the probability has been read and the
    gauge drawn, nothing can make the view raise: an exception of the
    detail section ([try: ... except Exception as e]) is caught where it
    happens, and the view ends normally with, as its last widget, the
    message that names the exception, after what the section had written
    so far. *)
Theorem rain_detail_failure_is_contained (strptime : string -> option Z)
    (df : Pandas.DataFrame) (p : float) :
  obind (Pandas.getitem df "rain_probability")
    (fun s => obind (Pandas.iloc0 s) (fun v => Pandas.as_float v)) = Ok p ->
  fst (App.create_rain_probability_gauge strptime df) = Ok tt ->
  fst (App.rain_body strptime df) = Ok tt
  /\ forall (e : exn) (ws' : list Streamlit.widget),
       App.rain_detail strptime df (PrimFloat.mul p 100) = (Raise e, ws') ->
       exists ws,
         snd (App.rain_body strptime df)
         = ws ++ ws' ++ [Streamlit.error [Lit "Lỗi xử lý dữ liệu chi tiết: "; StrExn e]].
Proof.
  intros Hp Hg.
  assert (fst (App.rain_body strptime df)
          = fst (Streamlit.try_except (App.rain_detail strptime df (PrimFloat.mul p 100))
                   (fun e => Streamlit.st
                               (Streamlit.error
                                  [Lit "Lỗi xử lý dữ liệu chi tiết: "; StrExn e])))
          /\ exists pre,
               snd (App.rain_body strptime df)
               = pre ++ snd (Streamlit.try_except
                               (App.rain_detail strptime df (PrimFloat.mul p 100))
                               (fun e => Streamlit.st
                                           (Streamlit.error
                                              [Lit "Lỗi xử lý dữ liệu chi tiết: ";
                                               StrExn e])))) as [Hf [pre Hs]].
  { unfold App.rain_body.
    apply (bind_continues _ _ p); [exact Hp|].
    apply (bind_continues _ _ tt); [reflexivity|].
    destruct (App.view_band (PrimFloat.mul p 100)) as [delta_color message].
    apply (bind_continues _ _ tt); [reflexivity|].
    apply (bind_continues _ _ tt); [reflexivity|].
    apply (bind_continues _ _ tt); [reflexivity|].
    apply (bind_continues _ _ tt); [exact Hg|].
    apply (bind_continues _ _ tt); [reflexivity|].
    apply (bind_continues _ _ tt); [reflexivity|].
    split; [reflexivity|]. exists []. reflexivity. }
  rewrite Hf, Hs. unfold Streamlit.try_except, Streamlit.st.
  destruct (App.rain_detail strptime df (PrimFloat.mul p 100)) as [[[]|e0] wd];
    cbn [fst snd]; (split; [reflexivity|]); intros e ws' E; inversion E; subst.
  exists pre. reflexivity.
Qed.

Lemma rain_detail_failure_is_contained_witness :
  fst (App.rain_body Sample.no_strptime Sample.rain_frame_without_run_time) = Ok tt
  /\ forall (e : exn) (ws' : list Streamlit.widget),
       App.rain_detail Sample.no_strptime Sample.rain_frame_without_run_time
         (PrimFloat.mul 0.75 100) = (Raise e, ws') ->
       exists ws,
         snd (App.rain_body Sample.no_strptime Sample.rain_frame_without_run_time)
         = ws ++ ws' ++ [Streamlit.error [Lit "Lỗi xử lý dữ liệu chi tiết: "; StrExn e]].
Proof.
  apply (rain_detail_failure_is_contained Sample.no_strptime
           Sample.rain_frame_without_run_time 0.75);
    vm_compute; reflexivity.
Defined.

(** ** The day window on the other views *)

(** X13. On the home view every call of the comparison query has a window
    of 3 days and every comparison statement a limit of 72 rows, whatever
    the slider says, and a run with every result empty does make that
    call; the runs of the home, forecast and rain views are the same for
    any two slider values; on the hourly and on the comparison view the
    run makes one call, which carries the slider value, and the statement
    it sends on a miss has the limit of 24 rows a day; so the slider makes
    a difference to these two views. *)
Theorem day_window_scope :
  (forall strptime (wh : App.warehouse) (now : Z) (city : string) (slider : Z)
          (store : App.cache),
      let run := App.main strptime wh now
                   {| App.selected_city := city; App.data_type := App.HOME;
                      App.slider_days := slider |} store in
      Forall (fun c => App.fn c = App.TemperatureComparison -> App.days c = Some 3)
        (App.calls (App.trace run))
      /\ Forall (fun s => App.sql s = App.TemperatureComparison ->
                          App.p_limit s = Some (3 * 24))
           (App.executed (App.trace run)))
  /\ In {| App.sql := App.TemperatureComparison; App.p_city := "Ha Noi City";
           App.p_limit := Some 72 |}
       (App.executed
          (App.trace
             (App.main Sample.no_strptime Sample.empty_warehouse 0
                Sample.home_inputs [])))
  /\ (forall strptime (wh : App.warehouse) (now : Z) (city data_type : string)
            (d1 d2 : Z) (store : App.cache),
        In data_type [App.HOME; App.FORECAST; App.RAIN] ->
        App.main strptime wh now
          {| App.selected_city := city; App.data_type := data_type;
             App.slider_days := d1 |} store
        = App.main strptime wh now
            {| App.selected_city := city; App.data_type := data_type;
               App.slider_days := d2 |} store)
  /\ (forall strptime (wh : App.warehouse) (now : Z) (city : string)
            (slider : Z) (store : App.cache),
        let db_city := Config.get Config.CITIES city city in
        let run := App.main strptime wh now
                     {| App.selected_city := city; App.data_type := App.HOURLY;
                        App.slider_days := slider |} store in
        App.calls (App.trace run)
        = [ {| App.fn := App.HourlyWeather; App.city := db_city;
               App.days := Some slider |} ]
        /\ (App.executed (App.trace run) = []
            \/ App.executed (App.trace run)
               = [ {| App.sql := App.HourlyWeather; App.p_city := db_city;
                      App.p_limit := Some (slider * 24) |} ]))
  /\ (forall strptime (wh : App.warehouse) (now : Z) (city : string)
            (slider : Z) (store : App.cache),
        let db_city := Config.get Config.CITIES city city in
        let run := App.main strptime wh now
                     {| App.selected_city := city; App.data_type := App.COMPARISON;
                        App.slider_days := slider |} store in
        App.calls (App.trace run)
        = [ {| App.fn := App.TemperatureComparison; App.city := db_city;
               App.days := Some slider |} ]
        /\ (App.executed (App.trace run) = []
            \/ App.executed (App.trace run)
               = [ {| App.sql := App.TemperatureComparison; App.p_city := db_city;
                      App.p_limit := Some (slider * 24) |} ]))
  /\ Spec.day_window_affects App.HOURLY
  /\ Spec.day_window_affects App.COMPARISON.
Proof.
  split.
  { intros strptime wh now city slider store run.
    exact (main_home_window strptime wh now city slider store). }
  split.
  { vm_compute. auto 10. }
  split.
  { intros strptime wh now city data_type d1 d2 store Hin.
    apply main_ignores_days. cbn in Hin |- *. tauto. }
  split.
  { intros strptime wh now city slider store db_city run.
    exact (main_windowed_call strptime wh now city App.HOURLY slider store
             (Spec.Hourly db_city slider) (or_introl (conj eq_refl eq_refl))). }
  split.
  { intros strptime wh now city slider store db_city run.
    exact (main_windowed_call strptime wh now city App.COMPARISON slider store
             (Spec.Compare db_city slider) (or_intror (conj eq_refl eq_refl))). }
  exact windowed_views_affected.
Qed.
